(** * drone_makeflow: a shallow embedding of the step orchestrator

    The development follows [drone_makeflow.py]: the string and path
    helpers the module relies on, the environment builder
    ([create_env_json]), the staging manager ([relocate_files]), the
    metadata search ([find_dict_key]) and redaction ([secure_string]), the
    result ingestion and publishing functions, and the sequential loop of
    [process_message].

    Python [str] values are modelled as [string]; Python dicts as
    association lists in insertion order; JSON and YAML payloads as the
    inductive type [value]. [str.lower] is a parameter ([str_lower])
    where the module lowercases keys it knows nothing about, in the
    metadata search; the test of the [.yaml] extension uses [lower], which
    acts on the ASCII letters. *)

From Stdlib Require Import Strings.String Strings.Ascii Lists.List Bool.Bool
  ZArith.ZArith Arith.PeanoNat micromega.Lia.
From Stdlib Require Numbers.DecimalString.
Import ListNotations.

Set Warnings "-register-all".
Local Open Scope list_scope.
Local Open Scope string_scope.

(** ** Python string methods *)

Module PyStr.

Definition chars (s : string) : list ascii := list_ascii_of_string s.
Definition of_chars (l : list ascii) : string := string_of_list_ascii l.

(** [starts p l]: the character list [l] begins with [p]. *)
Fixpoint starts (p l : list ascii) : bool :=
  match p, l with
  | [], _ => true
  | _ :: _, [] => false
  | a :: p', b :: l' => Ascii.eqb a b && starts p' l'
  end.

(** [s.startswith(p)] *)
Definition startswith (s p : string) : bool := starts (chars p) (chars s).

(** [s.endswith(p)] *)
Definition endswith (s p : string) : bool :=
  starts (rev (chars p)) (rev (chars s)).

Definition is_upper (c : ascii) : bool :=
  let n := nat_of_ascii c in (65 <=? n)%nat && (n <=? 90)%nat.

Definition lower_char (c : ascii) : ascii :=
  if is_upper c then ascii_of_nat (nat_of_ascii c + 32) else c.

(** [s.lower()] on the ASCII letters. It is used for the test
    [one_file.lower().endswith('.yaml')] only: no character outside ASCII
    lowercases to one of [.yaml], so the test has the same answer as with
    Python's lowering. *)
Definition lower (s : string) : string := of_chars (map lower_char (chars s)).

Fixpoint dropwhile (f : ascii -> bool) (l : list ascii) : list ascii :=
  match l with
  | [] => []
  | c :: l' => if f c then dropwhile f l' else l
  end.

Definition mem_char (set : string) (c : ascii) : bool :=
  existsb (Ascii.eqb c) (chars set).

(** [s.lstrip(set)] and [s.rstrip(set)] *)
Definition lstrip (s set : string) : string :=
  of_chars (dropwhile (mem_char set) (chars s)).

Definition rstrip (s set : string) : string :=
  of_chars (rev (dropwhile (mem_char set) (rev (chars s)))).

(** [s.rfind(c)] for a one-character needle: the index of the last
    occurrence, [-1] when there is none. *)
Fixpoint rfind_from (i : Z) (c : ascii) (l : list ascii) (found : Z) : Z :=
  match l with
  | [] => found
  | a :: l' => rfind_from (i + 1) c l' (if Ascii.eqb a c then i else found)
  end.

Definition rfind (s : string) (c : ascii) : Z := rfind_from 0 c (chars s) (-1).

(** Slices [s[i:]], [s[:i]] and [s[i:j]] for non-negative indexes. *)
Definition slice_from (s : string) (i : Z) : string :=
  of_chars (skipn (Z.to_nat i) (chars s)).

Definition slice_to (s : string) (i : Z) : string :=
  of_chars (firstn (Z.to_nat i) (chars s)).

Definition slice (s : string) (i j : Z) : string :=
  of_chars (firstn (Z.to_nat j - Z.to_nat i) (skipn (Z.to_nat i) (chars s))).

End PyStr.

(** ** [os.path] on POSIX *)

Module PosixPath.
Import PyStr.

Definition sep : string := "/".

(** One step of [posixpath.join]: an absolute component resets the path,
    an empty path or one ending in the separator takes the component as
    it is, otherwise the separator is inserted. *)
Definition join2 (path b : string) : string :=
  if startswith b sep then b
  else if String.eqb path "" || endswith path sep then path ++ b
  else path ++ sep ++ b.

(** [os.path.join(a, *p)] *)
Definition join (a : string) (p : list string) : string := fold_left join2 p a.

(** [os.path.basename(p)]: [p[p.rfind('/') + 1:]] *)
Definition basename (p : string) : string :=
  slice_from p (rfind p "/" + 1).

(** [os.path.splitext(p)]: the extension starts at the last dot of the last
    component, unless only dots come before it there. *)
Definition splitext (p : string) : string * string :=
  let sepIndex := rfind p "/" in
  let dotIndex := rfind p "." in
  if (sepIndex <? dotIndex)%Z
     && existsb (fun c => negb (Ascii.eqb c "."))
                (chars (slice p (sepIndex + 1) dotIndex))
  then (slice_to p dotIndex, slice_from p dotIndex)
  else (p, "").

End PosixPath.

(** ** Payloads, exceptions and results *)

(** JSON and YAML payloads as Python loads them (floats and dates are left
    out; a dict keeps its insertion order, which [items()] follows). *)
Inductive value : Type :=
| VNone
| VBool (b : bool)
| VInt (z : Z)
| VStr (s : string)
| VList (l : list value)
| VDict (d : list (string * value)).

Definition dict : Type := list (string * value).

(** The exceptions the module raises or lets through. [Unmodelled] stands
    for Python behaviour this development does not describe (format
    specifications and conversions in a template). *)
Inductive exn : Type :=
| RuntimeError (msg : string)
| KeyError (key : string)
| TypeError
| AttributeError
| ValueError
| IndexError
| OSError
| HTTPError
| Unmodelled.

Inductive result (A : Type) : Type :=
| Ok (a : A)
| Raise (e : exn).
Arguments Ok {A} a.
Arguments Raise {A} e.

(** How a computation ends: with a value, with a Python exception, or,
    in the model only, by running out of rounds. *)
Inductive outcome (A : Type) : Type :=
| Returned (a : A)
| Raised (e : exn)
| OutOfRounds.
Arguments Returned {A} a.
Arguments Raised {A} e.
Arguments OutOfRounds {A}.


(** Truth value of a payload in a Python condition. *)
Definition truthy (v : value) : bool :=
  match v with
  | VNone => false
  | VBool b => b
  | VInt z => negb (z =? 0)%Z
  | VStr s => negb (String.eqb s "")
  | VList l => match l with [] => false | _ => true end
  | VDict d => match d with [] => false | _ => true end
  end.

(** [d[key]], [key in d] and [d[key] = v] on a dict with string keys: an
    existing key keeps its place, a new one goes last. *)
Fixpoint dict_get {V : Type} (d : list (string * V)) (key : string) : option V :=
  match d with
  | [] => None
  | (k, v) :: d' => if String.eqb k key then Some v else dict_get d' key
  end.

Definition dict_has {V : Type} (d : list (string * V)) (key : string) : bool :=
  match dict_get d key with Some _ => true | None => false end.

Fixpoint dict_set {V : Type} (d : list (string * V)) (key : string) (v : V)
    : list (string * V) :=
  match d with
  | [] => [(key, v)]
  | (k, x) :: d' =>
      if String.eqb k key then (k, v) :: d' else (k, x) :: dict_set d' key v
  end.

(** ** [int(x)] on payloads *)

Module PyInt.
Import PyStr.

Definition is_space (c : ascii) : bool :=
  let n := nat_of_ascii c in ((9 <=? n) && (n <=? 13) || (n =? 32))%nat.

Definition digit_val (c : ascii) : option Z :=
  let n := nat_of_ascii c in
  if ((48 <=? n) && (n <=? 57))%nat then Some (Z.of_nat (n - 48)) else None.

(** Decimal digits with single underscores between them; [prev] tells
    whether the previous character was a digit. *)
Fixpoint digits (l : list ascii) (acc : Z) (prev : bool) : option Z :=
  match l with
  | [] => if prev then Some acc else None
  | c :: l' =>
      match digit_val c with
      | Some d => digits l' (10 * acc + d)%Z true
      | None =>
          if Ascii.eqb c "_" && prev then
            match l' with
            | [] => None
            | _ => digits l' acc false
            end
          else None
      end
  end.

Definition of_string (s : string) : option Z :=
  let body := rev (dropwhile is_space (rev (dropwhile is_space (chars s)))) in
  match body with
  | [] => None
  | c :: rest =>
      if Ascii.eqb c "-" then option_map Z.opp (digits rest 0 false)
      else if Ascii.eqb c "+" then digits rest 0 false
      else digits body 0 false
  end.

Definition int (v : value) : result Z :=
  match v with
  | VInt z => Ok z
  | VBool b => Ok (if b then 1 else 0)%Z
  | VStr s => match of_string s with Some z => Ok z | None => Raise ValueError end
  | VNone | VList _ | VDict _ => Raise TypeError
  end.

End PyInt.

(** ** The workflow definition *)

(** One entry of [WORKFLOW]. [dataset_name_template] is optional because
    the code tests for the key's presence. *)
Record WorkflowStep : Type := {
  name : string;
  makeflow_file : string;
  docker_version_number : string;
  arguments : option string;
  return_code_success : value -> result bool;
  force_dataset : bool;
  dataset_name_template : option string
}.

(** [lambda code: int(code) == 0] *)
Definition code_is_zero (code : value) : result bool :=
  match PyInt.int code with
  | Ok z => Ok (z =? 0)%Z
  | Raise e => Raise e
  end.

Definition odm_workflow_step : WorkflowStep :=
  {| name := "OpenDroneMap workflow";
     makeflow_file := "odm_workflow.jx";
     docker_version_number := "2.0";
     arguments := None;
     return_code_success := code_is_zero;
     force_dataset := true;
     dataset_name_template := Some "{date}_{experiment}_{name}" |}.

Definition soil_mask_workflow_step : WorkflowStep :=
  {| name := "Soil Mask workflow";
     makeflow_file := "soil_mask_workflow.jx";
     docker_version_number := "2.0";
     arguments := None;
     return_code_success := code_is_zero;
     force_dataset := false;
     dataset_name_template := Some "{date}_{experiment}_{name}" |}.

Definition WORKFLOW : list WorkflowStep :=
  [odm_workflow_step; soil_mask_workflow_step].

(** The request's resource: the local input files and the optional
    identity of the dataset or file the request came with. *)
Record Resource : Type := {
  local_paths : list string;
  res_type : option string;
  res_id : option string;
  res_parent : option (option string * option string)
}.

(** ** The environment builder *)

Record Env : Type := {
  IMAGE_MOUNT_SOURCE : string;
  DOCKER_VERSION : string;
  BASE_DIR : string;
  RELATIVE_WORKING_FOLDER : string;
  CACHE_DIR : string;
  DATA_FOLDER_NAME : string;
  EXPERIMENT_METADATA_FILENAME : string;
  RESULTS_FILE_PATH : string
}.

Import PyStr PosixPath.

(** The test of the search loop: [one_file.lower().endswith('.yaml')]. *)
Definition is_experiment_file (one_file : string) : bool :=
  endswith (lower one_file) ".yaml".

Definition create_env_json (out_folder image_subfolder mount_volume_name : string)
    (workflow_step : WorkflowStep) (resources : Resource) : result Env :=
  let data_folder_name :=
    lstrip (fst (splitext (basename (makeflow_file workflow_step)))) "/\" in
  let base_dir := "/mnt/" in
  let relative_working_folder :=
    rstrip (lstrip (join image_subfolder [data_folder_name]) "/\") "/\" ++ "/" in
  let cache_dir := join base_dir [relative_working_folder; "cache"] ++ "/" in
  let data_folder := lstrip (join relative_working_folder ["images"]) "/\" in
  match find is_experiment_file (local_paths resources) with
  | Some found_experiment =>
      Ok {| IMAGE_MOUNT_SOURCE := mount_volume_name;
            DOCKER_VERSION := docker_version_number workflow_step;
            BASE_DIR := base_dir;
            RELATIVE_WORKING_FOLDER := relative_working_folder;
            CACHE_DIR := cache_dir;
            DATA_FOLDER_NAME := data_folder;
            EXPERIMENT_METADATA_FILENAME := basename found_experiment;
            RESULTS_FILE_PATH := join out_folder ["results.json"] |}
  | None => Raise (RuntimeError "Unable to find an experiment JSON file")
  end.

(** ** The metadata search: helpers *)

(** The first loop when it runs to its end without a match: the dict-valued
    entries of the level, in order ([dict_checks]). *)
Definition dict_checks (haystack : dict) : list dict :=
  flat_map (fun kv => match snd kv with VDict d => [d] | _ => [] end) haystack.

(** The first result of a list of searches, tried in order. *)
Fixpoint first_found {A B : Type} (f : A -> option B) (l : list A) : option B :=
  match l with
  | [] => None
  | a :: l' => match f a with Some b => Some b | None => first_found f l' end
  end.

(** ** [str.format] with keyword arguments *)

Module PyFormat.
Import PyStr.

Definition is_digit (c : ascii) : bool :=
  let n := nat_of_ascii c in ((48 <=? n) && (n <=? 57))%nat.

(** A replacement field whose text is [field]: a plain name is looked up
    among the keyword arguments; an empty or numeric name asks for a
    positional argument, and there is none. A field with a conversion
    ([!]), a format specification ([:]), an attribute ([.]) or an index
    ([[]) is formatted by Python in ways that are not described here: the
    answer [Unmodelled] marks it, and no property is stated of it. *)
Definition replace_field (kwargs : list (string * string)) (field : list ascii)
    : result string :=
  if existsb (mem_char "!:.[") field then Raise Unmodelled
  else if forallb is_digit field then Raise IndexError
  else match dict_get kwargs (of_chars field) with
       | Some s => Ok s
       | None => Raise (KeyError (of_chars field))
       end.

(** The scanner: [field] is [None] in literal text and holds the
    characters read so far (last first) inside a replacement field. *)
Fixpoint scan (kwargs : list (string * string)) (l : list ascii)
    (field : option (list ascii)) (out : string) : result string :=
  match l with
  | [] => match field with None => Ok out | Some _ => Raise ValueError end
  | c :: l' =>
      match field with
      | Some acc =>
          if Ascii.eqb c "}" then
            match replace_field kwargs (rev acc) with
            | Ok s => scan kwargs l' None (out ++ s)
            | Raise e => Raise e
            end
          else if Ascii.eqb c "{" then Raise Unmodelled
          else scan kwargs l' (Some (c :: acc)) out
      | None =>
          if Ascii.eqb c "{" then
            match l' with
            | c' :: l'' =>
                if Ascii.eqb c' "{" then scan kwargs l'' None (out ++ "{")
                else scan kwargs l' (Some []) out
            | [] => Raise ValueError
            end
          else if Ascii.eqb c "}" then
            match l' with
            | c' :: l'' =>
                if Ascii.eqb c' "}" then scan kwargs l'' None (out ++ "}")
                else Raise ValueError
            | [] => Raise ValueError
            end
          else scan kwargs l' None (out ++ String c "")
      end
  end.

(** [template.format] called with the keyword arguments [kwargs] *)
Definition format (template : string) (kwargs : list (string * string))
    : result string :=
  scan kwargs (chars template) None "".

End PyFormat.

(** The dataset name of [process_result_dataset]. *)
Definition dataset_name (workflow_step : WorkflowStep)
    (experiment_info : list (string * string)) : result string :=
  match dataset_name_template workflow_step with
  | Some template => PyFormat.format template experiment_info
  | None => PyFormat.format "{name}_{date}_{experiment}" experiment_info
  end.

(** ** Operators on payloads *)

Module PyVal.
Import PyStr.

(** [sub in s] on strings. *)
Fixpoint contains (l sub : list ascii) : bool :=
  starts sub l || match l with [] => false | _ :: l' => contains l' sub end.

(** [key in v] for a string [key]. *)
Definition has (key : string) (v : value) : result bool :=
  match v with
  | VDict d => Ok (dict_has d key)
  | VList l =>
      Ok (existsb (fun x => match x with VStr s => String.eqb s key | _ => false end) l)
  | VStr s => Ok (contains (chars s) (chars key))
  | VNone | VBool _ | VInt _ => Raise TypeError
  end.

(** [v[key]] for a string [key]. *)
Definition getitem (v : value) (key : string) : result value :=
  match v with
  | VDict d => match dict_get d key with Some x => Ok x | None => Raise (KeyError key) end
  | _ => Raise TypeError
  end.

(** The elements a [for] loop over [v] goes through. *)
Definition iter (v : value) : result (list value) :=
  match v with
  | VList l => Ok l
  | VDict d => Ok (map (fun kv => VStr (fst kv)) d)
  | VStr s => Ok (map (fun c => VStr (String c "")) (chars s))
  | VNone | VBool _ | VInt _ => Raise TypeError
  end.

Definition optional_str (o : option string) : value :=
  match o with Some s => VStr s | None => VNone end.

End PyVal.

(** ** The outside world *)

(** What [relocate_files] is given as [resources]: the request's resource
    (a dict), a folder path (a str), or anything else. *)
Inductive stage_source : Type :=
| SrcResource (r : Resource)
| SrcFolder (path : string)
| SrcNeither.

Inductive loader : Type := YamlSafeLoad | JsonLoad.

(** The calls that leave the module: the file system, the workflow engine,
    the parsers, the repository and the extractor framework. *)
Inductive call : Type :=
| Mkdtemp (dir : string)
| Makedirs (path : string)
| Chmod (path : string) (mode : Z)
| Listdir (path : string)
| Copyfile (src dst : string)
| Isfile (path : string)
| Isdir (path : string)
| PathExists (path : string)
| DumpEnv (path : string) (env : Env)
| Popen (cmd : list string)
| Now
| Readline
| Poll
| Sleep (seconds : Z)
| LoadFile (path : string) (how : loader)
| GetDatasetidByName (host key dataset_name : string)
| RequestsPost (url : string) (body : value)
| RequestsDelete (url : string)
| UploadToDataset (host key : string) (dataset_id path : value)
| FilesUploadMetadata (host key : string) (file_id metadata : value)
| DatasetsRemoveMetadata (host key : string) (dataset_id : value)
| DatasetsUploadMetadata (host key : string) (dataset_id metadata : value)
| StartMessage
| SuperProcessMessage
| EndMessage.

Inductive reply : Type :=
| Done
| Truth (b : bool)
| Text (s : string)
| Names (l : list string)
| Payload (v : value)
| Clock (microseconds : Z)
| Nothing
| Failed (e : exn).

(** The record of a run: the calls with their replies, and a mark for every
    entry into [relocate_files] with the arguments it was given. *)
Inductive event : Type :=
| Called (c : call) (r : reply)
| Staging (env : Env) (resources : stage_source).

(** The publishing calls: a dataset looked up or created, a file uploaded,
    metadata removed or attached. *)
Definition is_publishing (e : event) : bool :=
  match e with
  | Called (GetDatasetidByName _ _ _) _
  | Called (RequestsPost _ _) _
  | Called (RequestsDelete _) _
  | Called (UploadToDataset _ _ _ _) _
  | Called (FilesUploadMetadata _ _ _ _) _
  | Called (DatasetsRemoveMetadata _ _ _) _
  | Called (DatasetsUploadMetadata _ _ _ _) _ => true
  | _ => false
  end.

(** The staging calls of a run, in order. *)
Fixpoint stagings (tr : list event) : list (Env * stage_source) :=
  match tr with
  | [] => []
  | Staging env src :: tr' => (env, src) :: stagings tr'
  | Called _ _ :: tr' => stagings tr'
  end.

(** The timeouts of the wait for the engine, in seconds. *)
Definition PROC_WAIT_SLEEP_SEC : Z := 5.
Definition PROC_WAIT_TOTAL_SEC : Z := 24 * 60 * 60.

(** [CREATED_FOLDER_PERMISSIONS]: read, write and execute for user, group
    and others. *)
Definition CREATED_FOLDER_PERMISSIONS : Z :=
  Z.lor 256 (Z.lor 128 (Z.lor 64 (Z.lor 32 (Z.lor 16 (Z.lor 8 (Z.lor 4 (Z.lor 2 1))))))).

(** The audit metadata of a step: a deep copy of the step, to which a
    ['password'] entry may be added. *)
Record WorkstepMetadata : Type := {
  ws_step : WorkflowStep;
  ws_password : option value
}.

(** The loader picked for the experiment file. *)
Definition load_func (experiment_path : string) : loader :=
  let ext := snd (splitext experiment_path) in
  if String.eqb ext ".yml" || String.eqb ext ".yaml" then YamlSafeLoad else JsonLoad.

(** ** A sample request

    A world in which every call succeeds, used to run the model on concrete
    inputs: the temporary folder is [tmpjhvq63gh], folders list an
    experiment file and an image, the experiment file carries clowder
    credentials and the results file a container with one file. *)

Module Sample.

Definition experiment : dict :=
  [ ("date", VStr "2020-01-01"); ("experiment", VStr "trial1");
    ("name", VStr "OpenDroneMap workflow");
    ("clowder", VDict [("username", VStr "u"); ("password", VStr "p")]) ].

Definition results (code : Z) : value :=
  VDict [ ("code", VInt code); ("speed", VInt 3);
          ("container",
           VDict [("file",
                   VList [VDict [("path", VStr "/mnt/a.tif");
                                 ("metadata", VDict [("k", VInt 1)])]])]) ].

(** The world counts the calls it has answered, and its clock shows one
    second for each of them; the process has ended when it is first polled;
    the results file reports the code [code]. *)
Definition respond (code : Z) (w : nat) (c : call) : reply * nat :=
  (match c with
   | Mkdtemp dir => Text (dir ++ "/tmpjhvq63gh")
   | Listdir _ => Names ["exp.yaml"; "ortho.tif"]
   | Isfile _ => Truth true
   | Isdir _ => Truth false
   | PathExists _ => Truth true
   | Now => Clock (Z.of_nat w * 1000000)
   | Readline => Text ""
   | Poll => Payload (VInt 0)
   | LoadFile _ YamlSafeLoad => Payload (VDict experiment)
   | LoadFile _ JsonLoad => Payload (results code)
   | GetDatasetidByName _ _ _ => Payload VNone
   | RequestsPost _ _ => Payload (VDict [("id", VStr "ds1")])
   | UploadToDataset _ _ _ _ => Payload (VStr "f1")
   | _ => Done
   end, S w).

(** Worlds for the wait loop: the clock is read off [clock], which takes
    the number of readings given so far (the state of the world); every
    poll answers [polled]; the process prints nothing; every other call is
    answered as above. *)
Definition scripted (clock : nat -> Z) (polled : value) (w : nat) (c : call)
    : reply * nat :=
  match c with
  | Now => (Clock (clock w), S w)
  | Poll => (Payload polled, w)
  | Readline => (Text "", w)
  | _ => (fst (respond 0 w c), w)
  end.

(** The launch and the first test of the wait loop at 0, the check after
    the first round 86400 seconds later, the test that follows one
    microsecond after that. *)
Definition stuck_clock (readings : nat) : Z :=
  match readings with
  | 0 | 1 => 0
  | 2 => 86400000000
  | _ => 86400000001
  end.

(** The first round takes 25 hours. *)
Definition late_clock (readings : nat) : Z :=
  match readings with
  | 0 | 1 => 0
  | _ => 90000000000
  end.

(** A process that never exits, on the clock [stuck_clock]. *)
Definition stuck_respond : nat -> call -> reply * nat :=
  scripted stuck_clock VNone.

Definition resource : Resource :=
  {| local_paths := ["/in/a.tif"; "/in/exp.yaml"];
     res_type := Some "dataset"; res_id := Some "d0"; res_parent := None |}.

(** A resource set whose experiment descriptor is named [.json] or [.yml]. *)
Definition resource_json : Resource :=
  {| local_paths := ["/in/a.tif"; "/in/exp.json"; "/in/exp.yml"];
     res_type := Some "dataset"; res_id := Some "d0"; res_parent := None |}.

(** An encryption that always fails, and one that encrypts every str. *)
Definition no_key (plain_text : value) : option string := None.
Definition with_key (plain_text : value) : option string :=
  match plain_text with
  | VStr p => Some ("gAAAA" ++ p)
  | _ => None
  end.

Definition repr (v : value) : string := "<container>".



(** The descriptor of the dataset-name scenario: no [name] entry. *)
Definition experiment_unnamed : dict :=
  [ ("date", VStr "2020-01-01"); ("experiment", VStr "trial1") ].

(** A repository that already holds the dataset of the step. *)
Definition respond_existing (w : nat) (c : call) : reply * nat :=
  match c with
  | GetDatasetidByName _ _ _ => (Payload (VStr "ds0"), S w)
  | _ => respond 0 w c
  end.

(** A repository that refuses to remove metadata and returns no id for an
    upload. *)
Definition respond_failing (w : nat) (c : call) : reply * nat :=
  match c with
  | RequestsDelete _ | DatasetsRemoveMetadata _ _ _ => (Failed HTTPError, S w)
  | UploadToDataset _ _ _ _ => (Payload VNone, S w)
  | _ => respond 0 w c
  end.

(** A repository whose uploads answer with an id made from the path. *)
Definition respond_ids (w : nat) (c : call) : reply * nat :=
  match c with
  | UploadToDataset _ _ _ (VStr path) => (Payload (VStr ("id of " ++ path)), S w)
  | _ => respond 0 w c
  end.

(** The environment of the first step, as [create_env_json] builds it for
    the temporary folder [/mnt/tmpjhvq63gh]. *)
Definition env : Env :=
  {| IMAGE_MOUNT_SOURCE := "testing";
     DOCKER_VERSION := "2.0";
     BASE_DIR := "/mnt/";
     RELATIVE_WORKING_FOLDER := "tmpjhvq63gh/odm_workflow/";
     CACHE_DIR := "/mnt/tmpjhvq63gh/odm_workflow/cache/";
     DATA_FOLDER_NAME := "tmpjhvq63gh/odm_workflow/images";
     EXPERIMENT_METADATA_FILENAME := "exp.yaml";
     RESULTS_FILE_PATH := "/mnt/tmpjhvq63gh/results.json" |}.

(** A file result with metadata, and one without. *)
Definition file_result : value :=
  VDict [("path", VStr "/mnt/a.tif"); ("metadata", VDict [("k", VInt 1)])].
Definition plain_result : value := VDict [("path", VStr "/mnt/b.tif")].

End Sample.

(** ** The orchestrator

    The encryption of [terrautils.secure], Python's [repr] of containers,
    the outside world and the folder of the script are taken as given. *)

Section Orchestrator.

(** [str.lower], of which nothing is assumed here. *)
Variable str_lower : string -> string.

(** [terrautils.secure.encrypt_pipeline_string], which is handed whatever
    the descriptor holds as password, a str or not, and answers [None]
    when it cannot encrypt it. *)
Variable encrypt_pipeline_string : value -> option string.
Variable repr_container : value -> string.
Variable World : Type.
Variable respond : World -> call -> reply * World.
Variable script_dir : string.

(** The two loops of the wait for the engine have no bound of their own;
    the model lets each run for [rounds] rounds and gives up after that. *)
Variable rounds : nat.

(** *** The metadata search *)

(** The test of the first loop of [find_dict_key]:
    [one_key == check_key or (case_insensitive and one_key.lower() == check_key)]. *)
Definition key_matches (case_insensitive : bool) (check_key one_key : string) : bool :=
  String.eqb one_key check_key
  || (case_insensitive && String.eqb (str_lower one_key) check_key).

(** The first item of the level whose key matches. *)
Definition level_match (case_insensitive : bool) (check_key : string)
    (haystack : dict) : option (string * value) :=
  find (fun kv => key_matches case_insensitive check_key (fst kv)) haystack.

(** The body of [find_dict_key] once [check_key] is computed: the level is
    scanned first, then the nested dicts are searched in order, each with a
    case-sensitive comparison against [check_key]. *)
Fixpoint search (v : value) (check_key : string) (case_insensitive : bool)
    {struct v} : option (string * value) :=
  match v with
  | VDict haystack =>
      match level_match case_insensitive check_key haystack with
      | Some found => Some found
      | None =>
          (fix checks (items : list (string * value)) : option (string * value) :=
             match items with
             | [] => None
             | (_, one_check) :: rest =>
                 match one_check with
                 | VDict _ =>
                     match search one_check check_key false with
                     | Some found => Some found
                     | None => checks rest
                     end
                 | _ => checks rest
                 end
             end) haystack
      end
  | _ => None
  end.

Definition find_dict_key (haystack : dict) (key : string) (case_insensitive : bool)
    : option (string * value) :=
  let check_key := if case_insensitive then str_lower key else key in
  search (VDict haystack) check_key case_insensitive.



(** *** Redaction *)

(** [plain_text] is annotated as a str; the function does not test it,
    and is called with the password as the descriptor has it. *)
Definition secure_string (plain_text : value) : string :=
  match encrypt_pipeline_string plain_text with
  | Some encrypted => "secured:" ++ encrypted
  | None => "<removed>"
  end.

(** [str(v)] *)
Definition py_str (v : value) : string :=
  match v with
  | VNone => "None"
  | VBool true => "True"
  | VBool false => "False"
  | VInt z => DecimalString.NilEmpty.string_of_int (Z.to_int z)
  | VStr s => s
  | VList _ | VDict _ => repr_container v
  end.

(** *** Reconciling the experiment metadata *)

Record Reconciled : Type := {
  experiment_info : list (string * string);
  clowder_info : dict;
  workstep_metadata : WorkstepMetadata
}.

(** The three conditional writes that follow the searches in the clowder
    section. The values found are kept as they are, whatever their type;
    the password goes through [secure_string] on its way to the audit
    metadata. *)
Definition record_credentials (current_step : WorkflowStep)
    (space username password : option (string * value))
    : dict * WorkstepMetadata :=
  let info0 : dict := [] in
  let audit0 := None in
  let '(info1, audit1) :=
    match space with
    | Some (_, v) => (dict_set info0 "space" v, Some v)
    | None => (info0, audit0)
    end in
  let '(info2, audit2) :=
    match username with
    | Some (_, v) => (dict_set info1 "username" v, Some v)
    | None => (info1, audit1)
    end in
  let '(info3, audit3) :=
    match password with
    | Some (_, v) =>
        (dict_set info2 "password" v, Some (VStr (secure_string v)))
    | None => (info2, audit2)
    end in
  (info3, {| ws_step := current_step; ws_password := audit3 |}).

Definition reconcile (current_step : WorkflowStep) (experiment_metadata : value)
    : result Reconciled :=
  let untouched := {| ws_step := current_step; ws_password := None |} in
  if truthy experiment_metadata then
    match experiment_metadata with
    | VDict md =>
        let info :=
          fold_left (fun acc kv => dict_set acc (fst kv) (py_str (snd kv))) md [] in
        match find_dict_key md "clowder" true with
        | Some (_, VDict section) =>
            let '(creds, audit) :=
              record_credentials current_step
                (find_dict_key section "space" true)
                (find_dict_key section "username" true)
                (find_dict_key section "password" true) in
            Ok {| experiment_info := info; clowder_info := creds;
                  workstep_metadata := audit |}
        | Some (_, _) => Raise AttributeError
        | None =>
            Ok {| experiment_info := info; clowder_info := [];
                  workstep_metadata := untouched |}
        end
    | _ => Raise AttributeError
    end
  else Ok {| experiment_info := []; clowder_info := [];
             workstep_metadata := untouched |}.

(** *** Effects: the world, the record of the run, and exceptions *)

Record state : Type := { world : World; trace : list event }.

Definition M (A : Type) : Type := state -> outcome A * state.

Definition ret {A : Type} (a : A) : M A := fun s => (Returned a, s).

Definition raise {A : Type} (e : exn) : M A := fun s => (Raised e, s).

Definition out_of_rounds {A : Type} : M A := fun s => (OutOfRounds, s).

Definition bind {A B : Type} (m : M A) (k : A -> M B) : M B :=
  fun s => match m s with
           | (Returned a, s') => k a s'
           | (Raised e, s') => (Raised e, s')
           | (OutOfRounds, s') => (OutOfRounds, s')
           end.

(** [try: m except Exception: handler] *)
Definition catch {A : Type} (m : M A) (handler : exn -> M A) : M A :=
  fun s => match m s with
           | (Returned a, s') => (Returned a, s')
           | (Raised e, s') => handler e s'
           | (OutOfRounds, s') => (OutOfRounds, s')
           end.

Definition lift {A : Type} (r : result A) : M A :=
  fun s => match r with
           | Ok a => (Returned a, s)
           | Raise e => (Raised e, s)
           end.

(** A call to the outside: the world answers and moves on, the call and
    its reply are recorded. *)
Definition perform (c : call) : M reply :=
  fun s => let '(r, w) := respond (world s) c in
           (Returned r, {| world := w; trace := (trace s ++ [Called c r])%list |}).

Definition mark (e : event) : M unit :=
  fun s => (Returned tt, {| world := world s; trace := (trace s ++ [e])%list |}).

Notation "x <- m ;; k" := (bind m (fun x => k))
  (at level 61, m at next level, right associativity).
Notation "m ;;; k" := (bind m (fun _ => k))
  (at level 61, right associativity).

(** A call that returns nothing. *)
Definition command (c : call) : M unit :=
  r <- perform c ;;
  match r with
  | Done => ret tt
  | Failed e => raise e
  | _ => raise TypeError
  end.

(** A call that answers yes or no. *)
Definition question (c : call) : M bool :=
  r <- perform c ;;
  match r with
  | Truth b => ret b
  | Failed e => raise e
  | _ => raise TypeError
  end.

(** A call that returns a str. *)
Definition ask_text (c : call) : M string :=
  r <- perform c ;;
  match r with
  | Text s => ret s
  | Failed e => raise e
  | _ => raise TypeError
  end.

(** A call that returns a str or [None]. *)
Definition ask_optional (c : call) : M (option string) :=
  r <- perform c ;;
  match r with
  | Text s => ret (Some s)
  | Nothing => ret None
  | Failed e => raise e
  | _ => raise TypeError
  end.

(** A call that returns a parsed payload. *)
Definition ask_payload (c : call) : M value :=
  r <- perform c ;;
  match r with
  | Payload v => ret v
  | Failed e => raise e
  | _ => raise TypeError
  end.

Definition ask_names (c : call) : M (list string) :=
  r <- perform c ;;
  match r with
  | Names l => ret l
  | Failed e => raise e
  | _ => raise TypeError
  end.

(** [for x in l: acc = body(acc, x)] *)
Fixpoint for_each {A S : Type} (l : list A) (body : S -> A -> M S) (acc : S) : M S :=
  match l with
  | [] => ret acc
  | x :: l' => acc' <- body acc x ;; for_each l' body acc'
  end.

(** *** Staging *)

Definition create_folder_default_perms (folder_path : string) : M unit :=
  command (Makedirs folder_path) ;;;
  command (Chmod folder_path CREATED_FOLDER_PERMISSIONS).

(** One round of the copy loop of [relocate_files]. *)
Definition relocate_one (env : Env) (dest_dir : string)
    (updated_experiment_metadata_path : option string) (one_file : string)
    : M (option string) :=
  if endswith one_file (EXPERIMENT_METADATA_FILENAME env) then
    let updated :=
      join (BASE_DIR env) [RELATIVE_WORKING_FOLDER env; basename one_file] in
    command (Copyfile one_file updated) ;;;
    ret (Some updated)
  else
    is_file <- question (Isfile one_file) ;;
    if is_file then
      command (Copyfile one_file (join dest_dir [basename one_file])) ;;;
      ret updated_experiment_metadata_path
    else
      _ <- question (Isdir one_file) ;;
      ret updated_experiment_metadata_path.

Definition relocate_files (env : Env) (resources : stage_source)
    : M (string * option string) :=
  mark (Staging env resources) ;;;
  let dest_dir := join (BASE_DIR env) [lstrip (DATA_FOLDER_NAME env) "/"] in
  create_folder_default_perms dest_dir ;;;
  source_list <-
    match resources with
    | SrcResource r => ret (local_paths r)
    | SrcFolder folder =>
        file_names <- ask_names (Listdir folder) ;;
        ret (map (fun file_name => join folder [file_name]) file_names)
    | SrcNeither =>
        raise (RuntimeError
          "Parameter 'resource' must be of type dict or str for relocate_files() call")
    end ;;
  updated_experiment_metadata_path <-
    for_each source_list (relocate_one env dest_dir) None ;;
  let source_filename := join script_dir ["cache_results.py"] in
  let dest_filename :=
    join (BASE_DIR env) [RELATIVE_WORKING_FOLDER env; basename source_filename] in
  command (Copyfile source_filename dest_filename) ;;;
  ret (dest_dir, updated_experiment_metadata_path).

Definition setup_processing_step (env : Env) (out_folder : string)
    (workflow_step : WorkflowStep) : M unit :=
  command (DumpEnv (join out_folder ["env.json"]) env).

(** *** Publishing *)

Definition prepare_metadata (host version creator_name : string) (metadata : value)
    (target_id : value) (target_is_dataset : bool) : result value :=
  match PyVal.has "@context" metadata with
  | Raise e => Raise e
  | Ok true => Ok metadata
  | Ok false =>
      Ok (VDict
        [ ("@context",
           VList [VStr "https://clowder.ncsa.illinois.edu/contexts/metadata.jsonld"]);
          ("content", metadata);
          ("agent", VDict
             [ ("@type", VStr "cat:extractor");
               ("extractor_id",
                VStr (host ++ (if endswith host "/" then "" else "/")
                           ++ "api/extractors/" ++ creator_name));
               ("version", VStr version);
               ("name", VStr creator_name) ]);
          (if target_is_dataset then "dataset_id" else "file_id", target_id) ])
  end.

Definition create_dataset (host request_key dataset_name : string) : M value :=
  let url := host ++ "api/datasets/createempty?key=" ++ request_key in
  return_json <-
    ask_payload (RequestsPost url
      (VDict [("name", VStr dataset_name); ("description", VStr "")])) ;;
  has_id <- lift (PyVal.has "id" return_json) ;;
  if has_id then lift (PyVal.getitem return_json "id")
  else raise (RuntimeError
         "Return result from creating dataset has changed and is not supported").

Definition update_file_metadata (file_id : value) (replace_metadata : bool)
    (metadata : value) (host request_key : string) : M unit :=
  catch
    ((if replace_metadata then
        command (RequestsDelete
          (host ++ "api/files/" ++ py_str file_id ++ "/metadata.jsonld?key="
                ++ request_key))
      else ret tt) ;;;
     command (FilesUploadMetadata host request_key file_id metadata))
    (fun _ => ret tt).

Definition update_dataset_metadata (dataset_id : value) (replace_metadata : bool)
    (host request_key : string) (container_metadata process_metadata : option value)
    : M unit :=
  (match container_metadata with
   | Some md =>
       if truthy md then
         (if replace_metadata then
            command (DatasetsRemoveMetadata host request_key dataset_id)
          else ret tt) ;;;
         command (DatasetsUploadMetadata host request_key dataset_id md)
       else ret tt
   | None => ret tt
   end) ;;;
  match process_metadata with
  | Some md =>
      if truthy md then command (DatasetsUploadMetadata host request_key dataset_id md)
      else ret tt
  | None => ret tt
  end.

(** The lines that [upload_files] and [process_result_dataset] share: the
    replace flag (true unless a ['replace'] entry says otherwise) and the
    metadata to send (the ['data'] entry when there is one). *)
Definition metadata_policy (metadata : value) : result (bool * value) :=
  match PyVal.has "replace" metadata with
  | Raise e => Raise e
  | Ok has_replace =>
      match (if has_replace then
               match PyVal.getitem metadata "replace" with
               | Ok flag => Ok (truthy flag)
               | Raise e => Raise e
               end
             else Ok true) with
      | Raise e => Raise e
      | Ok replace_metadata =>
          match PyVal.has "data" metadata with
          | Raise e => Raise e
          | Ok true =>
              match PyVal.getitem metadata "data" with
              | Ok working_metadata => Ok (replace_metadata, working_metadata)
              | Raise e => Raise e
              end
          | Ok false => Ok (replace_metadata, metadata)
          end
      end
  end.

(** One round of the loop of [upload_files]. *)
Definition upload_one (dataset_id : value) (workflow_step : WorkflowStep)
    (host request_key : string) (uploaded_files : list value) (one_result : value)
    : M (list value) :=
  path <- lift (PyVal.getitem one_result "path") ;;
  uploaded <- ask_payload (UploadToDataset host request_key dataset_id path) ;;
  file_id <-
    match uploaded with
    | VNone => raise (RuntimeError "Unable to upload file to dataset ID")
    | _ => ret uploaded
    end ;;
  has_metadata <- lift (PyVal.has "metadata" one_result) ;;
  (if has_metadata then
     metadata <- lift (PyVal.getitem one_result "metadata") ;;
     policy <- lift (metadata_policy metadata) ;;
     prepared_metadata <-
       lift (prepare_metadata host (docker_version_number workflow_step)
               (makeflow_file workflow_step) (snd policy) file_id false) ;;
     update_file_metadata file_id (fst policy) prepared_metadata host request_key
   else ret tt) ;;;
  match one_result with
  | VDict d => ret (uploaded_files ++ [VDict (dict_set d "id" file_id)])%list
  | _ => raise TypeError
  end.

Definition upload_files (dataset_id : value) (file_results : value)
    (workflow_step : WorkflowStep) (host request_key : string) : M (list value) :=
  results <- lift (PyVal.iter file_results) ;;
  for_each results (upload_one dataset_id workflow_step host request_key) [].

(** The dataset the files go to: the request's own dataset, or the parent
    dataset of the request's file. *)
Definition is_kind (kind : string) (o : option string) : bool :=
  match o with Some s => String.eqb s kind | None => false end.

Definition target_dataset_id (resources : Resource) : option string :=
  match res_id resources with
  | Some id =>
      if is_kind "dataset" (res_type resources) then Some id else None
  | None => None
  end.

Definition parent_dataset_id (resources : Resource) : option string :=
  if is_kind "file" (res_type resources) then
    match res_parent resources with
    | Some (parent_type, Some parent_id) =>
        if is_kind "dataset" parent_type then Some parent_id else None
    | _ => None
    end
  else None.

Definition process_result_file (file_results : value)
    (experiment_info : list (string * string)) (workflow_step : WorkflowStep)
    (process_metadata : dict) (host request_key : string)
    (workstep_metadata : WorkstepMetadata) (clowder_credentials : dict)
    (resources : Resource) : M (list value) :=
  let dataset_id :=
    match target_dataset_id resources with
    | Some id => Some id
    | None => parent_dataset_id resources
    end in
  match dataset_id with
  | None => raise (RuntimeError "Unable to find dataset ID to place files into")
  | Some id => upload_files (VStr id) file_results workflow_step host request_key
  end.

Definition process_result_dataset (container_results : value)
    (experiment_info : list (string * string)) (workflow_step : WorkflowStep)
    (process_metadata : dict) (host request_key : string)
    (workstep_metadata : WorkstepMetadata) (clowder_credentials : dict)
    (resources : Resource) : M value :=
  dataset_name <- lift (dataset_name workflow_step experiment_info) ;;
  found <- ask_payload (GetDatasetidByName host request_key dataset_name) ;;
  created <-
    match found with
    | VNone =>
        new_id <- create_dataset host request_key dataset_name ;;
        ret (new_id, true)
    | _ => ret (found, false)
    end ;;
  let dataset_id := fst created in
  uploaded_files <-
    for_each ["file"; "files"]
      (fun uploaded_files key =>
         has_key <- lift (PyVal.has key container_results) ;;
         if has_key then
           file_results <- lift (PyVal.getitem container_results key) ;;
           upload_files dataset_id file_results workflow_step host request_key
         else ret uploaded_files)
      [] ;;
  has_metadata <- lift (PyVal.has "metadata" container_results) ;;
  container <-
    (if has_metadata then
       metadata <- lift (PyVal.getitem container_results "metadata") ;;
       policy <- lift (metadata_policy metadata) ;;
       prepared <-
         lift (prepare_metadata host (docker_version_number workflow_step)
                 (makeflow_file workflow_step) (snd policy) dataset_id true) ;;
       ret (fst policy, Some prepared)
     else ret (true, None)) ;;
  prepared_process_metadata <-
    (match process_metadata with
     | [] => ret None
     | _ =>
         prepared <-
           lift (prepare_metadata host (docker_version_number workflow_step)
                   (makeflow_file workflow_step) (VDict process_metadata)
                   dataset_id true) ;;
         ret (Some prepared)
     end) ;;
  update_dataset_metadata dataset_id (fst container) host request_key
    (snd container) prepared_process_metadata ;;;
  ret (VList [VDict [("id", dataset_id); ("created", VBool (snd created));
                     ("file_ids", VList uploaded_files)]]).

(** *** Result ingestion *)

Definition reserved_keys : list string :=
  ["container"; "file"; "files"; "code"; "error"; "message"].

(** The entries of the results that are forwarded as process metadata (the
    code goes through them in set order; here they keep their order). *)
Definition process_metadata_of (proc_results : dict) : dict :=
  filter (fun kv => negb (existsb (String.eqb (fst kv)) reserved_keys)) proc_results.

Definition process_results_json (proc_results : value)
    (experiment_info : list (string * string)) (workflow_step : WorkflowStep)
    (host request_key : string) (workstep_metadata : WorkstepMetadata)
    (clowder_credentials : dict) (resources : Resource) : M bool :=
  code <- lift (PyVal.getitem proc_results "code") ;;
  success <- lift (return_code_success workflow_step code) ;;
  if negb success then ret false
  else
    process_metadata <-
      match proc_results with
      | VDict d => ret (process_metadata_of d)
      | _ => raise AttributeError
      end ;;
    has_container <- lift (PyVal.has "container" proc_results) ;;
    (if has_container then
       container <- lift (PyVal.getitem proc_results "container") ;;
       process_result_dataset container experiment_info workflow_step
         process_metadata host request_key workstep_metadata clowder_credentials
         resources ;;;
       ret tt
     else ret tt) ;;;
    for_each ["file"; "files"]
      (fun _ file_key =>
         has_key <- lift (PyVal.has file_key proc_results) ;;
         if has_key then
           file_results <- lift (PyVal.getitem proc_results file_key) ;;
           process_result_file file_results experiment_info workflow_step
             process_metadata host request_key workstep_metadata
             clowder_credentials resources ;;;
           ret tt
         else ret tt)
      tt ;;;
    ret true.

(** *** The request *)

(** What the loop of [process_message] carries from one step to the next. *)
Record loop_state : Type := {
  env_of : option Env;
  step_number : nat;
  previous_step_cache_dir : option string
}.

Definition set_experiment_metadata_filename (env : Env) (file_name : string) : Env :=
  {| IMAGE_MOUNT_SOURCE := IMAGE_MOUNT_SOURCE env;
     DOCKER_VERSION := DOCKER_VERSION env;
     BASE_DIR := BASE_DIR env;
     RELATIVE_WORKING_FOLDER := RELATIVE_WORKING_FOLDER env;
     CACHE_DIR := CACHE_DIR env;
     DATA_FOLDER_NAME := DATA_FOLDER_NAME env;
     EXPERIMENT_METADATA_FILENAME := file_name;
     RESULTS_FILE_PATH := RESULTS_FILE_PATH env |}.

(** What the loop hands to [relocate_files]: the request's resource for the
    first step, [previous_step_cache_dir] afterwards. *)
Definition staging_source (step : nat) (resource : Resource)
    (previous : option string) : stage_source :=
  if (step <=? 1)%nat then SrcResource resource
  else match previous with
       | Some cache_dir => SrcFolder cache_dir
       | None => SrcNeither
       end.

(** *** Waiting for the engine *)

(** How the wait loop was left: by its [break], with the return code of
    the process set, or by its condition, with the time used up. The code
    does not keep this; it is returned here to state what the loop does. *)
Inductive wait_end : Type := Finished | TimeUp.

(** [datetime.datetime.now()], as microseconds on the clock of the world;
    [(t - start_time).total_seconds()] is then [t - start_time] in
    microseconds, compared with the total in microseconds. *)
Definition now : M Z :=
  r <- perform Now ;;
  match r with
  | Clock t => ret t
  | Failed e => raise e
  | _ => raise TypeError
  end.

Definition total_wait_microseconds : Z := PROC_WAIT_TOTAL_SEC * 1000000.

(** The inner loop: lines are read from the output of the process until an
    empty one comes. *)
Fixpoint read_lines (fuel : nat) : M unit :=
  match fuel with
  | O => out_of_rounds
  | S fuel' =>
      line <- ask_text Readline ;;
      if String.eqb line "" then ret tt else read_lines fuel'
  end.

(** The loop itself. [returncode] is [proc.returncode], which only
    [proc.poll()] sets. *)
Fixpoint wait_loop (fuel : nat) (start_time : Z) (returncode : value)
    : M wait_end :=
  match fuel with
  | O => out_of_rounds
  | S fuel' =>
      t <- now ;;
      if (t - start_time <=? total_wait_microseconds)%Z then
        match returncode with
        | VNone =>
            catch (read_lines rounds) (fun _ => ret tt) ;;;
            polled <- ask_payload Poll ;;
            command (Sleep PROC_WAIT_SLEEP_SEC) ;;;
            t' <- now ;;
            if (total_wait_microseconds <? t' - start_time)%Z then
              raise (RuntimeError "Processing is running too long")
            else wait_loop fuel' start_time polled
        | _ => ret Finished
        end
      else ret TimeUp
  end.

(** The launch of the engine and the wait for it. *)
Definition wait_for_process (cmd : list string) : M wait_end :=
  command (Popen cmd) ;;;
  start_time <- now ;;
  wait_loop rounds start_time VNone.

(** The body of the loop over the workflow. *)
Definition run_step (working_folder working_subfolder named_volume : string)
    (host secret_key : string) (resource : Resource)
    (st : loop_state) (current_step : WorkflowStep) : M loop_state :=
  let step_number := S (step_number st) in
  let previous_step_cache_dir :=
    match env_of st with
    | Some env => Some (CACHE_DIR env)
    | None => previous_step_cache_dir st
    end in
  env <- lift (create_env_json working_folder working_subfolder named_volume
                 current_step resource) ;;
  relocated <-
    relocate_files env (staging_source step_number resource previous_step_cache_dir) ;;
  let current_working_folder := fst relocated in
  if String.eqb current_working_folder "" then
    raise (RuntimeError "No working folder was determined for processing")
  else
  match snd relocated with
  | None => raise (RuntimeError "No experiment metadata file is available")
  | Some new_experiment_path =>
  if String.eqb new_experiment_path "" then
    raise (RuntimeError "No experiment metadata file is available")
  else
  present <- question (PathExists new_experiment_path) ;;
  if present && negb (startswith new_experiment_path (BASE_DIR env)) then
    raise (RuntimeError
      "Experiment metadata path does not start with the specified BASE_DIR folder")
  else
  let env :=
    if startswith new_experiment_path (BASE_DIR env) then
      set_experiment_metadata_filename env
        (slice_from new_experiment_path (Z.of_nat (String.length (BASE_DIR env))))
    else env in
  setup_processing_step env working_folder current_step ;;;
  let cmd := [ join script_dir ["cctools/bin/makeflow"];
               "--jx"; makeflow_file current_step;
               "--jx-args"; join working_folder ["env.json"] ] in
  wait_for_process cmd ;;;
  let experiment_path := join (BASE_DIR env) [EXPERIMENT_METADATA_FILENAME env] in
  experiment_metadata <- ask_payload (LoadFile experiment_path (load_func experiment_path)) ;;
  reconciled <- lift (reconcile current_step experiment_metadata) ;;
  results_present <- question (PathExists (RESULTS_FILE_PATH env)) ;;
  if results_present then
    proc_results <- ask_payload (LoadFile (RESULTS_FILE_PATH env) JsonLoad) ;;
    process_results_json proc_results (experiment_info reconciled) current_step
      host secret_key (workstep_metadata reconciled) (clowder_info reconciled)
      resource ;;;
    ret {| env_of := Some env; step_number := step_number;
           previous_step_cache_dir := previous_step_cache_dir |}
  else
    raise (RuntimeError "Result file from current step is not found")
  end.

(** [process_message] over the steps of [workflow] ([WORKFLOW] in the
    module); [named_volume] and [working_space] are the two settings of the
    extractor, [None] or empty when they are not set. *)
Definition process_message (named_volume working_space : option string)
    (workflow : list WorkflowStep) (host secret_key : string) (resource : Resource)
    : M unit :=
  command StartMessage ;;;
  command SuperProcessMessage ;;;
  match named_volume with
  | None | Some "" => raise (RuntimeError "No named volume was specified.")
  | Some volume =>
      match working_space with
      | None | Some "" =>
          raise (RuntimeError "No working space folder was specified.")
      | Some space =>
          working_folder <- ask_text (Mkdtemp space) ;;
          let working_subfolder :=
            slice_from working_folder (Z.of_nat (String.length space)) in
          create_folder_default_perms working_folder ;;;
          for_each workflow
            (run_step working_folder working_subfolder volume host secret_key resource)
            {| env_of := None; step_number := 0; previous_step_cache_dir := None |} ;;;
          command EndMessage
      end
  end.

(** A run from a fresh record. *)
Definition run {A : Type} (m : M A) (w : World) : outcome A * state :=
  m {| world := w; trace := [] |}.

(** * Properties *)

(** ** Strings and paths *)

(** *** What a computation adds to the record *)

Definition is_call (e : event) : bool :=
  match e with Called _ _ => true | Staging _ _ => false end.

(** [m] only adds calls to the record, whatever the state it starts in. *)
Definition calls_only {A : Type} (m : M A) : Prop :=
  forall s, exists added,
    trace (snd (m s)) = (trace s ++ added)%list /\ forallb is_call added = true.

(** Every value [m] returns satisfies [Q]. *)
Definition returns {A : Type} (Q : A -> Prop) (m : M A) : Prop :=
  forall s a, fst (m s) = Returned a -> Q a.

(** The staging calls that [m] adds to the record satisfy [P]. *)
Definition stages {A : Type} (P : list (Env * stage_source) -> Prop) (m : M A)
    : Prop :=
  forall s, exists l,
    stagings (trace (snd (m s))) = (stagings (trace s) ++ l)%list /\ P l.

(** The staging calls [l] of a run over [steps]: each one is given the
    environment built for its step, the first one the source [expected],
    each later one the cache folder of the environment before it. *)
Fixpoint hand_off (make_env : WorkflowStep -> result Env) (expected : stage_source)
    (steps : list WorkflowStep) (l : list (Env * stage_source)) {struct l}
    : Prop :=
  match l with
  | [] => True
  | (env, src) :: l' =>
      match steps with
      | [] => False
      | step :: steps' =>
          make_env step = Ok env /\ src = expected /\
          hand_off make_env (SrcFolder (CACHE_DIR env)) steps' l'
      end
  end.

(** The readings of the clock among the events. *)
Definition is_reading (e : event) : bool :=
  match e with Called Now _ => true | _ => false end.

(** [m] only adds events that [allowed] lets through. *)
Definition adds {A : Type} (allowed : event -> bool) (m : M A) : Prop :=
  forall s, exists added,
    trace (snd (m s)) = (trace s ++ added)%list /\ forallb allowed added = true.

(** The creation of a dataset, and the calls to the file system. *)
Definition is_creation (e : event) : bool :=
  match e with Called (RequestsPost _ _) _ => true | _ => false end.

Definition is_file_system (e : event) : bool :=
  match e with
  | Called (Makedirs _) _ | Called (Chmod _ _) _ | Called (Listdir _) _
  | Called (Copyfile _ _) _ | Called (Isfile _) _ | Called (Isdir _) _ => true
  | _ => false
  end.

(** The calls to the extractor framework at the two ends of a request. *)
Definition is_framework (e : event) : bool :=
  match e with
  | Called StartMessage _ | Called SuperProcessMessage _ => true
  | _ => false
  end.

(** The uploads of a record: for each, the path uploaded and the answer. *)
Definition is_upload (e : event) : bool :=
  match e with Called (UploadToDataset _ _ _ _) _ => true | _ => false end.

Definition uploads (l : list event) : list (value * reply) :=
  flat_map (fun e => match e with
                     | Called (UploadToDataset _ _ _ path) r => [(path, r)]
                     | _ => []
                     end) l.

(** The call that reports the end of a request to the framework. *)
Definition is_end_message (e : event) : bool :=
  match e with Called EndMessage _ => true | _ => false end.

(** [m] reports the end of the request at most once, as the last thing
    it does, and always when it returns: [body] is what it adds to the
    record before. *)
Definition ends_request {A : Type} (m : M A) : Prop :=
  forall s, exists body,
    forallb (fun e => negb (is_end_message e)) body = true /\
    match fst (m s) with
    | Returned _ =>
        exists r, trace (snd (m s))
                  = (trace s ++ body ++ [Called EndMessage r])%list
    | Raised e =>
        trace (snd (m s)) = (trace s ++ body)%list \/
        trace (snd (m s))
        = (trace s ++ body ++ [Called EndMessage (Failed e)])%list \/
        exists r, r <> Done /\ e = TypeError /\
          trace (snd (m s)) = (trace s ++ body ++ [Called EndMessage r])%list
    | OutOfRounds => trace (snd (m s)) = (trace s ++ body)%list
    end.

Lemma chars_app (a b : string) : chars (a ++ b) = (chars a ++ chars b)%list.
Proof.
  induction a as [|c a IH]; simpl; [reflexivity|].
  unfold chars in *. simpl. now rewrite IH.
Qed.

Lemma starts_app (p l : list ascii) : starts p (p ++ l) = true.
Proof.
  induction p as [|c p IH]; cbn -[Ascii.eqb]; [reflexivity|].
  now rewrite Ascii.eqb_refl, IH.
Qed.

Lemma starts_app_long (p l r : list ascii) :
  (length p <= length l)%nat -> starts p (l ++ r) = starts p l.
Proof.
  revert l. induction p as [|c p IH]; intros [|d l] H; cbn -[Ascii.eqb] in *;
    try reflexivity; try lia.
  rewrite IH by lia. reflexivity.
Qed.

Lemma startswith_app (a b : string) : startswith (a ++ b) a = true.
Proof. unfold startswith. rewrite chars_app. apply starts_app. Qed.

(** A file name that ends in [.json] or [.yml] does not end in [.yaml]. *)
Lemma json_or_yml_is_not_yaml (s : string) :
  endswith s ".json" = true \/ endswith s ".yml" = true ->
  endswith s ".yaml" = false.
Proof.
  unfold endswith. generalize (rev (chars s)) as l. intros l.
  change (rev (chars ".json")) with (chars "nosj.").
  change (rev (chars ".yml")) with (chars "lmy.").
  change (rev (chars ".yaml")) with (chars "lmay.").
  destruct l as [|a [|b [|c l]]]; cbn -[Ascii.eqb]; intros [H|H];
    try discriminate;
    repeat match goal with
           | H : (_ && _)%bool = true |- _ => apply andb_prop in H; destruct H
           | H : Ascii.eqb _ _ = true |- _ => apply Ascii.eqb_eq in H; subst
           end; reflexivity.
Qed.

(** What [join] gives for a single relative component. *)
Lemma join_results_json (out_folder : string) :
  join out_folder ["results.json"] =
    if String.eqb out_folder "" || endswith out_folder "/"
    then out_folder ++ "results.json"
    else out_folder ++ "/results.json".
Proof. reflexivity. Qed.

Lemma create_env_json_ok out_folder image_subfolder mount_volume_name
    workflow_step resources env :
  create_env_json out_folder image_subfolder mount_volume_name workflow_step
    resources = Ok env ->
  exists found_experiment,
    find is_experiment_file (local_paths resources) = Some found_experiment /\
    BASE_DIR env = "/mnt/" /\
    EXPERIMENT_METADATA_FILENAME env = basename found_experiment /\
    RESULTS_FILE_PATH env = join out_folder ["results.json"].
Proof.
  unfold create_env_json.
  destruct (find is_experiment_file (local_paths resources)) as [f|];
    [|discriminate].
  intros H. exists f.
  assert (E : forall a b : Env, Ok a = Ok b -> a = b)
    by (intros a b E; now injection E).
  apply E in H. rewrite <- H.
  split; [reflexivity|]. split; [reflexivity|]. split; reflexivity.
Qed.

Lemma find_none_iff {A : Type} (f : A -> bool) (l : list A) :
  find f l = None <-> forall x, In x l -> f x = false.
Proof.
  split; [apply find_none|].
  induction l as [|a l IH]; simpl; intros H; [reflexivity|].
  rewrite (H a) by now left. apply IH. intros x Hx. apply H. now right.
Qed.

Lemma find_first {A : Type} (f : A -> bool) (pre post : list A) (x : A) :
  (forall y, In y pre -> f y = false) -> f x = true ->
  find f (pre ++ x :: post) = Some x.
Proof.
  induction pre as [|a pre IH]; simpl; intros Hpre Hx.
  - now rewrite Hx.
  - rewrite (Hpre a) by now left. apply IH; auto.
Qed.

(** ** The environment builder *)

(** C7. Building the step environment fails when no file of the resource
    set has a lowercased name ending in [.yaml]; otherwise the first such
    file, in list order, is selected and its base name becomes the
    experiment-metadata file name of the environment. *)
Theorem create_env_json_experiment_file :
  forall out_folder image_subfolder mount_volume_name workflow_step resources,
    ((forall f, In f (local_paths resources) ->
                endswith (lower f) ".yaml" = false) ->
     create_env_json out_folder image_subfolder mount_volume_name workflow_step
       resources = Raise (RuntimeError "Unable to find an experiment JSON file"))
    /\
    (forall pre f post,
       local_paths resources = (pre ++ f :: post)%list ->
       (forall g, In g pre -> endswith (lower g) ".yaml" = false) ->
       endswith (lower f) ".yaml" = true ->
       exists env,
         create_env_json out_folder image_subfolder mount_volume_name
           workflow_step resources = Ok env /\
         EXPERIMENT_METADATA_FILENAME env = basename f).
Proof.
  intros out_folder image_subfolder mount_volume_name workflow_step resources.
  split.
  - intros Hnone. unfold create_env_json.
    now rewrite (proj2 (find_none_iff is_experiment_file _) Hnone).
  - intros pre f post Hpaths Hpre Hf. unfold create_env_json.
    rewrite Hpaths, (find_first is_experiment_file pre post f Hpre Hf).
    eexists. split; reflexivity.
Qed.


Lemma create_env_json_experiment_file_witness :
  (exists env,
     create_env_json "/mnt/tmpjhvq63gh" "/tmpjhvq63gh" "testing" odm_workflow_step
       Sample.resource = Ok env /\
     EXPERIMENT_METADATA_FILENAME env = basename "/in/exp.yaml") /\
  create_env_json "/mnt/tmpjhvq63gh" "/tmpjhvq63gh" "testing" odm_workflow_step
    Sample.resource_json
  = Raise (RuntimeError "Unable to find an experiment JSON file").
Proof.
  split.
  - apply (proj2 (create_env_json_experiment_file "/mnt/tmpjhvq63gh"
                    "/tmpjhvq63gh" "testing" odm_workflow_step Sample.resource)
             ["/in/a.tif"] "/in/exp.yaml" []).
    + reflexivity.
    + intros g [<-|[]]. reflexivity.
    + reflexivity.
  - apply (proj1 (create_env_json_experiment_file "/mnt/tmpjhvq63gh"
                    "/tmpjhvq63gh" "testing" odm_workflow_step
                    Sample.resource_json)).
    intros f [<-|[<-|[<-|[]]]]; reflexivity.
Defined.

(** C10. The environment builder recognises as experiment descriptor only
    a file whose lowercased name ends in [.yaml]: a resource set with a
    descriptor named [.json] or [.yml] and no [.yaml] file makes the
    building fail, although the loader that comes later takes [.yml] and
    [.yaml] files as YAML and every other file as JSON. *)
Theorem create_env_json_only_yaml :
  forall out_folder image_subfolder mount_volume_name workflow_step resources,
    (exists f, In f (local_paths resources) /\
               (endswith (lower f) ".json" = true \/
                endswith (lower f) ".yml" = true)) ->
    (forall f, In f (local_paths resources) ->
               endswith (lower f) ".yaml" = false) ->
    create_env_json out_folder image_subfolder mount_volume_name workflow_step
      resources = Raise (RuntimeError "Unable to find an experiment JSON file")
    /\ (forall f, endswith (lower f) ".json" = true \/
                  endswith (lower f) ".yml" = true ->
                  is_experiment_file f = false)
    /\ (forall p, snd (splitext p) = ".yml" \/ snd (splitext p) = ".yaml" ->
                  load_func p = YamlSafeLoad)
    /\ (forall p, snd (splitext p) <> ".yml" -> snd (splitext p) <> ".yaml" ->
                  load_func p = JsonLoad).
Proof.
  intros out_folder image_subfolder mount_volume_name workflow_step resources
    _ Hnone.
  split; [|split; [|split]].
  - unfold create_env_json.
    now rewrite (proj2 (find_none_iff is_experiment_file _) Hnone).
  - intros f Hf. apply json_or_yml_is_not_yaml. exact Hf.
  - intros p [E|E]; unfold load_func; rewrite E; reflexivity.
  - intros p Hyml Hyaml. unfold load_func.
    destruct (String.eqb_spec (snd (splitext p)) ".yml") as [E|_];
      [contradiction|].
    destruct (String.eqb_spec (snd (splitext p)) ".yaml") as [E|_];
      [contradiction|reflexivity].
Qed.

Lemma create_env_json_only_yaml_witness :
  create_env_json "/mnt/tmpjhvq63gh" "/tmpjhvq63gh" "testing" odm_workflow_step
    Sample.resource_json
  = Raise (RuntimeError "Unable to find an experiment JSON file")
  /\ load_func "/mnt/tmpjhvq63gh/odm_workflow/exp.yml" = YamlSafeLoad
  /\ load_func "/mnt/tmpjhvq63gh/odm_workflow/exp.json" = JsonLoad.
Proof.
  assert (H := create_env_json_only_yaml "/mnt/tmpjhvq63gh" "/tmpjhvq63gh"
                 "testing" odm_workflow_step Sample.resource_json).
  destruct H as (Hfail & _ & Hyaml & Hjson).
  - exists "/in/exp.json". split; [right; left; reflexivity|left; reflexivity].
  - intros f [<-|[<-|[<-|[]]]]; reflexivity.
  - split; [exact Hfail|]. split.
    + apply Hyaml. left. reflexivity.
    + apply Hjson; discriminate.
Defined.

(** What the results path looks like from the mount point. *)
Ltac split_chars :=
  repeat match goal with
         | |- context [Ascii.eqb ?x ?y] =>
             destruct (Ascii.eqb_spec x y); [subst|];
             try congruence; cbn -[Ascii.eqb] in *
         end.

Lemma results_path_under_mnt (out_folder : string) :
  startswith (join out_folder ["results.json"]) "/mnt/" = true <->
  (startswith out_folder "/mnt/" = true \/ out_folder = "/mnt").
Proof.
  rewrite join_results_json.
  destruct out_folder as [|a [|b [|c [|d [|e rest]]]]];
    unfold startswith, endswith.
  1-5: cbn -[Ascii.eqb]; split_chars;
    (split; [ intros H; try discriminate H; try (right; reflexivity)
            | intros [H|H]; try discriminate H; try reflexivity;
              try (injection H; intros; subst; congruence) ]).
  assert (L : forall tail : string,
            starts (chars "/mnt/")
              (chars (String a (String b (String c (String d (String e rest))))
                      ++ tail))
            = starts (chars "/mnt/")
                (chars (String a (String b (String c (String d (String e rest))))))).
  { intros tail. rewrite chars_app. apply starts_app_long. cbn. lia. }
  destruct (_ || _)%bool; rewrite L; (split; [intros H; left; exact H|]);
    (intros [H|H]; [exact H|discriminate]).
Qed.

(** C8, the claim as stated, fails: with the working space under [/mnt]
    (the documented deployment), the results file lies inside [BASE_DIR]. *)
Lemma results_file_path_inside_base_dir :
  ~ (forall out_folder image_subfolder mount_volume_name workflow_step
            resources env,
       create_env_json out_folder image_subfolder mount_volume_name
         workflow_step resources = Ok env ->
       startswith (RESULTS_FILE_PATH env) out_folder = true /\
       startswith (RESULTS_FILE_PATH env) (BASE_DIR env) = false).
Proof.
  intros H.
  destruct (H "/mnt/tmpjhvq63gh" "/tmpjhvq63gh" "testing" odm_workflow_step
              Sample.resource _ eq_refl) as [_ E].
  discriminate E.
Qed.

(** C8, as amended. The results file of every step environment is the
    file [results.json] of the working folder of the request, so it lies
    inside that folder; it lies inside [BASE_DIR], which is [/mnt/],
    exactly when the working folder is [/mnt] or lies under [/mnt/]. *)
Theorem results_file_path_location :
  forall out_folder image_subfolder mount_volume_name workflow_step resources env,
    create_env_json out_folder image_subfolder mount_volume_name workflow_step
      resources = Ok env ->
    RESULTS_FILE_PATH env = join out_folder ["results.json"] /\
    startswith (RESULTS_FILE_PATH env) out_folder = true /\
    BASE_DIR env = "/mnt/" /\
    (startswith (RESULTS_FILE_PATH env) (BASE_DIR env) = true <->
     (startswith out_folder "/mnt/" = true \/ out_folder = "/mnt")).
Proof.
  intros out_folder image_subfolder mount_volume_name workflow_step resources
    env H.
  destruct (create_env_json_ok _ _ _ _ _ _ H) as (f & _ & Hbase & _ & Hres).
  rewrite Hres, Hbase. split; [reflexivity|]. split; [|split; [reflexivity|]].
  - rewrite join_results_json.
    destruct (_ || _)%bool; apply startswith_app.
  - apply results_path_under_mnt.
Qed.

Lemma results_file_path_location_witness :
  exists env,
    create_env_json "/srv/work/tmpjhvq63gh" "/tmpjhvq63gh" "testing"
      odm_workflow_step Sample.resource = Ok env /\
    (RESULTS_FILE_PATH env = join "/srv/work/tmpjhvq63gh" ["results.json"] /\
     startswith (RESULTS_FILE_PATH env) "/srv/work/tmpjhvq63gh" = true /\
     BASE_DIR env = "/mnt/" /\
     (startswith (RESULTS_FILE_PATH env) (BASE_DIR env) = true <->
      (startswith "/srv/work/tmpjhvq63gh" "/mnt/" = true \/
       "/srv/work/tmpjhvq63gh" = "/mnt"))).
Proof.
  eexists. split.
  - reflexivity.
  - apply (results_file_path_location "/srv/work/tmpjhvq63gh" "/tmpjhvq63gh"
             "testing" odm_workflow_step Sample.resource).
    reflexivity.
Defined.

(** ** The metadata search *)

Lemma value_nested_ind (P : value -> Prop) :
  P VNone -> (forall b, P (VBool b)) -> (forall z, P (VInt z)) ->
  (forall s, P (VStr s)) ->
  (forall l, Forall P l -> P (VList l)) ->
  (forall d, Forall (fun kv => P (snd kv)) d -> P (VDict d)) ->
  forall v, P v.
Proof.
  intros HN HB HI HS HL HD. fix IH 1.
  intros [| b | z | s | l | d];
    [exact HN | apply HB | apply HI | apply HS | | ].
  - apply HL. induction l as [|x l IHl]; constructor; [apply IH | exact IHl].
  - apply HD. induction d as [|[k x] d IHd]; constructor; [apply IH | exact IHd].
Qed.

Lemma lower_char_idempotent (c : ascii) : lower_char (lower_char c) = lower_char c.
Proof. destruct c as [[|] [|] [|] [|] [|] [|] [|] [|]]; reflexivity. Qed.

Lemma chars_of_chars (l : list ascii) : chars (of_chars l) = l.
Proof. apply list_ascii_of_string_of_list_ascii. Qed.

Lemma of_chars_chars (s : string) : of_chars (chars s) = s.
Proof. apply string_of_list_ascii_of_string. Qed.

Lemma lower_idempotent (s : string) : lower (lower s) = lower s.
Proof.
  unfold lower. rewrite chars_of_chars, map_map. f_equal.
  apply map_ext. intros c. apply lower_char_idempotent.
Qed.

(** The test of the scan is a comparison of the lowercased keys when the
    search ignores case, and of the keys themselves otherwise, for a
    lowering that leaves a lowercased str as it is. *)
Lemma key_matches_spec (case_insensitive : bool) (key one_key : string) :
  (forall s, str_lower (str_lower s) = str_lower s) ->
  key_matches case_insensitive
    (if case_insensitive then str_lower key else key) one_key
  = if case_insensitive then String.eqb (str_lower one_key) (str_lower key)
    else String.eqb one_key key.
Proof.
  intros Hlower. unfold key_matches. destruct case_insensitive.
  - destruct (String.eqb_spec one_key (str_lower key)) as [->|_]; [|reflexivity].
    now rewrite Hlower, String.eqb_refl.
  - now rewrite orb_false_r.
Qed.

(** The second loop of [find_dict_key], for any search [g] of the nested
    dicts. *)
Lemma checks_first_found (g : value -> option (string * value))
    (items : list (string * value)) :
  (fix checks (items : list (string * value)) : option (string * value) :=
     match items with
     | [] => None
     | (_, one_check) :: rest =>
         match one_check with
         | VDict _ =>
             match g one_check with
             | Some found => Some found
             | None => checks rest
             end
         | _ => checks rest
         end
     end) items
  = first_found (fun d => g (VDict d)) (dict_checks items).
Proof.
  induction items as [|[k v] items IH]; [reflexivity|].
  destruct v; try exact IH.
  cbn [dict_checks flat_map snd app first_found].
  destruct (g (VDict d)); [reflexivity|]. exact IH.
Qed.

Lemma search_dict (haystack : dict) (check_key : string) (case_insensitive : bool) :
  search (VDict haystack) check_key case_insensitive
  = match level_match case_insensitive check_key haystack with
    | Some found => Some found
    | None =>
        first_found (fun d => search (VDict d) check_key false)
          (dict_checks haystack)
    end.
Proof.
  cbn [search]. destruct (level_match _ _ _); [reflexivity|].
  apply (checks_first_found (fun v => search v check_key false)).
Qed.



Lemma in_dict_checks (d : dict) (items : dict) :
  In d (dict_checks items) -> exists k, In (k, VDict d) items.
Proof.
  unfold dict_checks. rewrite in_flat_map. intros [[k v] [Hin Hd]].
  destruct v; cbn in Hd; try contradiction.
  destruct Hd as [<-|[]]. now exists k.
Qed.



(** ** Redaction *)

Lemma secured_is_longer (p encrypted : string) :
  (String.length p < 8 + String.length encrypted)%nat ->
  "secured:" ++ encrypted <> p.
Proof.
  intros Hshort Heq. rewrite <- Heq in Hshort.
  cbn [String.append String.length] in Hshort. lia.
Qed.

(** C9. [secure_string] returns ["secured:"] followed by the encrypted form
    when the encryption returns one, and the marker ["<removed>"] when it
    returns none. The secured output begins with ["secured:"], so it is
    neither the marker nor prefixed by it, and it never equals the
    plaintext: the plaintext is a str that is shorter, the encryption
    giving for a str nothing that is eight or more characters shorter than
    it, or it is no str at all. *)
Theorem secure_string_forms :
  forall plain_text : value,
    (forall encrypted,
        encrypt_pipeline_string plain_text = Some encrypted ->
        secure_string plain_text = "secured:" ++ encrypted /\
        startswith (secure_string plain_text) "secured:" = true /\
        startswith (secure_string plain_text) "<removed>" = false /\
        secure_string plain_text <> "<removed>" /\
        ((forall p, plain_text = VStr p ->
                    (String.length p < 8 + String.length encrypted)%nat) ->
         VStr (secure_string plain_text) <> plain_text))
    /\
    (encrypt_pipeline_string plain_text = None ->
     secure_string plain_text = "<removed>").
Proof.
  intros plain_text. unfold secure_string. split.
  - intros encrypted ->. split; [reflexivity|]. split; [|split; [|split]].
    + apply (startswith_app "secured:" encrypted).
    + reflexivity.
    + discriminate.
    + intros Hlonger Heq.
      exact (secured_is_longer _ encrypted (Hlonger _ (eq_sym Heq)) eq_refl).
  - intros ->. reflexivity.
Qed.


(** ** Reconciling the experiment metadata *)



(** ** What the computations add to the record *)

Lemma stagings_app (a b : list event) :
  stagings (a ++ b) = (stagings a ++ stagings b)%list.
Proof.
  induction a as [|[c r|env src] a IH]; cbn [app stagings]; [reflexivity| |];
    now rewrite IH.
Qed.

Lemma stagings_calls (added : list event) :
  forallb is_call added = true -> stagings added = [].
Proof.
  induction added as [|[c r|env src] added IH]; cbn; intros H;
    [reflexivity|now apply IH|discriminate].
Qed.

Lemma publishing_app (a b : list event) :
  filter is_publishing (a ++ b)
  = (filter is_publishing a ++ filter is_publishing b)%list.
Proof. apply filter_app. Qed.

Lemma calls_only_ret {A : Type} (a : A) : calls_only (ret a).
Proof. intros s. exists []. now rewrite app_nil_r. Qed.

Lemma calls_only_raise {A : Type} (e : exn) : calls_only (@raise A e).
Proof. intros s. exists []. now rewrite app_nil_r. Qed.

Lemma calls_only_lift {A : Type} (r : result A) : calls_only (lift r).
Proof. intros s. exists []. destruct r; cbn; now rewrite app_nil_r. Qed.

Lemma calls_only_out_of_rounds {A : Type} : calls_only (@out_of_rounds A).
Proof. intros s. exists []. now rewrite app_nil_r. Qed.

Lemma calls_only_perform (c : call) : calls_only (perform c).
Proof.
  intros s. unfold perform. destruct (respond (world s) c) as [r w].
  exists [Called c r]. split; reflexivity.
Qed.

Lemma calls_only_bind {A B : Type} (m : M A) (k : A -> M B) :
  calls_only m -> (forall a, calls_only (k a)) -> calls_only (bind m k).
Proof.
  intros Hm Hk s. unfold bind. destruct (Hm s) as (added & Htrace & Hcalls).
  destruct (m s) as [[a|e|] s']; cbn [snd] in *.
  - destruct (Hk a s') as (added' & Htrace' & Hcalls').
    exists (added ++ added')%list. split.
    + now rewrite Htrace', Htrace, app_assoc.
    + now rewrite forallb_app, Hcalls, Hcalls'.
  - exists added. now split.
  - exists added. now split.
Qed.

Lemma calls_only_catch {A : Type} (m : M A) (handler : exn -> M A) :
  calls_only m -> (forall e, calls_only (handler e)) -> calls_only (catch m handler).
Proof.
  intros Hm Hh s. unfold catch. destruct (Hm s) as (added & Htrace & Hcalls).
  destruct (m s) as [[a|e|] s']; cbn [snd] in *.
  - exists added. now split.
  - destruct (Hh e s') as (added' & Htrace' & Hcalls').
    exists (added ++ added')%list. split.
    + now rewrite Htrace', Htrace, app_assoc.
    + now rewrite forallb_app, Hcalls, Hcalls'.
  - exists added. now split.
Qed.

Lemma calls_only_for_each {A S : Type} (l : list A) (body : S -> A -> M S) :
  (forall acc x, calls_only (body acc x)) ->
  forall acc, calls_only (for_each l body acc).
Proof.
  intros Hbody. induction l as [|x l IH]; intros acc; cbn [for_each].
  - apply calls_only_ret.
  - apply calls_only_bind; [apply Hbody|exact IH].
Qed.

(** Goes through a computation built from the operations above. *)
Ltac calls_only_step :=
  first
    [ apply calls_only_ret
    | apply calls_only_raise
    | apply calls_only_out_of_rounds
    | apply calls_only_lift
    | apply calls_only_perform
    | apply calls_only_bind; [|intro]
    | apply calls_only_catch; [|intro]
    | apply calls_only_for_each; intros
    | assumption
    | match goal with
      | |- calls_only (match ?x with _ => _ end) => destruct x
      | |- calls_only (let _ := _ in _) => progress cbv zeta
      end ].

Ltac calls_only := repeat calls_only_step.

Lemma calls_only_command (c : call) : calls_only (command c).
Proof. unfold command. calls_only. Qed.

Lemma calls_only_question (c : call) : calls_only (question c).
Proof. unfold question. calls_only. Qed.

Lemma calls_only_ask_text (c : call) : calls_only (ask_text c).
Proof. unfold ask_text. calls_only. Qed.

Lemma calls_only_ask_payload (c : call) : calls_only (ask_payload c).
Proof. unfold ask_payload. calls_only. Qed.

Lemma calls_only_ask_names (c : call) : calls_only (ask_names c).
Proof. unfold ask_names. calls_only. Qed.

Lemma calls_only_create_folder (folder_path : string) :
  calls_only (create_folder_default_perms folder_path).
Proof.
  unfold create_folder_default_perms.
  apply calls_only_bind; [|intro]; apply calls_only_command.
Qed.

Lemma calls_only_relocate_one env dest_dir updated one_file :
  calls_only (relocate_one env dest_dir updated one_file).
Proof.
  unfold relocate_one.
  destruct (endswith one_file (EXPERIMENT_METADATA_FILENAME env)).
  - apply calls_only_bind; [apply calls_only_command|intro; apply calls_only_ret].
  - apply calls_only_bind; [apply calls_only_question|intros [|]].
    + apply calls_only_bind;
        [apply calls_only_command|intro; apply calls_only_ret].
    + apply calls_only_bind;
        [apply calls_only_question|intro; apply calls_only_ret].
Qed.

Lemma calls_only_setup env out_folder workflow_step :
  calls_only (setup_processing_step env out_folder workflow_step).
Proof. apply calls_only_command. Qed.

Lemma calls_only_create_dataset host request_key dataset_name :
  calls_only (create_dataset host request_key dataset_name).
Proof.
  unfold create_dataset. cbv zeta.
  apply calls_only_bind; [apply calls_only_ask_payload|intro].
  calls_only.
Qed.

Lemma calls_only_update_file_metadata file_id replace_metadata metadata host
    request_key :
  calls_only (update_file_metadata file_id replace_metadata metadata host
                request_key).
Proof.
  unfold update_file_metadata.
  apply calls_only_catch; [|intro; apply calls_only_ret].
  apply calls_only_bind; [|intro; apply calls_only_command].
  destruct replace_metadata; [apply calls_only_command|apply calls_only_ret].
Qed.

Lemma calls_only_update_dataset_metadata dataset_id replace_metadata host
    request_key container_metadata process_metadata :
  calls_only (update_dataset_metadata dataset_id replace_metadata host
                request_key container_metadata process_metadata).
Proof.
  unfold update_dataset_metadata.
  apply calls_only_bind; [|intro].
  - destruct container_metadata as [md|]; [|apply calls_only_ret].
    destruct (truthy md); [|apply calls_only_ret].
    apply calls_only_bind; [|intro; apply calls_only_command].
    destruct replace_metadata; [apply calls_only_command|apply calls_only_ret].
  - destruct process_metadata as [md|]; [|apply calls_only_ret].
    destruct (truthy md); [apply calls_only_command|apply calls_only_ret].
Qed.

Lemma calls_only_upload_one dataset_id workflow_step host request_key
    uploaded_files one_result :
  calls_only (upload_one dataset_id workflow_step host request_key
                uploaded_files one_result).
Proof.
  unfold upload_one.
  apply calls_only_bind; [apply calls_only_lift|intro].
  apply calls_only_bind; [apply calls_only_ask_payload|intro].
  apply calls_only_bind; [destruct a0; calls_only|intro].
  apply calls_only_bind; [apply calls_only_lift|intros [|]].
  - apply calls_only_bind; [|intro; destruct one_result; calls_only].
    apply calls_only_bind; [apply calls_only_lift|intro].
    apply calls_only_bind; [apply calls_only_lift|intro].
    apply calls_only_bind; [apply calls_only_lift|intro].
    apply calls_only_update_file_metadata.
  - apply calls_only_bind; [apply calls_only_ret|intro].
    destruct one_result; calls_only.
Qed.

Lemma calls_only_upload_files dataset_id file_results workflow_step host
    request_key :
  calls_only (upload_files dataset_id file_results workflow_step host request_key).
Proof.
  unfold upload_files.
  apply calls_only_bind; [apply calls_only_lift|intro].
  apply calls_only_for_each. intros. apply calls_only_upload_one.
Qed.

Lemma calls_only_process_result_file file_results experiment_info workflow_step
    process_metadata host request_key workstep_metadata clowder_credentials
    resources :
  calls_only (process_result_file file_results experiment_info workflow_step
                process_metadata host request_key workstep_metadata
                clowder_credentials resources).
Proof.
  unfold process_result_file. cbv zeta.
  destruct (match target_dataset_id resources with
            | Some id => Some id
            | None => parent_dataset_id resources
            end);
    [apply calls_only_upload_files|apply calls_only_raise].
Qed.

(** The part of [process_result_dataset] that follows the lookup of the
    dataset name only adds calls; so does the whole function. *)
Lemma calls_only_process_result_dataset container_results experiment_info
    workflow_step process_metadata host request_key workstep_metadata
    clowder_credentials resources :
  calls_only (process_result_dataset container_results experiment_info
                workflow_step process_metadata host request_key
                workstep_metadata clowder_credentials resources).
Proof.
  unfold process_result_dataset.
  apply calls_only_bind; [apply calls_only_lift|intro].
  apply calls_only_bind; [apply calls_only_ask_payload|intro].
  apply calls_only_bind; [|intro].
  { destruct a0; try apply calls_only_ret.
    apply calls_only_bind; [apply calls_only_create_dataset|intro].
    apply calls_only_ret. }
  cbv zeta.
  apply calls_only_bind; [|intro].
  { apply calls_only_for_each. intros.
    apply calls_only_bind; [apply calls_only_lift|intros [|]].
    - apply calls_only_bind; [apply calls_only_lift|intro].
      apply calls_only_upload_files.
    - apply calls_only_ret. }
  apply calls_only_bind; [apply calls_only_lift|intro].
  apply calls_only_bind; [destruct a3; calls_only|intro].
  apply calls_only_bind; [destruct process_metadata; calls_only|intro].
  apply calls_only_bind; [apply calls_only_update_dataset_metadata|intro].
  apply calls_only_ret.
Qed.

Lemma calls_only_process_results_json proc_results experiment_info workflow_step
    host request_key workstep_metadata clowder_credentials resources :
  calls_only (process_results_json proc_results experiment_info workflow_step
                host request_key workstep_metadata clowder_credentials resources).
Proof.
  unfold process_results_json.
  apply calls_only_bind; [apply calls_only_lift|intro].
  apply calls_only_bind; [apply calls_only_lift|intro].
  destruct (negb a0); [apply calls_only_ret|].
  apply calls_only_bind; [destruct proc_results; calls_only|intro].
  apply calls_only_bind; [apply calls_only_lift|intro].
  apply calls_only_bind; [|intro].
  { destruct a2; [|apply calls_only_ret].
    apply calls_only_bind; [apply calls_only_lift|intro].
    apply calls_only_bind;
      [apply calls_only_process_result_dataset|intro; apply calls_only_ret]. }
  apply calls_only_bind; [|intro; apply calls_only_ret].
  apply calls_only_for_each. intros.
  apply calls_only_bind; [apply calls_only_lift|intros [|]].
  - apply calls_only_bind; [apply calls_only_lift|intro].
    apply calls_only_bind;
      [apply calls_only_process_result_file|intro; apply calls_only_ret].
  - apply calls_only_ret.
Qed.

(** ** Result ingestion *)

(** C5. When the success predicate of the step rejects the code of the
    results, [process_results_json] reports the failure by returning
    [False] and leaves the world and the record as they were: no dataset
    is looked up or created, no file uploaded, no metadata removed or
    attached. The predicate of the workflow, [int(code) == 0], rejects the
    code 1. *)
Theorem process_results_json_rejected :
  forall proc_results experiment_info workflow_step host request_key
         workstep_metadata clowder_credentials resources code s,
    PyVal.getitem proc_results "code" = Ok code ->
    return_code_success workflow_step code = Ok false ->
    process_results_json proc_results experiment_info workflow_step host
      request_key workstep_metadata clowder_credentials resources s
    = (Returned false, s)
    /\ filter is_publishing
         (trace (snd (process_results_json proc_results experiment_info
                        workflow_step host request_key workstep_metadata
                        clowder_credentials resources s)))
       = filter is_publishing (trace s)
    /\ code_is_zero (VInt 1) = Ok false.
Proof.
  intros proc_results experiment_info workflow_step host request_key
    workstep_metadata clowder_credentials resources code s Hcode Hrejected.
  assert (E : process_results_json proc_results experiment_info workflow_step
                host request_key workstep_metadata clowder_credentials
                resources s = (Returned false, s)).
  { unfold process_results_json, bind, lift.
    rewrite Hcode, Hrejected. reflexivity. }
  rewrite E. repeat split.
Qed.

(** ** The dataset name *)

Lemma append_assoc3 (a b c : string) : (a ++ b) ++ c = a ++ (b ++ c).
Proof. induction a as [|x a IH]; cbn; [reflexivity|now rewrite IH]. Qed.

Lemma format_date_experiment_name (info : list (string * string)) (d e : string) :
  dict_get info "date" = Some d ->
  dict_get info "experiment" = Some e ->
  PyFormat.format "{date}_{experiment}_{name}" info
  = match dict_get info "name" with
    | Some n => Ok (d ++ "_" ++ e ++ "_" ++ n)
    | None => Raise (KeyError "name")
    end.
Proof.
  intros Hd He. unfold PyFormat.format.
  cbv -[dict_get String.append]. rewrite Hd.
  cbv -[dict_get String.append]. rewrite He.
  cbv -[dict_get String.append].
  destruct (dict_get info "name") as [n|]; [|reflexivity].
  f_equal. now rewrite !append_assoc3.
Qed.

Lemma bind_lift_ok {A B : Type} (a : A) (k : A -> M B) (s : state) :
  bind (lift (Ok a)) k s = k a s.
Proof. reflexivity. Qed.

Lemma bind_lift_raise {A B : Type} (e : exn) (k : A -> M B) (s : state) :
  bind (@lift A (Raise e)) k s = (Raised e, s).
Proof. reflexivity. Qed.

Lemma bind_assoc {A B C : Type} (m : M A) (f : A -> M B) (g : B -> M C)
    (s : state) :
  bind (bind m f) g s = bind m (fun a => bind (f a) g) s.
Proof. unfold bind. destruct (m s) as [[a|e|] s']; reflexivity. Qed.

(** A computation that starts with a call records it first. *)
Lemma first_call {B : Type} (c : call) (k : reply -> M B) (s : state) :
  (forall r, calls_only (k r)) ->
  exists r added,
    trace (snd (bind (perform c) k s)) = (trace s ++ Called c r :: added)%list /\
    forallb is_call added = true.
Proof.
  intros Hk. unfold bind, perform.
  destruct (respond (world s) c) as [r w].
  destruct (Hk r {| world := w; trace := (trace s ++ [Called c r])%list |})
    as (added & Htrace & Hcalls).
  exists r, added. split; [|exact Hcalls].
  rewrite Htrace. cbn [trace]. now rewrite <- app_assoc.
Qed.

(** C3, as amended. [process_result_dataset] formats the dataset name by
    substituting fields of the experiment information, and nothing else,
    into the template of the step, or into ['{name}_{date}_{experiment}']
    when the step has none: a field that is missing there makes the
    function raise before any call, and the name obtained is the one
    looked up. This is shown for the templates whose replacement fields
    are plain names, as those of the module are; of a template with a
    conversion, a format specification, an attribute or an index, for
    which the formatting answers [Unmodelled], nothing is said. With the
    template ['{date}_{experiment}_{name}'] the name is the date,
    experiment and name entries of the descriptor joined by underscores,
    and a descriptor without a name entry gives a [KeyError]. *)
Theorem dataset_name_from_experiment_fields :
  forall container_results experiment_info workflow_step process_metadata host
         request_key workstep_metadata clowder_credentials resources s,
    dataset_name workflow_step experiment_info
    = PyFormat.format
        (match dataset_name_template workflow_step with
         | Some template => template
         | None => "{name}_{date}_{experiment}"
         end) experiment_info
    /\
    (forall e,
        dataset_name workflow_step experiment_info = Raise e ->
        e <> Unmodelled ->
        process_result_dataset container_results experiment_info workflow_step
          process_metadata host request_key workstep_metadata
          clowder_credentials resources s = (Raised e, s))
    /\
    (forall n,
        dataset_name workflow_step experiment_info = Ok n ->
        exists r,
          nth_error
            (trace (snd (process_result_dataset container_results
                           experiment_info workflow_step process_metadata host
                           request_key workstep_metadata clowder_credentials
                           resources s)))
            (length (trace s))
          = Some (Called (GetDatasetidByName host request_key n) r))
    /\
    (dataset_name_template workflow_step = Some "{date}_{experiment}_{name}" ->
     forall d e,
       dict_get experiment_info "date" = Some d ->
       dict_get experiment_info "experiment" = Some e ->
       dataset_name workflow_step experiment_info
       = match dict_get experiment_info "name" with
         | Some n => Ok (d ++ "_" ++ e ++ "_" ++ n)
         | None => Raise (KeyError "name")
         end).
Proof.
  intros container_results experiment_info workflow_step process_metadata host
    request_key workstep_metadata clowder_credentials resources s.
  split; [|split; [|split]].
  - unfold dataset_name. now destruct (dataset_name_template workflow_step).
  - intros e He _. unfold process_result_dataset. rewrite He. reflexivity.
  - intros n Hn.
    assert (Hcalls := calls_only_process_result_dataset container_results
                        experiment_info workflow_step process_metadata host
                        request_key workstep_metadata clowder_credentials
                        resources).
    unfold process_result_dataset in *. rewrite Hn in *.
    rewrite bind_lift_ok. cbv beta. unfold ask_payload at 1.
    rewrite bind_assoc.
    match goal with
    | |- context [bind (perform ?c) ?k s] =>
        destruct (first_call c k s) as (r & added & Htrace & _)
    end.
    + intros r.
      apply calls_only_bind; [destruct r; calls_only|intro].
      apply calls_only_bind; [|intro].
      { destruct a; try apply calls_only_ret.
        apply calls_only_bind; [apply calls_only_create_dataset|intro].
        apply calls_only_ret. }
      cbv zeta.
      apply calls_only_bind; [|intro].
      { apply calls_only_for_each. intros.
        apply calls_only_bind; [apply calls_only_lift|intros [|]].
        - apply calls_only_bind; [apply calls_only_lift|intro].
          apply calls_only_upload_files.
        - apply calls_only_ret. }
      apply calls_only_bind; [apply calls_only_lift|intro].
      apply calls_only_bind; [destruct a2; calls_only|intro].
      apply calls_only_bind; [destruct process_metadata; calls_only|intro].
      apply calls_only_bind; [apply calls_only_update_dataset_metadata|intro].
      apply calls_only_ret.
    + exists r. rewrite Htrace.
      rewrite nth_error_app2 by lia. now rewrite Nat.sub_diag.
  - intros Htemplate d e Hd He. unfold dataset_name. rewrite Htemplate.
    now apply format_date_experiment_name.
Qed.

(** ** The hand-off between steps *)

Lemma calls_only_now : calls_only now.
Proof. unfold now. calls_only. Qed.

Lemma calls_only_read_lines (fuel : nat) : calls_only (read_lines fuel).
Proof.
  induction fuel as [|fuel IH]; cbn [read_lines].
  - apply calls_only_out_of_rounds.
  - apply calls_only_bind; [apply calls_only_ask_text|intro].
    destruct (String.eqb a ""); [apply calls_only_ret|exact IH].
Qed.

Lemma calls_only_wait_loop (fuel : nat) :
  forall start_time returncode, calls_only (wait_loop fuel start_time returncode).
Proof.
  induction fuel as [|fuel IH]; intros start_time returncode; cbn [wait_loop].
  - apply calls_only_out_of_rounds.
  - apply calls_only_bind; [apply calls_only_now|intro t].
    destruct (t - start_time <=? total_wait_microseconds)%Z;
      [|apply calls_only_ret].
    destruct returncode; try apply calls_only_ret.
    apply calls_only_bind; [|intro].
    { apply calls_only_catch;
        [apply calls_only_read_lines|intro; apply calls_only_ret]. }
    apply calls_only_bind; [apply calls_only_ask_payload|intro polled].
    apply calls_only_bind; [apply calls_only_command|intro].
    apply calls_only_bind; [apply calls_only_now|intro t'].
    destruct (total_wait_microseconds <? t' - start_time)%Z;
      [apply calls_only_raise|apply IH].
Qed.

Lemma calls_only_wait_for_process (cmd : list string) :
  calls_only (wait_for_process cmd).
Proof.
  unfold wait_for_process.
  apply calls_only_bind; [apply calls_only_command|intro].
  apply calls_only_bind; [apply calls_only_now|intro].
  apply calls_only_wait_loop.
Qed.

Ltac record_step :=
  first
    [ apply calls_only_command
    | apply calls_only_question
    | apply calls_only_ask_text
    | apply calls_only_ask_payload
    | apply calls_only_ask_names
    | apply calls_only_create_folder
    | apply calls_only_setup
    | apply calls_only_wait_for_process
    | apply calls_only_process_results_json
    | apply calls_only_for_each; intros; apply calls_only_relocate_one
    | calls_only_step ].

Lemma returns_ret {A : Type} (Q : A -> Prop) (a : A) : Q a -> returns Q (ret a).
Proof. intros H s b E. injection E as <-. exact H. Qed.

Lemma returns_raise {A : Type} (Q : A -> Prop) (e : exn) : returns Q (raise e).
Proof. intros s b E. discriminate E. Qed.

Lemma returns_bind {A B : Type} (Q : B -> Prop) (m : M A) (k : A -> M B) :
  (forall a, returns Q (k a)) -> returns Q (bind m k).
Proof.
  intros Hk s b. unfold bind. destruct (m s) as [[a|e|] s'];
    [apply Hk|discriminate|discriminate].
Qed.

Ltac returns_step :=
  first
    [ apply returns_raise
    | apply returns_bind; intro
    | match goal with
      | |- returns _ (match ?x with _ => _ end) => destruct x
      | |- returns _ (let _ := _ in _) => progress cbv zeta
      end ].

(** A computation that starts with a mark records it first. *)
Lemma after_mark {B : Type} (e : event) (k : unit -> M B) (Q : B -> Prop)
    (s : state) :
  calls_only (k tt) -> returns Q (k tt) ->
  (exists added,
     trace (snd (bind (mark e) k s)) = (trace s ++ e :: added)%list /\
     forallb is_call added = true) /\
  (forall b, fst (bind (mark e) k s) = Returned b -> Q b).
Proof.
  intros Hcalls Hreturns. unfold bind, mark.
  set (s1 := {| world := world s; trace := (trace s ++ [e])%list |}).
  split.
  - destruct (Hcalls s1) as (added & Htrace & Hadded).
    exists added. split; [|exact Hadded].
    rewrite Htrace. cbn [trace s1]. now rewrite <- app_assoc.
  - intros b. apply Hreturns.
Qed.

(** One round of the loop: when the environment cannot be built nothing
    happens; otherwise the round records one staging call, given the
    environment just built and the source the loop state asks for, and
    apart from it only calls; a round that ends well leaves an environment
    with the same cache folder in the loop state. *)
Lemma run_step_record working_folder working_subfolder named_volume host
    secret_key resource st current_step s :
  match create_env_json working_folder working_subfolder named_volume
          current_step resource with
  | Raise e =>
      run_step working_folder working_subfolder named_volume host secret_key
        resource st current_step s = (Raised e, s)
  | Ok env =>
      (exists added,
         trace (snd (run_step working_folder working_subfolder named_volume
                       host secret_key resource st current_step s))
         = (trace s
            ++ Staging env
                 (staging_source (S (step_number st)) resource
                    (match env_of st with
                     | Some previous => Some (CACHE_DIR previous)
                     | None => previous_step_cache_dir st
                     end))
               :: added)%list /\
         forallb is_call added = true) /\
      (forall st',
         fst (run_step working_folder working_subfolder named_volume host
                secret_key resource st current_step s) = Returned st' ->
         step_number st' = S (step_number st) /\
         exists env', env_of st' = Some env' /\ CACHE_DIR env' = CACHE_DIR env)
  end.
Proof.
  unfold run_step. cbv zeta.
  destruct (create_env_json working_folder working_subfolder named_volume
              current_step resource) as [env|e]; [|reflexivity].
  rewrite bind_lift_ok. cbv beta. unfold relocate_files at 1.
  rewrite bind_assoc.
  apply after_mark.
  - repeat record_step.
  - repeat returns_step.
    apply returns_ret. cbn [step_number env_of]. split; [reflexivity|].
    eexists. split; [reflexivity|].
    match goal with |- CACHE_DIR (if ?c then _ else _) = _ => destruct c end;
      reflexivity.
Qed.

Lemma stages_calls_only {A : Type} (P : list (Env * stage_source) -> Prop)
    (m : M A) :
  P [] -> calls_only m -> stages P m.
Proof.
  intros HP Hm s. destruct (Hm s) as (added & Htrace & Hcalls).
  exists []. split; [|exact HP].
  now rewrite Htrace, stagings_app, (stagings_calls _ Hcalls).
Qed.

Lemma stages_after_calls {A B : Type} (P : list (Env * stage_source) -> Prop)
    (m : M A) (k : A -> M B) :
  P [] -> calls_only m -> (forall a, stages P (k a)) -> stages P (bind m k).
Proof.
  intros HP Hm Hk s. unfold bind.
  destruct (Hm s) as (added & Htrace & Hcalls).
  assert (E : stagings (trace (snd (m s))) = stagings (trace s)).
  { rewrite Htrace, stagings_app, (stagings_calls _ Hcalls).
    apply app_nil_r. }
  destruct (m s) as [[a|e|] s']; cbn [snd] in *.
  - destruct (Hk a s') as (l & Hl & HPl). exists l. now rewrite Hl, E.
  - exists []. rewrite E. now rewrite app_nil_r.
  - exists []. rewrite E. now rewrite app_nil_r.
Qed.

Lemma stages_before_calls {A B : Type} (P : list (Env * stage_source) -> Prop)
    (m : M A) (k : A -> M B) :
  stages P m -> (forall a, calls_only (k a)) -> stages P (bind m k).
Proof.
  intros Hm Hk s. unfold bind. destruct (Hm s) as (l & Hl & HPl).
  destruct (m s) as [[a|e|] s']; cbn [snd] in *.
  - destruct (Hk a s') as (added & Htrace & Hcalls).
    exists l. split; [|exact HPl].
    rewrite Htrace, stagings_app, (stagings_calls _ Hcalls), Hl.
    apply app_nil_r.
  - exists l. now split.
  - exists l. now split.
Qed.

(** The loop over the steps hands the cache folder on. *)
Lemma loop_hand_off working_folder working_subfolder named_volume host secret_key
    resource (steps : list WorkflowStep) :
  forall st,
    stages
      (hand_off
         (fun step => create_env_json working_folder working_subfolder
                        named_volume step resource)
         (staging_source (S (step_number st)) resource
            (match env_of st with
             | Some previous => Some (CACHE_DIR previous)
             | None => previous_step_cache_dir st
             end))
         steps)
      (for_each steps
         (run_step working_folder working_subfolder named_volume host secret_key
            resource) st).
Proof.
  induction steps as [|step steps IH]; intros st s; cbn [for_each].
  - exists []. split; [now rewrite app_nil_r|exact I].
  - assert (R := run_step_record working_folder working_subfolder named_volume
                   host secret_key resource st step s).
    unfold bind.
    destruct (create_env_json working_folder working_subfolder named_volume
                step resource) as [env|e] eqn:E.
    + destruct R as [(added & Htrace & Hcalls) Hst'].
      destruct (run_step working_folder working_subfolder named_volume host
                  secret_key resource st step s) as [[st'|e|] s1];
        cbn [fst snd] in *.
      * destruct (Hst' st' eq_refl) as (Hnumber & env' & Henv' & Hcache).
        destruct (IH st' s1) as (l & Hl & Hhand).
        rewrite Hnumber, Henv', Hcache in Hhand. cbn [staging_source] in Hhand.
        eexists. split.
        -- rewrite Hl, Htrace, stagings_app. cbn [stagings].
           rewrite (stagings_calls _ Hcalls), <- app_assoc. reflexivity.
        -- cbn [hand_off app]. rewrite E.
           split; [reflexivity|]. split; [reflexivity|exact Hhand].
      * eexists. split.
        -- rewrite Htrace, stagings_app. cbn [stagings].
           rewrite (stagings_calls _ Hcalls). reflexivity.
        -- cbn [hand_off]. rewrite E.
           split; [reflexivity|]. split; [reflexivity|exact I].
      * eexists. split.
        -- rewrite Htrace, stagings_app. cbn [stagings].
           rewrite (stagings_calls _ Hcalls). reflexivity.
        -- cbn [hand_off]. rewrite E.
           split; [reflexivity|]. split; [reflexivity|exact I].
    + rewrite R. cbn [snd]. exists []. split; [now rewrite app_nil_r|exact I].
Qed.

Lemma hand_off_nth make_env (l : list (Env * stage_source)) :
  forall expected steps,
    hand_off make_env expected steps l ->
    forall n env src,
      nth_error l n = Some (env, src) ->
      (n = 0%nat -> src = expected) /\
      (forall env' src',
          nth_error l (S n) = Some (env', src') ->
          src' = SrcFolder (CACHE_DIR env)) /\
      (exists step, nth_error steps n = Some step /\ make_env step = Ok env).
Proof.
  induction l as [|[env0 src0] l IH]; intros expected steps Hhand n env src Hn.
  - destruct n; discriminate.
  - cbn [hand_off] in Hhand. destruct steps as [|step steps]; [contradiction|].
    destruct Hhand as (Hmake & Hsrc & Hrest).
    destruct n as [|n].
    + injection Hn as -> ->. split; [now intros _|]. split.
      * intros env' src' Hnext.
        apply (IH _ _ Hrest 0%nat env' src' Hnext). reflexivity.
      * exists step. now split.
    + cbn [nth_error] in Hn.
      destruct (IH _ _ Hrest n env src Hn) as (_ & Hnext & Hstep).
      split; [discriminate|]. split; assumption.
Qed.

Lemma stages_weaken {A : Type} (P Q : list (Env * stage_source) -> Prop)
    (m : M A) :
  (forall l, P l -> Q l) -> stages P m -> stages Q m.
Proof.
  intros HPQ Hm s. destruct (Hm s) as (l & Hl & HPl). exists l. split; auto.
Qed.

Lemma process_message_stages named_volume working_space workflow host secret_key
    resource :
  stages
    (fun l =>
       exists working_folder working_subfolder volume,
         hand_off
           (fun step => create_env_json working_folder working_subfolder volume
                          step resource)
           (SrcResource resource) workflow l)
    (process_message named_volume working_space workflow host secret_key resource).
Proof.
  assert (Hnil : exists working_folder working_subfolder volume : string,
             hand_off
               (fun step => create_env_json working_folder working_subfolder
                              volume step resource)
               (SrcResource resource) workflow [])
    by (exists "", "", ""; exact I).
  unfold process_message.
  apply stages_after_calls; [exact Hnil|apply calls_only_command|intros _].
  apply stages_after_calls; [exact Hnil|apply calls_only_command|intros _].
  destruct named_volume as [[|c volume]|];
    try (apply stages_calls_only; [exact Hnil|apply calls_only_raise]).
  destruct working_space as [[|c' space]|];
    try (apply stages_calls_only; [exact Hnil|apply calls_only_raise]).
  apply stages_after_calls;
    [exact Hnil|apply calls_only_ask_text|intros working_folder].
  cbv zeta.
  apply stages_after_calls;
    [exact Hnil|apply calls_only_create_folder|intros _].
  apply stages_before_calls; [|intros _; apply calls_only_command].
  eapply stages_weaken; [|apply loop_hand_off].
  cbn [step_number env_of previous_step_cache_dir staging_source Nat.leb].
  intros l Hl. eexists _, _, _. exact Hl.
Qed.

(** C2. In every run of [process_message], over any workflow, the first
    staging call is given the resource of the request, and every later one
    the [CACHE_DIR] of the environment that the staging call before it was
    given, which is the environment built for the step before. *)
Theorem cache_hand_off :
  forall named_volume working_space workflow host secret_key resource w
         n env src,
    nth_error
      (stagings (trace (snd (run (process_message named_volume working_space
                                    workflow host secret_key resource) w))))
      n = Some (env, src) ->
    (n = 0%nat -> src = SrcResource resource) /\
    (forall env' src',
        nth_error
          (stagings (trace (snd (run (process_message named_volume
                                        working_space workflow host secret_key
                                        resource) w))))
          (S n) = Some (env', src') ->
        src' = SrcFolder (CACHE_DIR env)) /\
    (exists step working_folder working_subfolder volume,
        nth_error workflow n = Some step /\
        create_env_json working_folder working_subfolder volume step resource
        = Ok env).
Proof.
  intros named_volume working_space workflow host secret_key resource w n env
    src Hn.
  unfold run in *.
  destruct (process_message_stages named_volume working_space workflow host
              secret_key resource {| world := w; trace := [] |})
    as (l & Hl & working_folder & working_subfolder & volume & Hhand).
  cbn [trace stagings app] in Hl. rewrite Hl in *.
  destruct (hand_off_nth _ _ _ _ Hhand n env src Hn) as (H0 & Hnext & step & Hstep).
  split; [exact H0|]. split; [exact Hnext|].
  exists step, working_folder, working_subfolder, volume. exact Hstep.
Qed.

(** ** Waiting for the engine *)

(** The inner loop only reads lines. *)
Lemma read_lines_record (fuel : nat) :
  forall s, exists added,
    trace (snd (read_lines fuel s)) = (trace s ++ added)%list /\
    existsb is_reading added = false /\
    forallb is_call added = true.
Proof.
  induction fuel as [|fuel IH]; intros s; cbn [read_lines].
  - exists []. now rewrite app_nil_r.
  - unfold bind, ask_text at 1. unfold bind, perform.
    destruct (respond (world s) Readline) as [r w].
    set (s1 := {| world := w; trace := (trace s ++ [Called Readline r])%list |}).
    assert (Hone : forall s2 : state,
               trace s2 = trace s1 ->
               exists added,
                 trace s2 = (trace s ++ added)%list /\
                 existsb is_reading added = false /\
                 forallb is_call added = true)
      by (intros s2 ->; exists [Called Readline r]; now split).
    destruct r; cbn [ret raise fst snd]; try (apply Hone; reflexivity).
    destruct (String.eqb s0 ""); [apply Hone; reflexivity|].
    destruct (IH s1) as (added & Htrace & Hreading & Hcalls).
    exists (Called Readline (Text s0) :: added). split; [|now split].
    rewrite Htrace. cbn [trace s1]. now rewrite <- app_assoc.
Qed.

Lemma drain_record (s : state) :
  exists added,
    trace (snd (catch (read_lines rounds) (fun _ => ret tt) s))
    = (trace s ++ added)%list /\
    existsb is_reading added = false /\
    (fst (catch (read_lines rounds) (fun _ => ret tt) s) = Returned tt \/
     fst (catch (read_lines rounds) (fun _ => ret tt) s) = OutOfRounds).
Proof.
  destruct (read_lines_record rounds s) as (added & Htrace & Hreading & _).
  unfold catch. destruct (read_lines rounds s) as [[[]|e|] s1];
    cbn [fst snd ret] in *; exists added; auto.
Qed.

Section WellBehavedClock.

(** The clock can always be read, the process can always be polled and
    the sleep always returns. *)
Hypothesis clock_reads : forall w, exists t w', respond w Now = (Clock t, w').
Hypothesis poll_answers :
  forall w, exists v w', respond w Poll = (Payload v, w').
Hypothesis sleep_returns :
  forall w seconds, exists w', respond w (Sleep seconds) = (Done, w').

Lemma now_reads (s : state) :
  exists t w',
    now s = (Returned t,
             {| world := w'; trace := (trace s ++ [Called Now (Clock t)])%list |}).
Proof.
  destruct (clock_reads (world s)) as (t & w' & E). exists t, w'.
  unfold now, bind, perform. now rewrite E.
Qed.

Lemma poll_reads (s : state) :
  exists v w',
    ask_payload Poll s
    = (Returned v,
       {| world := w';
          trace := (trace s ++ [Called Poll (Payload v)])%list |}).
Proof.
  destruct (poll_answers (world s)) as (v & w' & E). exists v, w'.
  unfold ask_payload, bind, perform. now rewrite E.
Qed.

Lemma sleep_done (s : state) (seconds : Z) :
  exists w',
    command (Sleep seconds) s
    = (Returned tt,
       {| world := w';
          trace := (trace s ++ [Called (Sleep seconds) Done])%list |}).
Proof.
  destruct (sleep_returns (world s) seconds) as (w' & E). exists w'.
  unfold command, bind, perform. now rewrite E.
Qed.

(** How the wait loop can end, and what the record shows then. *)
Lemma wait_loop_outcome (fuel : nat) :
  forall start_time returncode s out s',
    wait_loop fuel start_time returncode s = (out, s') ->
    exists added,
      trace s' = (trace s ++ added)%list /\
      match out with
      | OutOfRounds => True
      | Returned TimeUp =>
          exists before t,
            added = (before ++ [Called Now (Clock t)])%list /\
            (total_wait_microseconds < t - start_time)%Z
      | Returned Finished =>
          (returncode <> VNone \/
           exists v, v <> VNone /\ In (Called Poll (Payload v)) added) /\
          exists before t,
            added = (before ++ [Called Now (Clock t)])%list /\
            (t - start_time <= total_wait_microseconds)%Z
      | Raised e =>
          e = RuntimeError "Processing is running too long" /\
          exists before t between t',
            added = (before ++ Called Now (Clock t) :: between
                     ++ [Called Now (Clock t')])%list /\
            existsb is_reading between = false /\
            (t - start_time <= total_wait_microseconds)%Z /\
            (total_wait_microseconds < t' - start_time)%Z
      end.
Proof.
  induction fuel as [|fuel IH]; intros start_time returncode s out s' Hrun;
    cbn [wait_loop] in Hrun.
  - injection Hrun as <- <-. exists []. now rewrite app_nil_r.
  - unfold bind at 1 in Hrun. destruct (now_reads s) as (t & w1 & E).
    rewrite E in Hrun. clear E. cbv beta iota in Hrun.
    set (s1 := {| world := w1; trace := (trace s ++ [Called Now (Clock t)])%list |})
      in *.
    destruct (Z.leb_spec (t - start_time) total_wait_microseconds) as [Hin|Hout].
    2:{ injection Hrun as <- <-.
        exists [Called Now (Clock t)]. split; [reflexivity|].
        exists [], t. now split. }
    assert (Hbreak : returncode <> VNone -> (out, s') = (Returned Finished, s1) ->
              exists added,
                trace s' = (trace s ++ added)%list /\
                match out with
                | Returned Finished =>
                    (returncode <> VNone \/
                     exists v, v <> VNone /\ In (Called Poll (Payload v)) added) /\
                    exists before t0,
                      added = (before ++ [Called Now (Clock t0)])%list /\
                      (t0 - start_time <= total_wait_microseconds)%Z
                | _ => False
                end).
    { intros Hrc Heq. injection Heq as -> ->.
      exists [Called Now (Clock t)]. split; [reflexivity|].
      split; [now left|]. exists [], t. now split. }
    destruct returncode as [| b | z | str | l | d];
      try (injection Hrun as <- <-;
           destruct Hbreak as (added & Htrace & Hend);
           [discriminate|reflexivity|exists added; now split]).
    clear Hbreak.
    unfold bind at 1 in Hrun.
    destruct (drain_record s1) as (drained & Hdrained & Hquiet & Hdrain).
    destruct (catch (read_lines rounds) (fun _ => ret tt) s1) as [out2 s2].
    cbn [fst snd] in *.
    destruct Hdrain as [-> | ->].
    2:{ injection Hrun as <- <-.
        exists (Called Now (Clock t) :: drained). split; [|exact I].
        rewrite Hdrained. cbn [trace s1]. now rewrite <- app_assoc. }
    unfold bind at 1 in Hrun. destruct (poll_reads s2) as (polled & w3 & E).
    rewrite E in Hrun. clear E. cbv beta iota in Hrun.
    set (s3 := {| world := w3;
                  trace := (trace s2 ++ [Called Poll (Payload polled)])%list |})
      in *.
    unfold bind at 1 in Hrun.
    destruct (sleep_done s3 PROC_WAIT_SLEEP_SEC) as (w4 & E).
    rewrite E in Hrun. clear E. cbv beta iota in Hrun.
    set (s4 := {| world := w4;
                  trace := (trace s3
                            ++ [Called (Sleep PROC_WAIT_SLEEP_SEC) Done])%list |})
      in *.
    unfold bind at 1 in Hrun. destruct (now_reads s4) as (t' & w5 & E).
    rewrite E in Hrun. clear E. cbv beta iota in Hrun.
    set (s5 := {| world := w5;
                  trace := (trace s4 ++ [Called Now (Clock t')])%list |}) in *.
    set (round := (drained ++ [Called Poll (Payload polled);
                               Called (Sleep PROC_WAIT_SLEEP_SEC) Done])%list).
    assert (Hs5 : trace s5
                  = (trace s ++ Called Now (Clock t) :: round
                     ++ [Called Now (Clock t')])%list).
    { cbn [trace s5 s4 s3]. rewrite Hdrained. cbn [trace s1]. unfold round.
      rewrite <- !app_assoc. reflexivity. }
    assert (Hround : existsb is_reading round = false).
    { unfold round. rewrite existsb_app, Hquiet. reflexivity. }
    destruct (Z.ltb_spec total_wait_microseconds (t' - start_time)) as [Hover|Hunder].
    + injection Hrun as <- <-.
      exists (Called Now (Clock t) :: round ++ [Called Now (Clock t')])%list.
      split; [exact Hs5|]. split; [reflexivity|].
      exists [], t, round, t'. repeat split; assumption.
    + destruct (IH start_time polled s5 out s' Hrun) as (added & Htrace & Hend).
      exists (Called Now (Clock t) :: round ++ Called Now (Clock t') :: added)%list.
      split.
      { rewrite Htrace, Hs5. rewrite <- !app_assoc. cbn [app].
        rewrite <- !app_assoc. reflexivity. }
      destruct out as [[|]|e|].
      * destruct Hend as (Hcode & before & t0 & -> & Ht0). split.
        -- right. destruct Hcode as [Hpolled|(v & Hv & Hv_in)].
           ++ exists polled. split; [exact Hpolled|].
              right. apply in_or_app. left. unfold round.
              apply in_or_app. right. now left.
           ++ exists v. split; [exact Hv|].
              right. apply in_or_app. right. now right.
        -- exists (Called Now (Clock t) :: round ++ Called Now (Clock t') :: before)%list,
             t0.
           split; [|exact Ht0].
           cbn [app]. rewrite <- !app_assoc. reflexivity.
      * destruct Hend as (before & t0 & -> & Ht0).
        exists (Called Now (Clock t) :: round ++ Called Now (Clock t') :: before)%list,
          t0.
        split; [|exact Ht0].
        cbn [app]. rewrite <- !app_assoc. reflexivity.
      * destruct Hend as (-> & before & t0 & between & t1 & -> & Hb & H0 & H1).
        split; [reflexivity|].
        exists (Called Now (Clock t) :: round ++ Called Now (Clock t') :: before)%list,
          t0, between, t1.
        split; [|now repeat split].
        cbn [app]. rewrite <- !app_assoc. reflexivity.
      * exact I.
Qed.

(** X1. The wait loop raises only its own error, only on a reading of the
    clock that is beyond the total wait, taken at the end of a round whose
    first reading was still within it: never early, and late by no more
    than the round took. *)
Theorem wait_loop_timeout_within_one_round :
  forall fuel start_time returncode s e s',
    wait_loop fuel start_time returncode s = (Raised e, s') ->
    e = RuntimeError "Processing is running too long" /\
    exists before t between t',
      trace s' = (trace s ++ before ++ Called Now (Clock t) :: between
                  ++ [Called Now (Clock t')])%list /\
      existsb is_reading between = false /\
      (t - start_time <= PROC_WAIT_TOTAL_SEC * 1000000)%Z /\
      (PROC_WAIT_TOTAL_SEC * 1000000 < t' - start_time)%Z.
Proof.
  intros fuel start_time returncode s e s' Hrun.
  destruct (wait_loop_outcome _ _ _ _ _ _ Hrun)
    as (added & Htrace & He & before & t & between & t' & -> & Hquiet & Ht & Ht').
  split; [exact He|]. exists before, t, between, t'.
  split; [exact Htrace|]. now repeat split.
Qed.

(** X2. The wait loop is left by its [break] only with the return code of the
    process set: it was set on entry, or a poll of this wait reported it;
    and the last reading of the clock was within the total wait. *)
Theorem wait_loop_finished_with_code :
  forall fuel start_time returncode s s',
    wait_loop fuel start_time returncode s = (Returned Finished, s') ->
    exists added,
      trace s' = (trace s ++ added)%list /\
      (returncode <> VNone \/
       exists v, v <> VNone /\ In (Called Poll (Payload v)) added) /\
      exists before t,
        added = (before ++ [Called Now (Clock t)])%list /\
        (t - start_time <= PROC_WAIT_TOTAL_SEC * 1000000)%Z.
Proof.
  intros fuel start_time returncode s s' Hrun.
  destruct (wait_loop_outcome _ _ _ _ _ _ Hrun) as (added & Htrace & Hend).
  exists added. split; [exact Htrace|exact Hend].
Qed.

(** X3. The wait loop is left by its condition, without an error, exactly on
    a reading of the clock beyond the total wait; the return code plays no
    part in it. *)
Theorem wait_loop_time_up_is_silent :
  forall fuel start_time returncode s s',
    wait_loop fuel start_time returncode s = (Returned TimeUp, s') ->
    exists before t,
      trace s' = (trace s ++ before ++ [Called Now (Clock t)])%list /\
      (PROC_WAIT_TOTAL_SEC * 1000000 < t - start_time)%Z.
Proof.
  intros fuel start_time returncode s s' Hrun.
  destruct (wait_loop_outcome _ _ _ _ _ _ Hrun)
    as (added & Htrace & before & t & -> & Ht).
  exists before, t. split; [exact Htrace|exact Ht].
Qed.

End WellBehavedClock.

(** ** Further properties of the metadata functions *)

(** X4. [prepare_metadata] leaves what it has prepared as it is: its result
    carries an ['@context'] entry, and preparing it again, for whatever
    target, returns it unchanged. *)
Theorem prepare_metadata_idempotent :
  forall host version creator_name metadata target_id target_is_dataset prepared,
    prepare_metadata host version creator_name metadata target_id
      target_is_dataset = Ok prepared ->
    PyVal.has "@context" prepared = Ok true /\
    forall host' version' creator_name' target_id' target_is_dataset',
      prepare_metadata host' version' creator_name' prepared target_id'
        target_is_dataset' = Ok prepared.
Proof.
  intros host version creator_name metadata target_id target_is_dataset prepared.
  unfold prepare_metadata.
  destruct (PyVal.has "@context" metadata) as [[|]|e] eqn:Hhas; intros H;
    [| |discriminate].
  - injection H as <-. split; [exact Hhas|]. intros. now rewrite Hhas.
  - injection H as <-. split; [reflexivity|]. intros. reflexivity.
Qed.

Lemma first_found_some {A B : Type} (f : A -> option B) (l : list A) (b : B) :
  first_found f l = Some b -> exists a, In a l /\ f a = Some b.
Proof.
  induction l as [|a l IH]; cbn [first_found]; [discriminate|].
  destruct (f a) as [b'|] eqn:E.
  - intros H. injection H as <-. exists a. split; [now left|exact E].
  - intros H. destruct (IH H) as (a' & Hin & Ha'). exists a'.
    split; [now right|exact Ha'].
Qed.

(** Every key the search returns passes the test of the level it was
    started with. *)
Lemma search_found_matches (v : value) :
  forall check_key case_insensitive k x,
    search v check_key case_insensitive = Some (k, x) ->
    key_matches case_insensitive check_key k = true.
Proof.
  induction v as [| b | z | s | l _ | d IH] using value_nested_ind;
    intros check_key case_insensitive k x; try discriminate.
  rewrite search_dict.
  destruct (level_match case_insensitive check_key d) as [[k0 x0]|] eqn:Hlevel.
  - intros H. injection H as -> ->.
    apply find_some in Hlevel. exact (proj2 Hlevel).
  - intros H. destruct (first_found_some _ _ _ H) as (d0 & Hd0 & Hfound).
    destruct (in_dict_checks _ _ Hd0) as [k0 Hk0].
    rewrite Forall_forall in IH.
    assert (Hexact := IH _ Hk0 check_key false k x Hfound).
    unfold key_matches in *. cbn [andb] in Hexact.
    rewrite orb_false_r in Hexact. now rewrite Hexact.
Qed.

(** X5. A key that [find_dict_key] returns is the key searched for: letter for
    letter in a case-sensitive search, and with the same lowercased form
    otherwise, at whatever depth it was found. This holds for every
    lowering that leaves a lowercased str as it is, as [str.lower] does. *)
Theorem find_dict_key_found_key :
  forall (haystack : dict) (key : string) (case_insensitive : bool) k v,
    (forall s, str_lower (str_lower s) = str_lower s) ->
    find_dict_key haystack key case_insensitive = Some (k, v) ->
    if case_insensitive then str_lower k = str_lower key else k = key.
Proof.
  intros haystack key case_insensitive k v Hlower H. unfold find_dict_key in H.
  apply search_found_matches in H. rewrite (key_matches_spec _ _ _ Hlower) in H.
  destruct case_insensitive; now apply String.eqb_eq.
Qed.

(** X6. Below the level the search starts at, only a key that is the
    lowercased search key, letter for letter, is found: when no key of the
    top level passes the test of the first loop, a result comes from one
    of the nested dicts and its key is exactly the check key. Nothing is
    assumed of the lowering. *)
Theorem find_dict_key_nested_exact :
  forall (haystack : dict) (key : string) (case_insensitive : bool) k v,
    level_match case_insensitive
      (if case_insensitive then str_lower key else key) haystack = None ->
    find_dict_key haystack key case_insensitive = Some (k, v) ->
    k = (if case_insensitive then str_lower key else key) /\
    exists d,
      In d (dict_checks haystack) /\
      find_dict_key d (if case_insensitive then str_lower key else key) false
      = Some (k, v).
Proof.
  intros haystack key case_insensitive k v Hlevel H.
  unfold find_dict_key in H. rewrite search_dict, Hlevel in H.
  destruct (first_found_some _ _ _ H) as (d & Hd & Hfound).
  split.
  - apply search_found_matches in Hfound. unfold key_matches in Hfound.
    cbn [andb] in Hfound. rewrite orb_false_r in Hfound.
    now apply String.eqb_eq.
  - exists d. split; [exact Hd|exact Hfound].
Qed.

(** ** Further properties of the result ingestion *)


(** ** Further properties of the environment builder *)

Lemma dropwhile_head (f : ascii -> bool) (l : list ascii) :
  match dropwhile f l with [] => True | c :: _ => f c = false end.
Proof.
  induction l as [|c l IH]; cbn [dropwhile]; [exact I|].
  destruct (f c) eqn:E; [exact IH|exact E].
Qed.

Lemma dropwhile_suffix (f : ascii -> bool) (l : list ascii) :
  exists dropped, l = (dropped ++ dropwhile f l)%list.
Proof.
  induction l as [|c l [dropped IH]]; cbn [dropwhile]; [now exists []|].
  destruct (f c).
  - exists (c :: dropped). cbn [app]. now rewrite <- IH.
  - now exists [].
Qed.

(** What is left after stripping both ends is empty or begins with a
    character that is not stripped. *)
Lemma stripped_head (s set : string) :
  rstrip (lstrip s set) set = "" \/
  exists c rest,
    rstrip (lstrip s set) set = String c rest /\ mem_char set c = false.
Proof.
  unfold rstrip, lstrip. rewrite chars_of_chars.
  set (kept := dropwhile (mem_char set) (chars s)).
  assert (Hhead := dropwhile_head (mem_char set) (chars s)). fold kept in Hhead.
  destruct (dropwhile_suffix (mem_char set) (rev kept)) as [dropped Hrev].
  assert (Hkept : kept = (rev (dropwhile (mem_char set) (rev kept))
                          ++ rev dropped)%list).
  { rewrite <- rev_app_distr, <- Hrev. now rewrite rev_involutive. }
  destruct (rev (dropwhile (mem_char set) (rev kept))) as [|c rest].
  - now left.
  - right. exists c, (of_chars rest). split; [reflexivity|].
    rewrite Hkept in Hhead. exact Hhead.
Qed.

Lemma endswith_app (a b : string) : endswith (a ++ b) b = true.
Proof.
  unfold endswith. rewrite chars_app, rev_app_distr. apply starts_app.
Qed.

Lemma join2_relative (path b : string) :
  startswith b "/" = false -> endswith path "/" = true ->
  join2 path b = path ++ b.
Proof.
  intros Hb Hpath. unfold join2, sep. now rewrite Hb, Hpath, orb_true_r.
Qed.

Lemma lstrip_unchanged (c : ascii) (rest set : string) :
  mem_char set c = false -> lstrip (String c rest) set = String c rest.
Proof.
  intros Hc. unfold lstrip.
  change (chars (String c rest)) with (c :: chars rest).
  cbn [dropwhile]. rewrite Hc.
  change (c :: chars rest) with (chars (String c rest)).
  apply of_chars_chars.
Qed.

(** X8. The folders of the environment: the relative working folder always
    ends in a slash; unless it is the bare slash, it does not begin with
    one, the cache folder is [cache/] under it below [/mnt/], and the data
    folder is [images] under it. When nothing is left of the subfolder and
    the name of the workflow file, the relative working folder is the bare
    slash and the cache folder is [/cache/], outside [/mnt/]. *)
Theorem create_env_json_layout :
  forall out_folder image_subfolder mount_volume_name workflow_step resources env,
    create_env_json out_folder image_subfolder mount_volume_name workflow_step
      resources = Ok env ->
    endswith (RELATIVE_WORKING_FOLDER env) "/" = true /\
    (RELATIVE_WORKING_FOLDER env <> "/" ->
     startswith (RELATIVE_WORKING_FOLDER env) "/" = false /\
     CACHE_DIR env = "/mnt/" ++ RELATIVE_WORKING_FOLDER env ++ "cache/" /\
     DATA_FOLDER_NAME env = RELATIVE_WORKING_FOLDER env ++ "images") /\
    (RELATIVE_WORKING_FOLDER env = "/" ->
     CACHE_DIR env = "/cache/" /\ DATA_FOLDER_NAME env = "images").
Proof.
  intros out_folder image_subfolder mount_volume_name workflow_step resources
    env. unfold create_env_json.
  destruct (find is_experiment_file (local_paths resources)) as [f|];
    [|discriminate].
  intros H.
  assert (E : forall a b : Env, Ok a = Ok b -> a = b)
    by (intros a b E; now injection E).
  apply E in H. rewrite <- H. clear E H env.
  cbn [RELATIVE_WORKING_FOLDER CACHE_DIR DATA_FOLDER_NAME].
  set (joined := join image_subfolder _).
  destruct (stripped_head joined "/\") as [Hempty|(c & rest & Hkept & Hc)].
  - rewrite Hempty. split; [reflexivity|]. split; [intros Hne; now elim Hne|].
    intros _. split; reflexivity.
  - rewrite Hkept.
    assert (Hslash : startswith (String c rest ++ "/") "/" = false).
    { unfold startswith. cbn -[Ascii.eqb].
      unfold mem_char in Hc. cbn -[Ascii.eqb] in Hc.
      apply orb_false_elim in Hc. destruct Hc as [Hc _].
      rewrite Ascii.eqb_sym, Hc. reflexivity. }
    split; [apply endswith_app|]. split.
    + intros _. split; [exact Hslash|]. split.
      * unfold join. cbn [fold_left].
        rewrite (join2_relative "/mnt/" _ Hslash eq_refl).
        rewrite join2_relative; [| reflexivity |].
        -- now rewrite !append_assoc3.
        -- rewrite <- append_assoc3. apply endswith_app.
      * unfold join. cbn [fold_left].
        rewrite join2_relative; [| reflexivity | apply endswith_app].
        change (String c rest ++ "/") with (String c (rest ++ "/")).
        cbn [append]. now apply lstrip_unchanged.
    + intros Hbare. exfalso.
      change (String c rest ++ "/") with (String c (rest ++ "/")) in Hbare.
      injection Hbare as -> Hrest. destruct rest; discriminate.
Qed.

Lemma of_chars_app (a b : list ascii) :
  of_chars (a ++ b) = of_chars a ++ of_chars b.
Proof. induction a as [|c a IH]; cbn; [reflexivity|]. unfold of_chars in IH. now rewrite IH. Qed.

Lemma starts_split (p l : list ascii) :
  starts p l = true -> l = (p ++ skipn (length p) l)%list.
Proof.
  revert l. induction p as [|c p IH]; intros [|d l]; cbn -[Ascii.eqb];
    try reflexivity; try discriminate.
  intros H. apply andb_prop in H. destruct H as [Hc Hp].
  apply Ascii.eqb_eq in Hc. subst d. f_equal. now apply IH.
Qed.

(** What [rfind] finds: nothing, and the character does not occur; or its
    last occurrence, with none after it. *)
Lemma rfind_from_last (c : ascii) (l : list ascii) :
  forall i found,
    (found < i)%Z ->
    (rfind_from i c l found = found /\ existsb (Ascii.eqb c) l = false) \/
    ((i <= rfind_from i c l found < i + Z.of_nat (length l))%Z /\
     existsb (Ascii.eqb c)
       (skipn (Z.to_nat (rfind_from i c l found - i + 1)) l) = false).
Proof.
  induction l as [|a l IH]; intros i found Hfound; cbn [rfind_from].
  - left. now split.
  - destruct (Ascii.eqb_spec a c) as [->|Hne].
    + right. destruct (IH (i + 1)%Z i ltac:(lia)) as [[Hsame Hnone]|[Hrange Hafter]].
      * rewrite Hsame. split; [cbn [length]; lia|].
        replace (i - i + 1)%Z with 1%Z by lia. exact Hnone.
      * split; [cbn [length]; lia|].
        replace (Z.to_nat (rfind_from (i + 1) c l i - i + 1))
          with (S (Z.to_nat (rfind_from (i + 1) c l i - (i + 1) + 1))) by lia.
        exact Hafter.
    + destruct (IH (i + 1)%Z found ltac:(lia)) as [[Hsame Hnone]|[Hrange Hafter]].
      * left. split; [exact Hsame|]. cbn [existsb].
        rewrite Hnone, orb_false_r.
        destruct (Ascii.eqb_spec c a); [now subst|reflexivity].
      * right. split; [cbn [length]; lia|].
        replace (Z.to_nat (rfind_from (i + 1) c l found - i + 1))
          with (S (Z.to_nat (rfind_from (i + 1) c l found - (i + 1) + 1)))
          by lia.
        exact Hafter.
Qed.

Lemma basename_no_slash (p : string) :
  existsb (Ascii.eqb "/") (chars (basename p)) = false.
Proof.
  unfold basename, slice_from, rfind. rewrite chars_of_chars.
  destruct (rfind_from_last "/" (chars p) 0 (-1) ltac:(lia))
    as [[-> Hnone]|[Hrange Hafter]].
  - exact Hnone.
  - replace (rfind_from 0 "/" (chars p) (-1) + 1)%Z
      with (rfind_from 0 "/" (chars p) (-1) - 0 + 1)%Z by lia.
    exact Hafter.
Qed.

Lemma endswith_skipn (s : string) (n : nat) :
  endswith s (of_chars (skipn n (chars s))) = true.
Proof.
  unfold endswith. rewrite chars_of_chars.
  rewrite <- (firstn_skipn n (chars s)) at 2.
  rewrite rev_app_distr. apply starts_app.
Qed.

(** X9. The experiment-metadata file name of the environment is a bare file
    name, without a slash, and the path it was taken from, a path of the
    resource set whose lowercased form ends in [.yaml], ends with it. *)
Theorem experiment_file_name_is_bare :
  forall out_folder image_subfolder mount_volume_name workflow_step resources env,
    create_env_json out_folder image_subfolder mount_volume_name workflow_step
      resources = Ok env ->
    existsb (Ascii.eqb "/") (chars (EXPERIMENT_METADATA_FILENAME env)) = false /\
    exists f,
      In f (local_paths resources) /\
      endswith (lower f) ".yaml" = true /\
      endswith f (EXPERIMENT_METADATA_FILENAME env) = true.
Proof.
  intros out_folder image_subfolder mount_volume_name workflow_step resources
    env H.
  destruct (create_env_json_ok _ _ _ _ _ _ H) as (f & Hfind & _ & Hname & _).
  rewrite Hname. split; [apply basename_no_slash|].
  apply find_some in Hfind. destruct Hfind as [Hin Hyaml].
  exists f. split; [exact Hin|]. split; [exact Hyaml|].
  apply endswith_skipn.
Qed.

(** X10. The experiment file is read back from where staging put it: the name
    written to the environment is the staged path without [BASE_DIR] in
    front, and joining it to [BASE_DIR] again gives the staged path, unless
    what is left begins with a slash, in which case the join gives what is
    left alone. *)
Theorem experiment_path_read_back :
  forall (env : Env) (new_experiment_path : string),
    BASE_DIR env = "/mnt/" ->
    startswith new_experiment_path (BASE_DIR env) = true ->
    join (BASE_DIR env)
      [EXPERIMENT_METADATA_FILENAME
         (set_experiment_metadata_filename env
            (slice_from new_experiment_path
               (Z.of_nat (String.length (BASE_DIR env)))))]
    = if startswith
           (slice_from new_experiment_path
              (Z.of_nat (String.length (BASE_DIR env)))) "/"
      then slice_from new_experiment_path
             (Z.of_nat (String.length (BASE_DIR env)))
      else new_experiment_path.
Proof.
  intros env new_experiment_path Hbase Hstarts.
  cbn [set_experiment_metadata_filename EXPERIMENT_METADATA_FILENAME].
  rewrite Hbase in *. unfold join. cbn [fold_left].
  set (kept := slice_from new_experiment_path _).
  unfold join2, sep. destruct (startswith kept "/"); [reflexivity|].
  cbn [String.eqb orb]. change (endswith "/mnt/" "/") with true. cbv iota.
  unfold kept, slice_from. unfold startswith in Hstarts.
  apply starts_split in Hstarts.
  rewrite <- (of_chars_chars new_experiment_path) at 2.
  rewrite Hstarts at 2. rewrite of_chars_app. reflexivity.
Qed.

(** ** Which calls a computation can make *)

Section Footprint.

Variable allowed : event -> bool.

Lemma adds_ret {A : Type} (a : A) : adds allowed (ret a).
Proof. intros s. exists []. now rewrite app_nil_r. Qed.

Lemma adds_raise {A : Type} (e : exn) : adds allowed (@raise A e).
Proof. intros s. exists []. now rewrite app_nil_r. Qed.

Lemma adds_out_of_rounds {A : Type} : adds allowed (@out_of_rounds A).
Proof. intros s. exists []. now rewrite app_nil_r. Qed.

Lemma adds_lift {A : Type} (r : result A) : adds allowed (lift r).
Proof. intros s. exists []. destruct r; cbn; now rewrite app_nil_r. Qed.

Lemma adds_perform (c : call) :
  (forall r, allowed (Called c r) = true) -> adds allowed (perform c).
Proof.
  intros Hc s. unfold perform. destruct (respond (world s) c) as [r w].
  exists [Called c r]. split; [reflexivity|]. cbn. now rewrite Hc.
Qed.

Lemma adds_mark (e : event) : allowed e = true -> adds allowed (mark e).
Proof.
  intros He s. exists [e]. split; [reflexivity|]. cbn. now rewrite He.
Qed.

Lemma adds_bind {A B : Type} (m : M A) (k : A -> M B) :
  adds allowed m -> (forall a, adds allowed (k a)) -> adds allowed (bind m k).
Proof.
  intros Hm Hk s. unfold bind. destruct (Hm s) as (added & Htrace & Hadded).
  destruct (m s) as [[a|e|] s']; cbn [snd] in *;
    try (exists added; now split).
  destruct (Hk a s') as (added' & Htrace' & Hadded').
  exists (added ++ added')%list. split.
  - now rewrite Htrace', Htrace, app_assoc.
  - now rewrite forallb_app, Hadded, Hadded'.
Qed.

Lemma adds_catch {A : Type} (m : M A) (handler : exn -> M A) :
  adds allowed m -> (forall e, adds allowed (handler e)) ->
  adds allowed (catch m handler).
Proof.
  intros Hm Hh s. unfold catch. destruct (Hm s) as (added & Htrace & Hadded).
  destruct (m s) as [[a|e|] s']; cbn [snd] in *;
    try (exists added; now split).
  destruct (Hh e s') as (added' & Htrace' & Hadded').
  exists (added ++ added')%list. split.
  - now rewrite Htrace', Htrace, app_assoc.
  - now rewrite forallb_app, Hadded, Hadded'.
Qed.

Lemma adds_for_each {A S : Type} (l : list A) (body : S -> A -> M S) :
  (forall acc x, adds allowed (body acc x)) ->
  forall acc, adds allowed (for_each l body acc).
Proof.
  intros Hbody. induction l as [|x l IH]; intros acc; cbn [for_each].
  - apply adds_ret.
  - apply adds_bind; [apply Hbody|exact IH].
Qed.

End Footprint.

(** Goes through a computation and checks every call it can make. *)
Ltac footprint_step :=
  first
    [ apply adds_ret
    | apply adds_raise
    | apply adds_out_of_rounds
    | apply adds_lift
    | apply adds_perform; intro; reflexivity
    | apply adds_mark; reflexivity
    | apply adds_bind; [|intro]
    | apply adds_catch; [|intro]
    | apply adds_for_each; intros
    | match goal with
      | |- adds _ (match ?x with _ => _ end) => destruct x
      | |- adds _ (let _ := _ in _) => progress cbv zeta
      end
    | progress unfold command, question, ask_text, ask_payload, ask_names,
        create_folder_default_perms, relocate_one, setup_processing_step,
        create_dataset, update_file_metadata, update_dataset_metadata,
        upload_one, upload_files, process_result_file, process_result_dataset,
        process_results_json ].

Ltac footprint := repeat footprint_step.

(** X11. Result ingestion only talks to the repository: every call that
    [process_results_json] makes is a publishing call; it touches neither
    the file system nor the engine. *)
Theorem process_results_json_only_publishes :
  forall proc_results experiment_info workflow_step host request_key
         workstep_metadata clowder_credentials resources,
    adds is_publishing
      (process_results_json proc_results experiment_info workflow_step host
         request_key workstep_metadata clowder_credentials resources).
Proof. intros. footprint. Qed.

(** X12. Staging only touches the file system: apart from the mark of its own
    entry, every call that [relocate_files] makes creates a folder, sets
    its permissions, lists a folder, tests a path or copies a file. *)
Theorem relocate_files_only_file_system :
  forall env resources,
    adds (fun e => is_file_system e || negb (is_call e))
      (relocate_files env resources).
Proof. intros. unfold relocate_files. footprint. Qed.

(** ** Further properties of publishing *)

Lemma returns_bind_with {A B : Type} (P : A -> Prop) (Q : B -> Prop) (m : M A)
    (k : A -> M B) :
  returns P m -> (forall a, P a -> returns Q (k a)) -> returns Q (bind m k).
Proof.
  intros Hm Hk s b. unfold bind. specialize (Hm s).
  destruct (m s) as [[a|e|] s']; [|discriminate|discriminate].
  apply Hk. now apply Hm.
Qed.

Lemma returns_lift {A : Type} (Q : A -> Prop) (r : result A) :
  (forall a, r = Ok a -> Q a) -> returns Q (lift r).
Proof.
  intros H s a. unfold lift. destruct r as [a'|e]; [|discriminate].
  intros E. injection E as <-. now apply H.
Qed.

Lemma perform_step (c : call) (s : state) :
  perform c s
  = (Returned (fst (respond (world s) c)),
     {| world := snd (respond (world s) c);
        trace := (trace s ++ [Called c (fst (respond (world s) c))])%list |}).
Proof. unfold perform. now destruct (respond (world s) c). Qed.

Lemma bind_perform (c : call) {B : Type} (k : reply -> M B) (s : state) :
  bind (perform c) k s
  = k (fst (respond (world s) c))
      {| world := snd (respond (world s) c);
         trace := (trace s ++ [Called c (fst (respond (world s) c))])%list |}.
Proof. unfold bind. now rewrite perform_step. Qed.

Lemma bind_ret {A B : Type} (a : A) (k : A -> M B) (s : state) :
  bind (ret a) k s = k a s.
Proof. reflexivity. Qed.

Lemma bind_raise {A B : Type} (e : exn) (k : A -> M B) (s : state) :
  bind (raise e) k s = (Raised e, s).
Proof. reflexivity. Qed.

(** [create_dataset] posts one request and goes by its answer: the ['id']
    entry of the answer is returned when there is one, an answer without
    it is a [RuntimeError], and a failed request raises its error. *)
Lemma create_dataset_by_answer :
  forall host request_key dataset_name s,
    let url := host ++ "api/datasets/createempty?key=" ++ request_key in
    let body := VDict [("name", VStr dataset_name); ("description", VStr "")] in
    let answer := fst (respond (world s) (RequestsPost url body)) in
    trace (snd (create_dataset host request_key dataset_name s))
    = (trace s ++ [Called (RequestsPost url body) answer])%list /\
    fst (create_dataset host request_key dataset_name s)
    = match answer with
      | Payload return_json =>
          match PyVal.has "id" return_json with
          | Ok true =>
              match PyVal.getitem return_json "id" with
              | Ok id => Returned id
              | Raise e => Raised e
              end
          | Ok false =>
              Raised (RuntimeError
                "Return result from creating dataset has changed and is not supported")
          | Raise e => Raised e
          end
      | Failed e => Raised e
      | _ => Raised TypeError
      end.
Proof.
  intros host request_key dataset_name s url body answer.
  assert (E : create_dataset host request_key dataset_name s
              = (match answer with
                 | Payload return_json =>
                     match PyVal.has "id" return_json with
                     | Ok true =>
                         match PyVal.getitem return_json "id" with
                         | Ok id => Returned id
                         | Raise e => Raised e
                         end
                     | Ok false =>
                         Raised (RuntimeError
                           "Return result from creating dataset has changed and is not supported")
                     | Raise e => Raised e
                     end
                 | Failed e => Raised e
                 | _ => Raised TypeError
                 end,
                 {| world := snd (respond (world s) (RequestsPost url body));
                    trace := (trace s
                              ++ [Called (RequestsPost url body) answer])%list |})).
  { unfold create_dataset. fold url. fold body.
    unfold ask_payload. rewrite bind_assoc. unfold bind at 1.
    rewrite perform_step. fold answer. cbv beta iota.
    destruct answer as [| b | str | l | v | z | | e]; try reflexivity.
    unfold bind, ret, lift.
    destruct (PyVal.has "id" v) as [[|]|e]; try reflexivity.
    destruct (PyVal.getitem v "id"); reflexivity. }
  rewrite E. split; reflexivity.
Qed.

(** X13. A dataset is created only when the lookup finds none: when the lookup
    of the dataset name answers with an id, [process_result_dataset]
    records the lookup first and after it no request that creates a
    dataset, and what it returns names that id as not created. *)
Theorem process_result_dataset_reuses_dataset :
  forall container_results experiment_info workflow_step process_metadata host
         request_key workstep_metadata clowder_credentials resources s n found,
    dataset_name workflow_step experiment_info = Ok n ->
    fst (respond (world s) (GetDatasetidByName host request_key n))
    = Payload found ->
    found <> VNone ->
    (exists added,
       trace (snd (process_result_dataset container_results experiment_info
                     workflow_step process_metadata host request_key
                     workstep_metadata clowder_credentials resources s))
       = (trace s
          ++ Called (GetDatasetidByName host request_key n) (Payload found)
             :: added)%list /\
       forallb (fun e => negb (is_creation e)) added = true) /\
    (forall v,
       fst (process_result_dataset container_results experiment_info
              workflow_step process_metadata host request_key
              workstep_metadata clowder_credentials resources s) = Returned v ->
       exists uploaded_files,
         v = VList [VDict [("id", found); ("created", VBool false);
                           ("file_ids", VList uploaded_files)]]).
Proof.
  intros container_results experiment_info workflow_step process_metadata host
    request_key workstep_metadata clowder_credentials resources s n found
    Hname Hanswer Hfound.
  unfold process_result_dataset. rewrite Hname, bind_lift_ok. cbv beta.
  unfold ask_payload. rewrite bind_assoc, bind_perform, Hanswer. cbv beta iota.
  set (s1 := {| world := _; trace := _ |}).
  rewrite bind_ret.
  assert (Hcreated :
            forall k : value * bool -> M value,
              bind (match found with
                    | VNone =>
                        new_id <- create_dataset host request_key n ;;
                        ret (new_id, true)
                    | _ => ret (found, false)
                    end) k s1 = k (found, false) s1)
    by (intros k; destruct found; try reflexivity; now elim Hfound).
  rewrite !Hcreated. cbv beta. cbn [fst snd].
  split.
  - match goal with
    | |- context [trace (snd (?m s1))] =>
        assert (Hadds : adds (fun e => negb (is_creation e)) m)
          by footprint;
        destruct (Hadds s1) as (added & Htrace & Hadded)
    end.
    exists added. split; [|exact Hadded].
    rewrite Htrace. unfold s1. cbn [trace]. now rewrite <- app_assoc.
  - intros v.
    match goal with
    | |- fst (?m s1) = Returned v -> ?Q =>
        assert (Hreturns :
                  returns
                    (fun v => exists uploaded_files,
                       v = VList [VDict [("id", found); ("created", VBool false);
                                         ("file_ids", VList uploaded_files)]])
                    m)
    end.
    { repeat (apply returns_bind; intro).
      apply returns_ret. eexists. reflexivity. }
    apply Hreturns.
Qed.

(** X14. A failure while the metadata of a file are updated never leaves
    [update_file_metadata]: it returns normally whatever the repository
    answers; and when the removal of the old metadata fails, the new ones
    are not sent. *)
Theorem update_file_metadata_swallows_failures :
  forall file_id replace_metadata metadata host request_key s,
    fst (update_file_metadata file_id replace_metadata metadata host
           request_key s) = Returned tt /\
    (forall e,
        replace_metadata = true ->
        fst (respond (world s)
               (RequestsDelete
                  (host ++ "api/files/" ++ py_str file_id
                        ++ "/metadata.jsonld?key=" ++ request_key)))
        = Failed e ->
        trace (snd (update_file_metadata file_id replace_metadata metadata
                      host request_key s))
        = (trace s
           ++ [Called (RequestsDelete
                         (host ++ "api/files/" ++ py_str file_id
                               ++ "/metadata.jsonld?key=" ++ request_key))
                 (Failed e)])%list).
Proof.
  intros file_id replace_metadata metadata host request_key s.
  unfold update_file_metadata, catch, command. split.
  - destruct replace_metadata.
    + rewrite !bind_assoc, bind_perform.
      destruct (fst (respond (world s) _)); cbv beta iota;
        rewrite ?bind_ret, ?bind_raise, ?bind_perform; cbv beta iota;
        try reflexivity;
        match goal with
        | |- context [respond ?w ?c] => destruct (fst (respond w c))
        end; reflexivity.
    + rewrite bind_ret, bind_perform.
      destruct (fst (respond (world s) _)); reflexivity.
  - intros e -> Hfailed.
    rewrite !bind_assoc, bind_perform, Hfailed. reflexivity.
Qed.

(** X15. The metadata of a dataset are another matter: with nothing to send,
    [update_dataset_metadata] makes no call; and a failure is not caught:
    when the removal of the old metadata fails, the error leaves the
    function and nothing has been sent. *)
Theorem update_dataset_metadata_failures_are_fatal :
  forall dataset_id replace_metadata host request_key container_metadata
         process_metadata s,
    ((forall md, container_metadata = Some md -> truthy md = false) ->
     (forall md, process_metadata = Some md -> truthy md = false) ->
     update_dataset_metadata dataset_id replace_metadata host request_key
       container_metadata process_metadata s = (Returned tt, s)) /\
    (forall md e,
        container_metadata = Some md -> truthy md = true ->
        replace_metadata = true ->
        fst (respond (world s)
               (DatasetsRemoveMetadata host request_key dataset_id)) = Failed e ->
        update_dataset_metadata dataset_id replace_metadata host request_key
          container_metadata process_metadata s
        = (Raised e,
           {| world := snd (respond (world s)
                              (DatasetsRemoveMetadata host request_key dataset_id));
              trace := (trace s
                        ++ [Called (DatasetsRemoveMetadata host request_key
                                      dataset_id) (Failed e)])%list |})).
Proof.
  intros dataset_id replace_metadata host request_key container_metadata
    process_metadata s. unfold update_dataset_metadata. split.
  - intros Hcontainer Hprocess.
    destruct container_metadata as [md|];
      [rewrite (Hcontainer md eq_refl)|];
      (destruct process_metadata as [md'|];
       [rewrite (Hprocess md' eq_refl)|]); reflexivity.
  - intros md e -> Htruthy -> Hfailed. rewrite Htruthy.
    unfold command. rewrite !bind_assoc, bind_perform, Hfailed. reflexivity.
Qed.

(** X16. An upload that returns no id stops everything: [upload_files] raises
    its [RuntimeError] right after that call, and the files that come
    after in the list are not uploaded. *)
Theorem upload_files_stops_at_first_failure :
  forall dataset_id one_result rest workflow_step host request_key path s,
    PyVal.getitem one_result "path" = Ok path ->
    fst (respond (world s) (UploadToDataset host request_key dataset_id path))
    = Payload VNone ->
    upload_files dataset_id (VList (one_result :: rest)) workflow_step host
      request_key s
    = (Raised (RuntimeError "Unable to upload file to dataset ID"),
       {| world := snd (respond (world s)
                          (UploadToDataset host request_key dataset_id path));
          trace := (trace s
                    ++ [Called (UploadToDataset host request_key dataset_id path)
                          (Payload VNone)])%list |}).
Proof.
  intros dataset_id one_result rest workflow_step host request_key path s
    Hpath Hanswer.
  unfold upload_files. cbn [PyVal.iter]. rewrite bind_lift_ok.
  cbn [for_each]. unfold upload_one at 1.
  rewrite !bind_assoc. rewrite Hpath, bind_lift_ok.
  unfold ask_payload. rewrite !bind_assoc, bind_perform, Hanswer.
  reflexivity.
Qed.

(** X17. Where the files of a result go: to the dataset of the request when
    the request is a dataset, to the parent dataset when it is a file of
    one; a request of any other type makes [process_result_file] raise
    before any call. *)
Theorem process_result_file_target :
  forall file_results experiment_info workflow_step process_metadata host
         request_key workstep_metadata clowder_credentials resources s,
    (forall id,
        res_type resources = Some "dataset" -> res_id resources = Some id ->
        process_result_file file_results experiment_info workflow_step
          process_metadata host request_key workstep_metadata
          clowder_credentials resources s
        = upload_files (VStr id) file_results workflow_step host request_key s)
    /\
    (forall parent_id,
        res_type resources = Some "file" ->
        res_parent resources = Some (Some "dataset", Some parent_id) ->
        process_result_file file_results experiment_info workflow_step
          process_metadata host request_key workstep_metadata
          clowder_credentials resources s
        = upload_files (VStr parent_id) file_results workflow_step host
            request_key s)
    /\
    (res_type resources <> Some "dataset" ->
     res_type resources <> Some "file" ->
     process_result_file file_results experiment_info workflow_step
       process_metadata host request_key workstep_metadata clowder_credentials
       resources s
     = (Raised (RuntimeError "Unable to find dataset ID to place files into"), s)).
Proof.
  intros file_results experiment_info workflow_step process_metadata host
    request_key workstep_metadata clowder_credentials resources s.
  unfold process_result_file, target_dataset_id, parent_dataset_id.
  split; [|split].
  - intros id -> ->. reflexivity.
  - intros parent_id -> ->. now destruct (res_id resources).
  - intros Hdataset Hfile.
    assert (Hd : is_kind "dataset" (res_type resources) = false).
    { destruct (res_type resources) as [kind|]; [|reflexivity]. cbn [is_kind].
      destruct (String.eqb_spec kind "dataset"); [subst; now elim Hdataset|
                                                   reflexivity]. }
    assert (Hf : is_kind "file" (res_type resources) = false).
    { destruct (res_type resources) as [kind|]; [|reflexivity]. cbn [is_kind].
      destruct (String.eqb_spec kind "file"); [subst; now elim Hfile|
                                                reflexivity]. }
    rewrite Hd, Hf. now destruct (res_id resources).
Qed.

(** X18. Results without a ['code'] are not looked at any further, and accepted
    results with nothing to publish make no call: [process_results_json]
    raises the error of the lookup of ['code'] at once, and returns [True]
    with the record as it was when the code is accepted and there is no
    ['container'], ['file'] or ['files'] entry. *)
Theorem process_results_json_without_payload :
  forall proc_results experiment_info workflow_step host request_key
         workstep_metadata clowder_credentials resources s,
    (forall e,
        PyVal.getitem proc_results "code" = Raise e ->
        process_results_json proc_results experiment_info workflow_step host
          request_key workstep_metadata clowder_credentials resources s
        = (Raised e, s))
    /\
    (forall d code,
        proc_results = VDict d ->
        dict_get d "code" = Some code ->
        return_code_success workflow_step code = Ok true ->
        dict_get d "container" = None ->
        dict_get d "file" = None ->
        dict_get d "files" = None ->
        process_results_json proc_results experiment_info workflow_step host
          request_key workstep_metadata clowder_credentials resources s
        = (Returned true, s)).
Proof.
  intros proc_results experiment_info workflow_step host request_key
    workstep_metadata clowder_credentials resources s.
  unfold process_results_json. split.
  - intros e ->. reflexivity.
  - intros d code -> Hcode Hsuccess Hcontainer Hfile Hfiles.
    cbn [PyVal.getitem PyVal.has for_each]. unfold dict_has.
    rewrite Hcode, Hcontainer, Hfile, Hfiles. rewrite bind_lift_ok.
    rewrite Hsuccess. reflexivity.
Qed.

Lemma dict_get_set {V : Type} (d : list (string * V)) (key key' : string) (v : V) :
  dict_get (dict_set d key v) key'
  = if String.eqb key key' then Some v else dict_get d key'.
Proof.
  induction d as [|[k x] d IH]; cbn [dict_set dict_get].
  - reflexivity.
  - destruct (String.eqb_spec k key) as [->|Hk]; cbn [dict_get].
    + destruct (String.eqb_spec key key'); reflexivity.
    + rewrite IH. destruct (String.eqb_spec k key') as [->|Hk'];
        [|reflexivity].
      destruct (String.eqb_spec key key'); [now subst|reflexivity].
Qed.

Lemma uploads_app (a b : list event) :
  uploads (a ++ b) = (uploads a ++ uploads b)%list.
Proof. unfold uploads. apply flat_map_app. Qed.

Lemma uploads_none (added : list event) :
  forallb (fun e => negb (is_upload e)) added = true -> uploads added = [].
Proof.
  induction added as [|e added IH]; [reflexivity|].
  cbn [forallb]. intros H. apply andb_prop in H. destruct H as [He Hadded].
  change (e :: added) with ([e] ++ added)%list.
  rewrite uploads_app, (IH Hadded), app_nil_r.
  destruct e as [c r|env src]; [|reflexivity].
  destruct c; try reflexivity. discriminate He.
Qed.

(** One round of the upload loop that returns: the file result is a dict
    with a path, the round makes one upload, of that path, and appends the
    result with the id that upload answered. *)
Lemma upload_one_round dataset_id workflow_step host request_key uploaded_files
    one_result s uploaded s' :
  upload_one dataset_id workflow_step host request_key uploaded_files
    one_result s = (Returned uploaded, s') ->
  exists d path id added,
    one_result = VDict d /\ dict_get d "path" = Some path /\ id <> VNone /\
    uploaded = (uploaded_files ++ [VDict (dict_set d "id" id)])%list /\
    trace s' = (trace s ++ added)%list /\
    uploads added
    = [(path, Payload id)].
Proof.
  unfold upload_one.
  destruct one_result as [| b | z | str | l | d]; try discriminate.
  cbn [PyVal.getitem].
  destruct (dict_get d "path") as [path|] eqn:Hpath; [|discriminate].
  rewrite bind_lift_ok. unfold ask_payload. rewrite !bind_assoc, bind_perform.
  set (c := UploadToDataset host request_key dataset_id path).
  destruct (fst (respond (world s) c)) as [| t | str | l | id | z | | e] eqn:Hr;
    cbv beta iota; rewrite ?bind_raise; try discriminate.
  rewrite bind_ret.
  set (s1 := {| world := snd (respond (world s) c);
                trace := (trace s ++ [Called c (Payload id)])%list |}).
  intros Hrun.
  assert (Hnot_none : id <> VNone)
    by (intros ->; rewrite bind_raise in Hrun; discriminate Hrun).
  match type of Hrun with
  | bind ?m ?k s1 = _ =>
      assert (Hm : m = ret id)
        by (destruct id; try reflexivity; now elim Hnot_none);
      rewrite Hm, bind_ret in Hrun; cbv beta in Hrun
  end.
  match type of Hrun with
  | ?m s1 = _ =>
      assert (Hadds : adds (fun e => negb (is_upload e)) m) by footprint;
      assert (Hreturns :
                returns
                  (fun uploaded =>
                     uploaded
                     = (uploaded_files ++ [VDict (dict_set d "id" id)])%list)
                  m)
        by (repeat (apply returns_bind; intro); apply returns_ret;
            reflexivity)
  end.
  destruct (Hadds s1) as (added & Htrace & Hadded).
  rewrite Hrun in Htrace. cbn [snd] in Htrace.
  assert (Huploaded : uploaded
                      = (uploaded_files ++ [VDict (dict_set d "id" id)])%list)
    by (apply (Hreturns s1); now rewrite Hrun).
  subst uploaded. apply uploads_none in Hadded. rename Hadded into Hnone.
  exists d, path, id, (Called c (Payload id) :: added).
  split; [reflexivity|]. split; [exact Hpath|]. split; [exact Hnot_none|].
  split; [reflexivity|]. split.
  - rewrite Htrace. unfold s1. cbn [trace]. now rewrite <- app_assoc.
  - change (Called c (Payload id) :: added)
      with ([Called c (Payload id)] ++ added)%list.
    rewrite uploads_app, Hnone. reflexivity.
Qed.

(** X19. What [upload_files] returns: one entry for each file result, in the
    order of the results, and one upload for each, in the same order; each
    entry is the result it stands for with ['id'] set to the id that the
    upload of its path answered, which is not [None], and every other key
    as it was. *)
Theorem upload_files_returns_ids :
  forall dataset_id file_results workflow_step host request_key s uploaded s',
    upload_files dataset_id file_results workflow_step host request_key s
    = (Returned uploaded, s') ->
    exists results added,
      PyVal.iter file_results = Ok results /\
      trace s' = (trace s ++ added)%list /\
      length (uploads added) = length uploaded /\
      Forall2
        (fun one_result '(entry, (path, answer)) =>
           PyVal.getitem one_result "path" = Ok path /\
           exists id,
             answer = Payload id /\ id <> VNone /\
             PyVal.getitem entry "id" = Ok id /\
             forall key, key <> "id" ->
                         PyVal.getitem entry key = PyVal.getitem one_result key)
        results (combine uploaded (uploads added)).
Proof.
  intros dataset_id file_results workflow_step host request_key s uploaded s'.
  unfold upload_files.
  destruct (PyVal.iter file_results) as [results|e]; [|discriminate].
  rewrite bind_lift_ok. intros Hrun. exists results.
  assert (Hloop :
            forall results acc s uploaded s',
              for_each results
                (upload_one dataset_id workflow_step host request_key) acc s
              = (Returned uploaded, s') ->
              exists new added,
                uploaded = (acc ++ new)%list /\
                trace s' = (trace s ++ added)%list /\
                length (uploads added) = length new /\
                Forall2
                  (fun one_result '(entry, (path, answer)) =>
                     PyVal.getitem one_result "path" = Ok path /\
                     exists id,
                       answer = Payload id /\ id <> VNone /\
                       PyVal.getitem entry "id" = Ok id /\
                       forall key, key <> "id" ->
                                   PyVal.getitem entry key
                                   = PyVal.getitem one_result key)
                  results (combine new (uploads added))).
  { clear. induction results as [|one_result results IH];
      intros acc s uploaded s'; cbn [for_each].
    - intros H. injection H as <- <-. exists [], [].
      split; [now rewrite app_nil_r|]. split; [now rewrite app_nil_r|].
      split; [reflexivity|constructor].
    - unfold bind.
      destruct (upload_one dataset_id workflow_step host request_key acc
                  one_result s) as [[acc'|e|] s1] eqn:Hone; try discriminate.
      intros Hrest.
      destruct (upload_one_round _ _ _ _ _ _ _ _ _ Hone)
        as (d & path & id & added1 & -> & Hpath & Hid & -> & Htrace1 & Hup1).
      destruct (IH _ _ _ _ Hrest) as (new & added2 & -> & Htrace2 & Hlen & Hnew).
      exists (VDict (dict_set d "id" id) :: new), (added1 ++ added2)%list.
      split; [now rewrite <- app_assoc|].
      split; [now rewrite Htrace2, Htrace1, <- app_assoc|].
      rewrite uploads_app, Hup1. cbn [app length combine].
      split; [now rewrite Hlen|].
      constructor; [|exact Hnew].
      cbn [PyVal.getitem]. rewrite Hpath. split; [reflexivity|].
      exists id. split; [reflexivity|]. split; [exact Hid|]. split.
      + now rewrite dict_get_set, String.eqb_refl.
      + intros key Hkey. rewrite dict_get_set.
        destruct (String.eqb_spec "id" key); [now subst|reflexivity]. }
  destruct (Hloop _ _ _ _ _ Hrun) as (new & added & -> & Htrace & Hlen & Hnew).
  exists added. cbn [app]. now repeat split.
Qed.

(** ** Further properties of staging *)

(** What one round of the copy loop returns. *)
Lemma relocate_one_returns env dest_dir updated one_file :
  returns
    (fun updated' =>
       updated'
       = if endswith one_file (EXPERIMENT_METADATA_FILENAME env)
         then Some (join (BASE_DIR env)
                      [RELATIVE_WORKING_FOLDER env; basename one_file])
         else updated)
    (relocate_one env dest_dir updated one_file).
Proof.
  unfold relocate_one.
  destruct (endswith one_file (EXPERIMENT_METADATA_FILENAME env)).
  - apply returns_bind; intros _. now apply returns_ret.
  - apply returns_bind; intros [|]; apply returns_bind; intros _;
      now apply returns_ret.
Qed.

Lemma relocate_loop_returns env dest_dir (source_list : list string) :
  forall updated s updated' s',
    for_each source_list (relocate_one env dest_dir) updated s
    = (Returned updated', s') ->
    (updated' = updated /\
     forall f, In f source_list ->
               endswith f (EXPERIMENT_METADATA_FILENAME env) = false) \/
    exists f,
      In f source_list /\
      endswith f (EXPERIMENT_METADATA_FILENAME env) = true /\
      updated' = Some (join (BASE_DIR env)
                         [RELATIVE_WORKING_FOLDER env; basename f]).
Proof.
  induction source_list as [|one_file rest IH]; intros updated s updated' s';
    cbn [for_each].
  - intros H. injection H as <- <-. left. split; [reflexivity|]. intros f [].
  - unfold bind.
    destruct (relocate_one env dest_dir updated one_file s)
      as [[updated1|e|] s1] eqn:Hone; try discriminate.
    intros Hrest.
    assert (Hupdated1 := relocate_one_returns env dest_dir updated one_file s
                           updated1).
    rewrite Hone in Hupdated1. specialize (Hupdated1 eq_refl).
    destruct (IH _ _ _ _ Hrest) as [[-> Hnone]|(f & Hin & Hf & ->)].
    + destruct (endswith one_file (EXPERIMENT_METADATA_FILENAME env)) eqn:E.
      * right. exists one_file. split; [now left|]. now split.
      * left. split; [exact Hupdated1|]. intros f [ <- | Hin ]; auto.
    + right. exists f. split; [now right|]. now split.
Qed.

(** X20. Staged from the resource set it was built from, the environment
    always finds its experiment file: when [relocate_files] returns, it
    returns the data folder under [BASE_DIR] and the path of the
    experiment file in the working folder of the step, the copy of a path
    of the resource set that ends with the experiment file name. *)
Theorem relocate_files_finds_experiment_file :
  forall out_folder image_subfolder mount_volume_name workflow_step resources
         env s dest_dir updated s',
    create_env_json out_folder image_subfolder mount_volume_name workflow_step
      resources = Ok env ->
    relocate_files env (SrcResource resources) s
    = (Returned (dest_dir, updated), s') ->
    dest_dir = join (BASE_DIR env) [lstrip (DATA_FOLDER_NAME env) "/"] /\
    exists f,
      In f (local_paths resources) /\
      endswith f (EXPERIMENT_METADATA_FILENAME env) = true /\
      updated = Some (join (BASE_DIR env)
                        [RELATIVE_WORKING_FOLDER env; basename f]).
Proof.
  intros out_folder image_subfolder mount_volume_name workflow_step resources
    env s dest_dir updated s' Henv.
  destruct (create_env_json_ok _ _ _ _ _ _ Henv) as (found & Hfind & _ & Hname & _).
  apply find_some in Hfind. destruct Hfind as [Hfound _].
  unfold relocate_files. cbv zeta. unfold bind at 1. unfold mark. cbv beta iota.
  set (s0 := {| world := world s; trace := _ |}).
  unfold bind at 1.
  destruct (create_folder_default_perms _ s0) as [[[]|e|] s1]; try discriminate.
  rewrite bind_ret. unfold bind at 1.
  destruct (for_each (local_paths resources) _ None s1)
    as [[updated1|e|] s2] eqn:Hloop; try discriminate.
  unfold bind at 1.
  destruct (command _ s2) as [[[]|e|] s3]; try discriminate.
  intros H. injection H as <- <- <-. split; [reflexivity|].
  destruct (relocate_loop_returns _ _ _ _ _ _ _ Hloop)
    as [[_ Hnone]|Hsome]; [|exact Hsome].
  specialize (Hnone found Hfound). rewrite Hname in Hnone.
  unfold basename, slice_from in Hnone.
  now rewrite endswith_skipn in Hnone.
Qed.

(** ** Further properties of the request *)

(** X21. Without a named volume or without a working space the request stops
    before anything is set up: [process_message] does not return, and the
    record holds nothing but the calls to the framework that open the
    request: no temporary folder, no staging, no engine. *)
Theorem process_message_needs_settings :
  forall named_volume working_space workflow host secret_key resource w,
    named_volume = None \/ named_volume = Some "" \/
    working_space = None \/ working_space = Some "" ->
    forallb is_framework
      (trace (snd (run (process_message named_volume working_space workflow
                          host secret_key resource) w))) = true /\
    forall u,
      fst (run (process_message named_volume working_space workflow host
                  secret_key resource) w) <> Returned u.
Proof.
  intros named_volume working_space workflow host secret_key resource w Hunset.
  unfold run.
  assert (Hadds : adds is_framework
                    (process_message named_volume working_space workflow host
                       secret_key resource)
                  /\ returns (fun _ => False)
                       (process_message named_volume working_space workflow
                          host secret_key resource)).
  { unfold process_message. split.
    - apply adds_bind; [footprint|intro].
      apply adds_bind; [footprint|intro].
      destruct named_volume as [[|c volume]|]; try apply adds_raise.
      destruct working_space as [[|c' space]|]; try apply adds_raise.
      destruct Hunset as [H|[H|[H|H]]]; discriminate H.
    - apply returns_bind; intro. apply returns_bind; intro.
      destruct named_volume as [[|c volume]|]; try apply returns_raise.
      destruct working_space as [[|c' space]|]; try apply returns_raise.
      destruct Hunset as [H|[H|[H|H]]]; discriminate H. }
  destruct Hadds as [Hadds Hreturns]. split.
  - destruct (Hadds {| world := w; trace := [] |}) as (added & -> & Hadded).
    exact Hadded.
  - intros u Hu. exact (Hreturns _ _ Hu).
Qed.

(** ** Further properties of the reconciliation *)






(** ** The end of a request *)

Lemma ends_request_raise {A : Type} (e : exn) : ends_request (@raise A e).
Proof. intros s. exists []. split; [reflexivity|]. left. now rewrite app_nil_r. Qed.

Lemma ends_request_bind {A B : Type} (m : M A) (k : A -> M B) :
  adds (fun e => negb (is_end_message e)) m ->
  (forall a, ends_request (k a)) -> ends_request (bind m k).
Proof.
  intros Hm Hk s. unfold bind. destruct (Hm s) as (added & Htrace & Hadded).
  destruct (m s) as [[a|e|] s1]; cbn [fst snd] in *.
  - destruct (Hk a s1) as (body & Hbody & Hend).
    exists (added ++ body)%list. split; [now rewrite forallb_app, Hadded, Hbody|].
    rewrite Htrace in Hend.
    destruct (fst (k a s1)).
    + destruct Hend as [r Hend]. exists r.
      now rewrite Hend, <- !app_assoc.
    + destruct Hend as [Hend|[Hend|(r & Hr & He & Hend)]].
      * left. now rewrite Hend, <- !app_assoc.
      * right. left. now rewrite Hend, <- !app_assoc.
      * right. right. exists r. split; [exact Hr|]. split; [exact He|].
        now rewrite Hend, <- !app_assoc.
    + now rewrite Hend, <- !app_assoc.
  - exists added. split; [exact Hadded|]. now left.
  - exists added. split; [exact Hadded|]. exact Htrace.
Qed.

Lemma ends_request_command : ends_request (command EndMessage).
Proof.
  intros s. exists []. split; [reflexivity|].
  unfold command, bind, perform. cbn [app].
  destruct (respond (world s) EndMessage) as [r w] eqn:Hr.
  destruct r; cbn [fst snd trace ret raise];
    try (right; right; eexists; split; [|split; [reflexivity|reflexivity]];
         discriminate).
  - eexists. reflexivity.
  - right. left. reflexivity.
Qed.

Lemma read_lines_no_end fuel :
  adds (fun e => negb (is_end_message e)) (read_lines fuel).
Proof.
  induction fuel as [|fuel IH]; cbn [read_lines]; footprint. exact IH.
Qed.

Lemma wait_loop_no_end fuel :
  forall start_time returncode,
    adds (fun e => negb (is_end_message e))
      (wait_loop fuel start_time returncode).
Proof.
  induction fuel as [|fuel IH]; intros start_time returncode;
    cbn [wait_loop]; unfold now; footprint;
    try apply read_lines_no_end; try apply IH.
Qed.

Lemma run_step_no_end working_folder working_subfolder named_volume host
    secret_key resource st current_step :
  adds (fun e => negb (is_end_message e))
    (run_step working_folder working_subfolder named_volume host secret_key
       resource st current_step).
Proof.
  unfold run_step, relocate_files, wait_for_process, now. footprint;
    try apply wait_loop_no_end.
Qed.

(** X25. The end of the request is reported to the framework at most once, as
    the last call of [process_message], and only when every step of the
    workflow has been gone through: whenever [process_message] returns the
    end has been reported, and when it raises, the end has not been
    reported, or it is the report itself that failed. *)
Theorem process_message_ends_request :
  forall named_volume working_space workflow host secret_key resource,
    ends_request
      (process_message named_volume working_space workflow host secret_key
         resource).
Proof.
  intros. unfold process_message.
  apply ends_request_bind; [footprint|intros _].
  apply ends_request_bind; [footprint|intros _].
  destruct named_volume as [[|c volume]|]; try apply ends_request_raise.
  destruct working_space as [[|c' space]|]; try apply ends_request_raise.
  apply ends_request_bind; [footprint|intros working_folder].
  cbv zeta.
  apply ends_request_bind; [footprint|intros _].
  apply ends_request_bind; [|intros _; apply ends_request_command].
  apply adds_for_each. intros. apply run_step_no_end.
Qed.

End Orchestrator.

Arguments world {World} s.
Arguments trace {World} s.
Arguments Build_state {World} world trace.

(** ** The wait for the engine on scripted clocks *)

(** C6. The code misses a case: with a process that never exits, when the
    check at the end of a round reads exactly the total wait and the test
    of the loop, a microsecond later, reads more, the wait ends without
    the timeout error, and the request goes on to its end as if the
    process had completed. *)
Lemma wait_for_process_silent_timeout :
  wait_for_process nat Sample.stuck_respond 3 ["makeflow"]
    {| world := 0%nat; trace := [] |}
  = (Returned TimeUp,
     {| world := 4%nat;
        trace := [ Called (Popen ["makeflow"]) Done;
                   Called Now (Clock 0); Called Now (Clock 0);
                   Called Readline (Text "");
                   Called Poll (Payload VNone);
                   Called (Sleep 5) Done;
                   Called Now (Clock 86400000000);
                   Called Now (Clock 86400000001) ] |})
  /\
  fst (run nat
         (process_message lower Sample.with_key Sample.repr nat Sample.stuck_respond
            "/home/extractor" 3 (Some "testing") (Some "/mnt")
            [odm_workflow_step] "http://clowder/" "KEY" Sample.resource) 0%nat)
  = Returned tt.
Proof. split; vm_compute; reflexivity. Qed.

Lemma wait_loop_timeout_within_one_round_witness :
  exists before t between t',
    trace (snd (wait_loop nat (Sample.scripted Sample.late_clock VNone) 3 2 0
                  VNone {| world := 1%nat; trace := [] |}))
    = ([] ++ before ++ Called Now (Clock t) :: between
       ++ [Called Now (Clock t')])%list /\
    existsb is_reading between = false /\
    (t - 0 <= PROC_WAIT_TOTAL_SEC * 1000000)%Z /\
    (PROC_WAIT_TOTAL_SEC * 1000000 < t' - 0)%Z.
Proof.
  apply (wait_loop_timeout_within_one_round nat
           (Sample.scripted Sample.late_clock VNone) 3
           ltac:(intros w; eexists _, _; reflexivity)
           ltac:(intros w; eexists _, _; reflexivity)
           ltac:(intros w seconds; eexists; reflexivity)
           2%nat 0%Z VNone {| world := 1%nat; trace := [] |}
           (RuntimeError "Processing is running too long")).
  reflexivity.
Defined.

Lemma wait_loop_finished_with_code_witness :
  exists added,
    trace (snd (wait_loop nat (Sample.respond 0) 3 2 0 VNone
                  {| world := 0%nat; trace := [] |}))
    = ([] ++ added)%list /\
    (VNone <> VNone \/
     exists v, v <> VNone /\ In (Called Poll (Payload v)) added) /\
    exists before t,
      added = (before ++ [Called Now (Clock t)])%list /\
      (t - 0 <= PROC_WAIT_TOTAL_SEC * 1000000)%Z.
Proof.
  apply (wait_loop_finished_with_code nat (Sample.respond 0) 3
           ltac:(intros w; eexists _, _; reflexivity)
           ltac:(intros w; eexists _, _; reflexivity)
           ltac:(intros w seconds; eexists; reflexivity)
           2%nat 0%Z VNone {| world := 0%nat; trace := [] |}).
  reflexivity.
Defined.

Lemma wait_loop_time_up_is_silent_witness :
  exists before t,
    trace (snd (wait_loop nat Sample.stuck_respond 3 2 0 VNone
                  {| world := 1%nat; trace := [] |}))
    = ([] ++ before ++ [Called Now (Clock t)])%list /\
    (PROC_WAIT_TOTAL_SEC * 1000000 < t - 0)%Z.
Proof.
  apply (wait_loop_time_up_is_silent nat Sample.stuck_respond 3
           ltac:(intros w; eexists _, _; reflexivity)
           ltac:(intros w; eexists _, _; reflexivity)
           ltac:(intros w seconds; eexists; reflexivity)
           2%nat 0%Z VNone {| world := 1%nat; trace := [] |}).
  reflexivity.
Defined.

(** ** The properties on the sample request *)


Lemma secure_string_forms_witness :
  (secure_string Sample.with_key (VStr "p") = "secured:" ++ "gAAAAp" /\
   startswith (secure_string Sample.with_key (VStr "p")) "secured:" = true /\
   startswith (secure_string Sample.with_key (VStr "p")) "<removed>" = false /\
   secure_string Sample.with_key (VStr "p") <> "<removed>" /\
   VStr (secure_string Sample.with_key (VStr "p")) <> VStr "p")
  /\ secure_string Sample.no_key (VStr "p") = "<removed>"
  /\ secure_string Sample.with_key (VInt 12345) = "<removed>".
Proof.
  split; [|split].
  - destruct (proj1 (secure_string_forms Sample.with_key (VStr "p")) "gAAAAp"
                eq_refl) as (H1 & H2 & H3 & H4 & H5).
    split; [exact H1|]. split; [exact H2|]. split; [exact H3|].
    split; [exact H4|]. apply H5.
    intros p Hp. injection Hp as <-. cbn. lia.
  - apply (proj2 (secure_string_forms Sample.no_key (VStr "p"))). reflexivity.
  - apply (proj2 (secure_string_forms Sample.with_key (VInt 12345))).
    reflexivity.
Defined.



(** C3, the claim as stated, fails on its own scenario: the descriptor has
    no [name] entry, the name of the step is not among the fields, and the
    formatting raises [KeyError('name')]. *)
Lemma dataset_name_scenario_fails :
  exists r,
    reconcile lower Sample.no_key Sample.repr odm_workflow_step
      (VDict Sample.experiment_unnamed) = Ok r /\
    dataset_name odm_workflow_step (experiment_info r) = Raise (KeyError "name") /\
    dataset_name odm_workflow_step (experiment_info r)
    <> Ok "2020-01-01_trial1_OpenDroneMap workflow".
Proof.
  eexists. split; [reflexivity|]. split; [reflexivity|discriminate].
Qed.

Lemma dataset_name_from_experiment_fields_witness :
  dataset_name odm_workflow_step
    [ ("date", "2020-01-01"); ("experiment", "trial1");
      ("name", "OpenDroneMap workflow") ]
  = Ok "2020-01-01_trial1_OpenDroneMap workflow"
  /\
  process_result_dataset Sample.repr nat (Sample.respond 0)
    (VDict []) [("date", "2020-01-01"); ("experiment", "trial1")]
    odm_workflow_step [] "http://clowder/" "KEY"
    {| ws_step := odm_workflow_step; ws_password := None |} [] Sample.resource
    {| world := 0%nat; trace := [] |}
  = (Raised (KeyError "name"), {| world := 0%nat; trace := [] |})
  /\
  exists r,
    nth_error
      (trace (snd (process_result_dataset Sample.repr nat (Sample.respond 0)
                     (VDict [])
                     [ ("date", "2020-01-01"); ("experiment", "trial1");
                       ("name", "OpenDroneMap workflow") ]
                     odm_workflow_step [] "http://clowder/" "KEY"
                     {| ws_step := odm_workflow_step; ws_password := None |} []
                     Sample.resource {| world := 0%nat; trace := [] |})))
      0
    = Some (Called (GetDatasetidByName "http://clowder/" "KEY"
                      "2020-01-01_trial1_OpenDroneMap workflow") r).
Proof.
  split; [|split].
  - apply (proj2 (proj2 (proj2
      (dataset_name_from_experiment_fields Sample.repr nat (Sample.respond 0)
         (VDict [])
         [ ("date", "2020-01-01"); ("experiment", "trial1");
           ("name", "OpenDroneMap workflow") ]
         odm_workflow_step [] "http://clowder/" "KEY"
         {| ws_step := odm_workflow_step; ws_password := None |} []
         Sample.resource {| world := 0%nat; trace := [] |})))
      eq_refl "2020-01-01" "trial1" eq_refl eq_refl).
  - apply (proj1 (proj2
      (dataset_name_from_experiment_fields Sample.repr nat (Sample.respond 0)
         (VDict []) [("date", "2020-01-01"); ("experiment", "trial1")]
         odm_workflow_step [] "http://clowder/" "KEY"
         {| ws_step := odm_workflow_step; ws_password := None |} []
         Sample.resource {| world := 0%nat; trace := [] |}))
      (KeyError "name")).
    + reflexivity.
    + discriminate.
  - apply (proj1 (proj2 (proj2
      (dataset_name_from_experiment_fields Sample.repr nat (Sample.respond 0)
         (VDict [])
         [ ("date", "2020-01-01"); ("experiment", "trial1");
           ("name", "OpenDroneMap workflow") ]
         odm_workflow_step [] "http://clowder/" "KEY"
         {| ws_step := odm_workflow_step; ws_password := None |} []
         Sample.resource {| world := 0%nat; trace := [] |})))
      "2020-01-01_trial1_OpenDroneMap workflow").
    reflexivity.
Defined.

Lemma process_results_json_rejected_witness :
  process_results_json Sample.repr nat (Sample.respond 1) (Sample.results 1)
    [("date", "2020-01-01")] odm_workflow_step "http://clowder/" "KEY"
    {| ws_step := odm_workflow_step; ws_password := None |} [] Sample.resource
    {| world := 0%nat; trace := [] |}
  = (Returned false, {| world := 0%nat; trace := [] |}).
Proof.
  apply (process_results_json_rejected Sample.repr nat (Sample.respond 1)
           (Sample.results 1) [("date", "2020-01-01")] odm_workflow_step
           "http://clowder/" "KEY"
           {| ws_step := odm_workflow_step; ws_password := None |} []
           Sample.resource (VInt 1) {| world := 0%nat; trace := [] |});
    reflexivity.
Defined.

Lemma cache_hand_off_witness :
  option_map snd
    (nth_error
       (stagings (trace (snd (run nat
          (process_message lower Sample.with_key Sample.repr nat (Sample.respond 0)
             "/home/extractor" 3 (Some "testing") (Some "/mnt") WORKFLOW
             "http://clowder/" "KEY" Sample.resource) 0%nat)))) 1)
  = Some (SrcFolder "/mnt/tmpjhvq63gh/odm_workflow/cache/").
Proof.
  set (tr := trace (snd (run nat
          (process_message lower Sample.with_key Sample.repr nat (Sample.respond 0)
             "/home/extractor" 3 (Some "testing") (Some "/mnt") WORKFLOW
             "http://clowder/" "KEY" Sample.resource) 0%nat))).
  assert (H0 : exists env,
             nth_error (stagings tr) 0 = Some (env, SrcResource Sample.resource) /\
             CACHE_DIR env = "/mnt/tmpjhvq63gh/odm_workflow/cache/")
    by (vm_compute; eexists; split; reflexivity).
  assert (H1 : exists env' src', nth_error (stagings tr) 1 = Some (env', src'))
    by (vm_compute; eexists _, _; reflexivity).
  destruct H0 as (env & H0 & Hcache). destruct H1 as (env' & src' & H1).
  rewrite H1. cbn [option_map snd]. rewrite <- Hcache. f_equal.
  exact (proj1 (proj2
           (cache_hand_off lower Sample.with_key Sample.repr nat (Sample.respond 0)
              "/home/extractor" 3 (Some "testing") (Some "/mnt") WORKFLOW
              "http://clowder/" "KEY" Sample.resource 0%nat 0%nat env
              (SrcResource Sample.resource) H0))
           env' src' H1).
Defined.

(** ** Further properties on the sample request *)

Lemma prepare_metadata_idempotent_witness :
  exists prepared,
    prepare_metadata "http://clowder/" "2.0" "odm_workflow.jx"
      (VDict [("k", VInt 1)]) (VStr "f1") false = Ok prepared /\
    PyVal.has "@context" prepared = Ok true /\
    prepare_metadata "http://other" "3.0" "soil_mask_workflow.jx" prepared
      (VStr "ds1") true = Ok prepared.
Proof.
  eexists. split; [reflexivity|].
  destruct (prepare_metadata_idempotent "http://clowder/" "2.0" "odm_workflow.jx"
              (VDict [("k", VInt 1)]) (VStr "f1") false _ eq_refl) as [H1 H2].
  split; [exact H1|apply H2].
Defined.

Lemma find_dict_key_found_key_witness :
  lower "CLOWDER" = lower "Clowder".
Proof.
  apply (find_dict_key_found_key lower
           [("experiment", VDict [("clowder", VStr "nested")]);
            ("CLOWDER", VInt 1)]
           "Clowder" true "CLOWDER" (VInt 1) lower_idempotent).
  reflexivity.
Defined.

Lemma find_dict_key_nested_exact_witness :
  "clowder" = "clowder" /\
  exists d,
    In d (dict_checks
            [("experiment",
              VDict [("Clowder", VInt 1); ("clowder", VInt 2)])]) /\
    find_dict_key lower d "clowder" false = Some ("clowder", VInt 2).
Proof.
  apply (find_dict_key_nested_exact lower
           [("experiment", VDict [("Clowder", VInt 1); ("clowder", VInt 2)])]
           "Clowder" true "clowder" (VInt 2)); reflexivity.
Defined.

Lemma create_env_json_layout_witness :
  endswith (RELATIVE_WORKING_FOLDER Sample.env) "/" = true /\
  startswith (RELATIVE_WORKING_FOLDER Sample.env) "/" = false /\
  CACHE_DIR Sample.env = "/mnt/" ++ RELATIVE_WORKING_FOLDER Sample.env ++ "cache/" /\
  DATA_FOLDER_NAME Sample.env = RELATIVE_WORKING_FOLDER Sample.env ++ "images".
Proof.
  destruct (create_env_json_layout "/mnt/tmpjhvq63gh" "/tmpjhvq63gh" "testing"
              odm_workflow_step Sample.resource Sample.env eq_refl)
    as (Hslash & Hunder & _).
  split; [exact Hslash|]. apply Hunder. discriminate.
Defined.

Lemma experiment_file_name_is_bare_witness :
  existsb (Ascii.eqb "/") (chars (EXPERIMENT_METADATA_FILENAME Sample.env)) = false /\
  exists f,
    In f (local_paths Sample.resource) /\
    endswith (lower f) ".yaml" = true /\
    endswith f (EXPERIMENT_METADATA_FILENAME Sample.env) = true.
Proof.
  apply (experiment_file_name_is_bare "/mnt/tmpjhvq63gh" "/tmpjhvq63gh" "testing"
           odm_workflow_step Sample.resource Sample.env).
  reflexivity.
Defined.

Lemma experiment_path_read_back_witness :
  join (BASE_DIR Sample.env)
    [EXPERIMENT_METADATA_FILENAME
       (set_experiment_metadata_filename Sample.env
          (slice_from "/mnt/tmpjhvq63gh/odm_workflow/exp.yaml"
             (Z.of_nat (String.length (BASE_DIR Sample.env)))))]
  = "/mnt/tmpjhvq63gh/odm_workflow/exp.yaml".
Proof.
  apply (experiment_path_read_back Sample.env
           "/mnt/tmpjhvq63gh/odm_workflow/exp.yaml"); reflexivity.
Defined.

Lemma process_result_dataset_reuses_dataset_witness :
  (exists added,
     trace (snd (process_result_dataset Sample.repr nat Sample.respond_existing
                   (VDict [("file", VList [Sample.file_result])])
                   [ ("date", "2020-01-01"); ("experiment", "trial1");
                     ("name", "OpenDroneMap workflow") ]
                   odm_workflow_step [] "http://clowder/" "KEY"
                   {| ws_step := odm_workflow_step; ws_password := None |} []
                   Sample.resource {| world := 0%nat; trace := [] |}))
     = ([] ++ Called (GetDatasetidByName "http://clowder/" "KEY"
                        "2020-01-01_trial1_OpenDroneMap workflow")
                (Payload (VStr "ds0")) :: added)%list /\
     forallb (fun e => negb (is_creation e)) added = true) /\
  exists uploaded_files,
    fst (process_result_dataset Sample.repr nat Sample.respond_existing
           (VDict [("file", VList [Sample.file_result])])
           [ ("date", "2020-01-01"); ("experiment", "trial1");
             ("name", "OpenDroneMap workflow") ]
           odm_workflow_step [] "http://clowder/" "KEY"
           {| ws_step := odm_workflow_step; ws_password := None |} []
           Sample.resource {| world := 0%nat; trace := [] |})
    = Returned (VList [VDict [("id", VStr "ds0"); ("created", VBool false);
                              ("file_ids", VList uploaded_files)]]).
Proof.
  destruct (process_result_dataset_reuses_dataset Sample.repr nat
              Sample.respond_existing
              (VDict [("file", VList [Sample.file_result])])
              [ ("date", "2020-01-01"); ("experiment", "trial1");
                ("name", "OpenDroneMap workflow") ]
              odm_workflow_step [] "http://clowder/" "KEY"
              {| ws_step := odm_workflow_step; ws_password := None |} []
              Sample.resource {| world := 0%nat; trace := [] |}
              "2020-01-01_trial1_OpenDroneMap workflow" (VStr "ds0")
              eq_refl eq_refl ltac:(discriminate)) as [Hrecord Hreturned].
  split; [exact Hrecord|].
  destruct (Hreturned _ eq_refl) as [uploaded_files Hv].
  exists uploaded_files. rewrite <- Hv. reflexivity.
Defined.

Lemma update_file_metadata_swallows_failures_witness :
  fst (update_file_metadata Sample.repr nat Sample.respond_failing (VStr "f1")
         true (VDict [("k", VInt 1)]) "http://clowder/" "KEY"
         {| world := 0%nat; trace := [] |}) = Returned tt /\
  trace (snd (update_file_metadata Sample.repr nat Sample.respond_failing
                (VStr "f1") true (VDict [("k", VInt 1)]) "http://clowder/" "KEY"
                {| world := 0%nat; trace := [] |}))
  = [Called (RequestsDelete "http://clowder/api/files/f1/metadata.jsonld?key=KEY")
       (Failed HTTPError)].
Proof.
  destruct (update_file_metadata_swallows_failures Sample.repr nat
              Sample.respond_failing (VStr "f1") true (VDict [("k", VInt 1)])
              "http://clowder/" "KEY" {| world := 0%nat; trace := [] |})
    as [Hreturns Hrecord].
  split; [exact Hreturns|].
  apply (Hrecord HTTPError); reflexivity.
Defined.

Lemma update_dataset_metadata_failures_are_fatal_witness :
  update_dataset_metadata nat Sample.respond_failing (VStr "ds0") true
    "http://clowder/" "KEY" None (Some (VDict [])) {| world := 0%nat; trace := [] |}
  = (Returned tt, {| world := 0%nat; trace := [] |})
  /\
  update_dataset_metadata nat Sample.respond_failing (VStr "ds0") true
    "http://clowder/" "KEY" (Some (VDict [("k", VInt 1)])) None
    {| world := 0%nat; trace := [] |}
  = (Raised HTTPError,
     {| world := 1%nat;
        trace := [Called (DatasetsRemoveMetadata "http://clowder/" "KEY"
                            (VStr "ds0")) (Failed HTTPError)] |}).
Proof.
  split.
  - apply (proj1 (update_dataset_metadata_failures_are_fatal nat
                    Sample.respond_failing (VStr "ds0") true "http://clowder/"
                    "KEY" None (Some (VDict []))
                    {| world := 0%nat; trace := [] |})).
    + discriminate.
    + intros md Hmd. injection Hmd as <-. reflexivity.
  - apply (proj2 (update_dataset_metadata_failures_are_fatal nat
                    Sample.respond_failing (VStr "ds0") true "http://clowder/"
                    "KEY" (Some (VDict [("k", VInt 1)])) None
                    {| world := 0%nat; trace := [] |})
             (VDict [("k", VInt 1)]) HTTPError);
      reflexivity.
Defined.

Lemma upload_files_stops_at_first_failure_witness :
  upload_files Sample.repr nat Sample.respond_failing (VStr "ds0")
    (VList [Sample.file_result; Sample.plain_result]) odm_workflow_step
    "http://clowder/" "KEY" {| world := 0%nat; trace := [] |}
  = (Raised (RuntimeError "Unable to upload file to dataset ID"),
     {| world := 1%nat;
        trace := [Called (UploadToDataset "http://clowder/" "KEY" (VStr "ds0")
                            (VStr "/mnt/a.tif")) (Payload VNone)] |}).
Proof.
  apply (upload_files_stops_at_first_failure Sample.repr nat
           Sample.respond_failing (VStr "ds0") Sample.file_result
           [Sample.plain_result] odm_workflow_step "http://clowder/" "KEY"
           (VStr "/mnt/a.tif") {| world := 0%nat; trace := [] |});
    reflexivity.
Defined.

Lemma upload_files_returns_ids_witness :
  exists results added,
    PyVal.iter (VList [Sample.file_result; Sample.plain_result]) = Ok results /\
    trace (snd (upload_files Sample.repr nat Sample.respond_ids (VStr "ds0")
                  (VList [Sample.file_result; Sample.plain_result])
                  odm_workflow_step "http://clowder/" "KEY"
                  {| world := 0%nat; trace := [] |}))
    = ([] ++ added)%list /\
    length (uploads added) = 2%nat /\
    Forall2
      (fun one_result '(entry, (path, answer)) =>
         PyVal.getitem one_result "path" = Ok path /\
         exists id,
           answer = Payload id /\ id <> VNone /\
           PyVal.getitem entry "id" = Ok id /\
           forall key, key <> "id" ->
                       PyVal.getitem entry key = PyVal.getitem one_result key)
      results
      (combine
         [ VDict [("path", VStr "/mnt/a.tif"); ("metadata", VDict [("k", VInt 1)]);
                  ("id", VStr "id of /mnt/a.tif")];
           VDict [("path", VStr "/mnt/b.tif"); ("id", VStr "id of /mnt/b.tif")] ]
         (uploads added)).
Proof.
  apply (upload_files_returns_ids Sample.repr nat Sample.respond_ids (VStr "ds0")
           (VList [Sample.file_result; Sample.plain_result]) odm_workflow_step
           "http://clowder/" "KEY" {| world := 0%nat; trace := [] |}
           [ VDict [("path", VStr "/mnt/a.tif");
                    ("metadata", VDict [("k", VInt 1)]);
                    ("id", VStr "id of /mnt/a.tif")];
             VDict [("path", VStr "/mnt/b.tif");
                    ("id", VStr "id of /mnt/b.tif")] ]
           (snd (upload_files Sample.repr nat Sample.respond_ids (VStr "ds0")
                   (VList [Sample.file_result; Sample.plain_result])
                   odm_workflow_step "http://clowder/" "KEY"
                   {| world := 0%nat; trace := [] |}))).
  reflexivity.
Defined.

Lemma process_result_file_target_witness :
  process_result_file Sample.repr nat (Sample.respond 0)
    (VList [Sample.plain_result]) [] odm_workflow_step [] "http://clowder/" "KEY"
    {| ws_step := odm_workflow_step; ws_password := None |} [] Sample.resource
    {| world := 0%nat; trace := [] |}
  = upload_files Sample.repr nat (Sample.respond 0) (VStr "d0")
      (VList [Sample.plain_result]) odm_workflow_step "http://clowder/" "KEY"
      {| world := 0%nat; trace := [] |}
  /\
  process_result_file Sample.repr nat (Sample.respond 0)
    (VList [Sample.plain_result]) [] odm_workflow_step [] "http://clowder/" "KEY"
    {| ws_step := odm_workflow_step; ws_password := None |} []
    {| local_paths := ["/in/exp.yaml"]; res_type := Some "file";
       res_id := Some "f0"; res_parent := Some (Some "dataset", Some "d0") |}
    {| world := 0%nat; trace := [] |}
  = upload_files Sample.repr nat (Sample.respond 0) (VStr "d0")
      (VList [Sample.plain_result]) odm_workflow_step "http://clowder/" "KEY"
      {| world := 0%nat; trace := [] |}
  /\
  process_result_file Sample.repr nat (Sample.respond 0)
    (VList [Sample.plain_result]) [] odm_workflow_step [] "http://clowder/" "KEY"
    {| ws_step := odm_workflow_step; ws_password := None |} []
    {| local_paths := ["/in/exp.yaml"]; res_type := Some "collection";
       res_id := Some "c0"; res_parent := None |}
    {| world := 0%nat; trace := [] |}
  = (Raised (RuntimeError "Unable to find dataset ID to place files into"),
     {| world := 0%nat; trace := [] |}).
Proof.
  split; [|split].
  - apply (proj1 (process_result_file_target Sample.repr nat (Sample.respond 0)
                    (VList [Sample.plain_result]) [] odm_workflow_step []
                    "http://clowder/" "KEY"
                    {| ws_step := odm_workflow_step; ws_password := None |} []
                    Sample.resource {| world := 0%nat; trace := [] |}));
      reflexivity.
  - apply (proj1 (proj2 (process_result_file_target Sample.repr nat
                    (Sample.respond 0) (VList [Sample.plain_result]) []
                    odm_workflow_step [] "http://clowder/" "KEY"
                    {| ws_step := odm_workflow_step; ws_password := None |} []
                    {| local_paths := ["/in/exp.yaml"]; res_type := Some "file";
                       res_id := Some "f0";
                       res_parent := Some (Some "dataset", Some "d0") |}
                    {| world := 0%nat; trace := [] |})));
      reflexivity.
  - apply (proj2 (proj2 (process_result_file_target Sample.repr nat
                    (Sample.respond 0) (VList [Sample.plain_result]) []
                    odm_workflow_step [] "http://clowder/" "KEY"
                    {| ws_step := odm_workflow_step; ws_password := None |} []
                    {| local_paths := ["/in/exp.yaml"];
                       res_type := Some "collection";
                       res_id := Some "c0"; res_parent := None |}
                    {| world := 0%nat; trace := [] |})));
      discriminate.
Defined.

Lemma process_results_json_without_payload_witness :
  process_results_json Sample.repr nat (Sample.respond 0)
    (VDict [("speed", VInt 3)]) [] odm_workflow_step "http://clowder/" "KEY"
    {| ws_step := odm_workflow_step; ws_password := None |} [] Sample.resource
    {| world := 0%nat; trace := [] |}
  = (Raised (KeyError "code"), {| world := 0%nat; trace := [] |})
  /\
  process_results_json Sample.repr nat (Sample.respond 0)
    (VDict [("code", VStr " 0 "); ("speed", VInt 3)]) [] odm_workflow_step
    "http://clowder/" "KEY"
    {| ws_step := odm_workflow_step; ws_password := None |} [] Sample.resource
    {| world := 0%nat; trace := [] |}
  = (Returned true, {| world := 0%nat; trace := [] |}).
Proof.
  split.
  - apply (proj1 (process_results_json_without_payload Sample.repr nat
                    (Sample.respond 0) (VDict [("speed", VInt 3)]) []
                    odm_workflow_step "http://clowder/" "KEY"
                    {| ws_step := odm_workflow_step; ws_password := None |} []
                    Sample.resource {| world := 0%nat; trace := [] |})).
    reflexivity.
  - apply (proj2 (process_results_json_without_payload Sample.repr nat
                    (Sample.respond 0)
                    (VDict [("code", VStr " 0 "); ("speed", VInt 3)]) []
                    odm_workflow_step "http://clowder/" "KEY"
                    {| ws_step := odm_workflow_step; ws_password := None |} []
                    Sample.resource {| world := 0%nat; trace := [] |})
             [("code", VStr " 0 "); ("speed", VInt 3)] (VStr " 0 "));
      reflexivity.
Defined.

Lemma relocate_files_finds_experiment_file_witness :
  "/mnt/tmpjhvq63gh/odm_workflow/images"
  = join (BASE_DIR Sample.env) [lstrip (DATA_FOLDER_NAME Sample.env) "/"] /\
  exists f,
    In f (local_paths Sample.resource) /\
    endswith f (EXPERIMENT_METADATA_FILENAME Sample.env) = true /\
    Some "/mnt/tmpjhvq63gh/odm_workflow/exp.yaml"
    = Some (join (BASE_DIR Sample.env)
              [RELATIVE_WORKING_FOLDER Sample.env; basename f]).
Proof.
  apply (relocate_files_finds_experiment_file nat (Sample.respond 0)
           "/home/extractor" "/mnt/tmpjhvq63gh" "/tmpjhvq63gh" "testing"
           odm_workflow_step Sample.resource Sample.env
           {| world := 0%nat; trace := [] |}
           "/mnt/tmpjhvq63gh/odm_workflow/images"
           (Some "/mnt/tmpjhvq63gh/odm_workflow/exp.yaml")
           (snd (relocate_files nat (Sample.respond 0) "/home/extractor"
                   Sample.env (SrcResource Sample.resource)
                   {| world := 0%nat; trace := [] |})));
    reflexivity.
Defined.

Lemma process_message_needs_settings_witness :
  forallb is_framework
    (trace (snd (run nat
       (process_message lower Sample.with_key Sample.repr nat (Sample.respond 0)
          "/home/extractor" 3 (Some "testing") (Some "") WORKFLOW
          "http://clowder/" "KEY" Sample.resource) 0%nat))) = true /\
  forall u,
    fst (run nat
           (process_message lower Sample.with_key Sample.repr nat (Sample.respond 0)
              "/home/extractor" 3 (Some "testing") (Some "") WORKFLOW
              "http://clowder/" "KEY" Sample.resource) 0%nat) <> Returned u.
Proof.
  apply (process_message_needs_settings lower Sample.with_key Sample.repr nat
           (Sample.respond 0) "/home/extractor" 3 (Some "testing") (Some "")
           WORKFLOW "http://clowder/" "KEY" Sample.resource 0%nat).
  right. right. right. reflexivity.
Defined.



